(** * Integration-test helpers and page objects of the dashboard test suite

    A shallow embedding of
      openstack_dashboard/test/integration_tests/helpers.py
      openstack_dashboard/test/integration_tests/pages/identity/userspage.py
      openstack_dashboard/test/integration_tests/pages/project/compute/volumes/volumespage.py
      openstack_dashboard/test/integration_tests/pages/project/compute/access_and_security/apiaccesspage.py

    Python code that touches the browser, the file system or a child process
    is a computation over an explicit world; a raised exception is an
    outcome of the computation, not a value. *)

From Stdlib Require Import String Ascii ZArith Lia.
From stdpp Require Import gmap strings list.

Set Warnings "-register-all".

Local Open Scope string_scope.
Local Open Scope list_scope.

(** ** Python values, exceptions and computations *)

Module Py.

(** An exception class: its [__name__] and whether it derives from
    [Exception] ([KeyboardInterrupt], [SystemExit] and [GeneratorExit]
    derive from [BaseException] only). *)
Record ExcClass : Type := MkExcClass {
  cls_name : string;
  derives_Exception : bool
}.

(** A raised exception: its class and its message. *)
Record Exc : Type := MkExc {
  exc_type : ExcClass;
  exc_msg : string
}.

(** [sys.exc_info()] as the hooks receive it: [exc_info[0]] is the class. *)
Record ExcInfo : Type := MkExcInfo {
  exc_info_0 : ExcClass;
  exc_info_1 : string
}.

Definition exc_info_of (e : Exc) : ExcInfo :=
  MkExcInfo (exc_type e) (exc_msg e).

Definition SkipTest : ExcClass := MkExcClass "SkipTest" true.
Definition AttributeError : ExcClass := MkExcClass "AttributeError" true.
Definition TypeError : ExcClass := MkExcClass "TypeError" true.
Definition IndexError : ExcClass := MkExcClass "IndexError" true.
Definition KeyError : ExcClass := MkExcClass "KeyError" true.
Definition IOError : ExcClass := MkExcClass "IOError" true.
Definition OSError : ExcClass := MkExcClass "OSError" true.
Definition UnboundLocalError : ExcClass := MkExcClass "UnboundLocalError" true.
Definition TimeoutException : ExcClass := MkExcClass "TimeoutException" true.
Definition KeyboardInterrupt : ExcClass := MkExcClass "KeyboardInterrupt" false.
Definition SystemExit : ExcClass := MkExcClass "SystemExit" false.

(** The last line of [traceback.format_exc()]; the frames are left out. *)
Definition format_exc (e : Exc) : string :=
  cls_name (exc_type e) +:+ ": " +:+ exc_msg e.

Inductive Outcome (A : Type) : Type :=
| Return (a : A)
| Raise (e : Exc).
Arguments Return {A} a.
Arguments Raise {A} e.

(** A computation over a world [W]. *)
Definition M (W A : Type) : Type := W -> Outcome A * W.

Definition ret {W A} (a : A) : M W A := fun w => (Return a, w).

Definition bind {W A B} (m : M W A) (k : A -> M W B) : M W B :=
  fun w =>
    match m w with
    | (Return a, w1) => k a w1
    | (Raise e, w1) => (Raise e, w1)
    end.

Definition raise {W A} (e : Exc) : M W A := fun w => (Raise e, w).

Definition gets {W A} (f : W -> A) : M W A := fun w => (Return (f w), w).

Definition modify {W} (f : W -> W) : M W unit := fun w => (Return tt, f w).

(** [try: body / finally: fin].  The [finally] block runs on both exits;
    an exception of the body is re-raised after it unless the block
    raises itself. *)
Definition try_finally {W A} (body : M W A) (fin : M W unit) : M W A :=
  fun w =>
    match body w with
    | (Return a, w1) =>
        match fin w1 with
        | (Return _, w2) => (Return a, w2)
        | (Raise e2, w2) => (Raise e2, w2)
        end
    | (Raise e, w1) =>
        match fin w1 with
        | (Return _, w2) => (Raise e, w2)
        | (Raise e2, w2) => (Raise e2, w2)
        end
    end.

(** [try: body / except Exception: handler]: only an exception whose class
    derives from [Exception] reaches the handler. *)
Definition try_except_Exception {W A}
    (body : M W A) (handler : Exc -> M W A) : M W A :=
  fun w =>
    match body w with
    | (Return a, w1) => (Return a, w1)
    | (Raise e, w1) =>
        if derives_Exception (exc_type e) then handler e w1
        else (Raise e, w1)
    end.

Definition completes {W A} (m : M W A) (w : W) : bool :=
  match fst (m w) with Return _ => true | Raise _ => false end.

Declare Scope py_scope.
Delimit Scope py_scope with py.
Notation "'do' x <- m ; k" := (bind m (fun x => k))
  (at level 10, x name, m at level 100, k at level 200) : py_scope.
Notation "'do_' m ; k" := (bind m (fun _ => k))
  (at level 10, m at level 100, k at level 200) : py_scope.

End Py.

Import Py.
Local Open Scope py_scope.

(** ** helpers.py: the decorators [once_only] and [ignore_skip] *)

Module Decorators.

Section OnceOnly.
Context {W Args A : Type}.

(** [once_only(func)]: the list [called_funcs] is created by the decoration
    and lives in the closure of [wrapper]; here it is the first component of
    the world.  [name] is [func.__name__].  The name is appended before the
    body runs, and the wrapper returns [None] when the guard fails. *)
Definition once_only (name : string) (func : Args -> M W A)
    : Args -> M (list string * W) (option A) :=
  fun args cw =>
    let called_funcs := fst cw in
    if negb (existsb (String.eqb name) called_funcs) then
      let called_funcs := called_funcs ++ [name] in
      match func args (snd cw) with
      | (Return a, w1) => (Return (Some a), (called_funcs, w1))
      | (Raise e, w1) => (Raise e, (called_funcs, w1))
      end
    else (Return None, cw).

(** The world right after the decoration: [called_funcs = []]. *)
Definition decorated (w : W) : list string * W := ([], w).

(** Successive calls of one wrapper, the outcome of each collected; every
    test calls the wrapper from its own [setUp], so an exception of one
    call does not prevent the next call. *)
Fixpoint call_all (f : Args -> M (list string * W) (option A))
    (argss : list Args) (cw : list string * W)
    : list (Outcome (option A)) * (list string * W) :=
  match argss with
  | [] => ([], cw)
  | args :: rest =>
      let '(o, cw1) := f args cw in
      let '(os, cw2) := call_all f rest cw1 in
      (o :: os, cw2)
  end.

(** What the caller of the wrapper sees of an outcome of the body. *)
Definition wrapped (o : Outcome A) : Outcome (option A) :=
  match o with
  | Return a => Return (Some a)
  | Raise e => Raise e
  end.

End OnceOnly.

Section IgnoreSkip.
Context {W : Type}.

(** [ignore_skip(func)]: the wrapper compares [exc_info[0].__name__] with
    'SkipTest' and returns at once on a match; [self] is the world. *)
Definition ignore_skip (func : ExcInfo -> M W unit) : ExcInfo -> M W unit :=
  fun exc_info =>
    if String.eqb (cls_name (exc_info_0 exc_info)) "SkipTest" then ret tt
    else func exc_info.

End IgnoreSkip.

End Decorators.

(** ** helpers.py: [VideoRecorder], [BaseTestCase] and [TestCase] *)

Module Helpers.
Import Decorators.

(** The browser log as [driver.get_log] returns it: a dict with a
    'message', a list of logs, or a text. *)
Inductive BrowserLog : Type :=
| LogDict (message : string)
| LogList (items : list BrowserLog)
| LogText (text : string).

(** Calls that leave the test process (browser, X server, child process,
    file system) or enter page objects and the test framework. *)
Inductive Call : Type :=
| Xvfb (width height : Z)
| extend_xvfb_args (attr : string) (args : list string)
| get_next_unused_display
| vdisplay_start
| vdisplay_stop
| WebDriverWrapper
| maximize_window
| set_window_size (width height : string)
| implicitly_wait
| set_page_load_timeout
| driver_quit
| get_screenshot_as_file (path : string)
| get_log (kind : string)
| find_element_by_tag_name (tag : string)
| get_attribute (attr : string)
| xdpyinfo
| Popen_ffmpeg
| send_signal_SIGINT
| communicate
| makedirs (path : string)
| open_w (path : string)
| write (path data : string)
| copyfile (src dst : string)
| go_to_login_page
| login (user password : string)
| change_project (project : string)
| find_message_and_dismiss (kind : string)
| go_to_identity_projectspage
| is_project_present (project : string)
| create_project (project : string)
| go_to_identity_userspage
| is_user_present (user : string)
| delete_user (user : string)
| create_user (user password project role : string)
| is_logged_in
| go_to_home_page
| log_out
| super_setUp
| super_tearDown.

(** What surrounds one run of a fixture method and is only read by it.
    [fails n c] is the exception call [c] raises when it is the [n]-th call
    of the run ([None]: it returns); [answers n c] is what a query of the
    live page returns there. *)
Record Setting : Type := MkSetting {
  environ : gmap string string;
  fails : nat -> Call -> option Exc;
  answers : nat -> Call -> bool;
  maximize_browser : bool;
  has_extra_xvfb_args : bool;
  ROOT_PATH : string;
  class_name : string;
  testMethodName : string;
  innerHTML : string;
  browser_log : BrowserLog;
  next_display : string;
  file_path : string;
  ADMIN_NAME : string;
  ADMIN_PASSWORD : string;
  ADMIN_PROJECT : string;
  DEMO_NAME : string;
  DEMO_PASSWORD : string;
  DEMO_PROJECT : string;
  TEST_USER_NAME : string;
  TEST_PASSWORD : string;
  HOME_PROJECT : string
}.

(** What the fixture methods change: the log of calls issued so far (oldest
    first, a raising call included), the details attached to the test, the
    directories that exist, [self._log_buffer], whether [self.vdisplay] is
    bound, [self.screencapture.is_launched], the hooks registered with
    [addOnException], and the module-level [DISP_NUM[0]]. *)
Record State : Type := MkState {
  calls : list Call;
  details : gmap string string;
  dirs : gset string;
  log_buffer : string;
  vdisplay : bool;
  is_launched : bool;
  on_exception : list string;
  DISP_NUM : string
}.

Definition initial : State :=
  MkState [] ∅ ∅ "" false false [] "0.0".

Definition set_calls (f : list Call -> list Call) (s : State) : State :=
  MkState (f (calls s)) (details s) (dirs s) (log_buffer s) (vdisplay s)
          (is_launched s) (on_exception s) (DISP_NUM s).

Definition set_details (f : gmap string string -> gmap string string)
    (s : State) : State :=
  MkState (calls s) (f (details s)) (dirs s) (log_buffer s) (vdisplay s)
          (is_launched s) (on_exception s) (DISP_NUM s).

Definition set_dirs (f : gset string -> gset string) (s : State) : State :=
  MkState (calls s) (details s) (f (dirs s)) (log_buffer s) (vdisplay s)
          (is_launched s) (on_exception s) (DISP_NUM s).

Definition set_log_buffer (b : string) (s : State) : State :=
  MkState (calls s) (details s) (dirs s) b (vdisplay s)
          (is_launched s) (on_exception s) (DISP_NUM s).

Definition set_vdisplay (b : bool) (s : State) : State :=
  MkState (calls s) (details s) (dirs s) (log_buffer s) b
          (is_launched s) (on_exception s) (DISP_NUM s).

Definition set_is_launched (b : bool) (s : State) : State :=
  MkState (calls s) (details s) (dirs s) (log_buffer s) (vdisplay s)
          b (on_exception s) (DISP_NUM s).

Definition set_on_exception (f : list string -> list string) (s : State)
    : State :=
  MkState (calls s) (details s) (dirs s) (log_buffer s) (vdisplay s)
          (is_launched s) (f (on_exception s)) (DISP_NUM s).

Definition set_DISP_NUM (d : string) (s : State) : State :=
  MkState (calls s) (details s) (dirs s) (log_buffer s) (vdisplay s)
          (is_launched s) (on_exception s) d.

(** [os.environ.get(name, False)] used as a condition: true exactly when
    the variable is set to a non-empty text. *)
Definition environ_get (env : gmap string string) (name : string) : bool :=
  match env !! name with
  | Some v => negb (String.eqb v "")
  | None => false
  end.

(** [os.path.join] of a directory and a relative name. *)
Definition path_join (a b : string) : string := a +:+ "/" +:+ b.

Section Calls.
Variable cfg : Setting.

(** A call that returns nothing: logged, then it raises or returns. *)
Definition call (c : Call) : M State unit :=
  fun s =>
    let s1 := set_calls (fun l => l ++ [c]) s in
    match fails cfg (length (calls s)) c with
    | Some e => (Raise e, s1)
    | None => (Return tt, s1)
    end.

(** A query of the live page: logged, then it raises or answers. *)
Definition ask (c : Call) : M State bool :=
  fun s =>
    let s1 := set_calls (fun l => l ++ [c]) s in
    match fails cfg (length (calls s)) c with
    | Some e => (Raise e, s1)
    | None => (Return (answers cfg (length (calls s)) c), s1)
    end.

(** *** VideoRecorder *)

Definition VideoRecorder_init : M State unit :=
  do_ modify (set_is_launched false);
  call xdpyinfo.

Definition VideoRecorder_start : M State unit :=
  do launched <- gets is_launched;
  if negb launched then
    do_ call (open_w "/dev/null");
    do_ call Popen_ffmpeg;
    modify (set_is_launched true)
  else ret tt.

Definition VideoRecorder_stop : M State unit :=
  do launched <- gets is_launched;
  if launched then
    do_ call send_signal_SIGINT;
    do_ call communicate;
    modify (set_is_launched false)
  else ret tt.

End Calls.

(** *** BaseTestCase *)

Module BaseTestCase.
Section Methods.
Variable cfg : Setting.

Definition skipException (msg : string) : Exc := MkExc SkipTest msg.

Definition _configure_log : M State unit :=
  modify (set_log_buffer "").

Definition addOnException (hook : string) : M State unit :=
  modify (set_on_exception (fun l => l ++ [hook])).

Definition setUp : M State unit :=
  do_ _configure_log;
  if negb (environ_get (environ cfg) "INTEGRATION_TESTS") then
    raise (skipException "The INTEGRATION_TESTS env variable is not set.")
  else
  do_ (if environ_get (environ cfg) "SELENIUM_HEADLESS" then
         do_ call cfg (Xvfb 1920 1080);
         do_ modify (set_vdisplay true);
         let args := ["-noreset"; "-ac"] in
         do_ (if has_extra_xvfb_args cfg
              then call cfg (extend_xvfb_args "extra_xvfb_args" args)
              else call cfg (extend_xvfb_args "xvfb_cmd" args));
         do_ call cfg get_next_unused_display;
         do_ modify (set_DISP_NUM (next_display cfg));
         call cfg vdisplay_start
       else ret tt);
  do_ call cfg WebDriverWrapper;
  do_ (if maximize_browser cfg then
         do_ call cfg maximize_window;
         if environ_get (environ cfg) "SELENIUM_HEADLESS"
         then call cfg (set_window_size "1920" "1080")
         else ret tt
       else ret tt);
  do_ call cfg implicitly_wait;
  do_ call cfg set_page_load_timeout;
  do_ VideoRecorder_init cfg;
  do_ VideoRecorder_start cfg;
  do_ addOnException "_attach_page_source";
  do_ addOnException "_attach_screenshot";
  do_ addOnException "_attach_video";
  do_ addOnException "_attach_browser_log";
  do_ addOnException "_attach_test_log";
  call cfg super_setUp.

Definition report_dir : string :=
  path_join (path_join (ROOT_PATH cfg) "test_reports")
            (class_name cfg +:+ "." +:+ testMethodName cfg).

(** The property [_test_report_dir]: the directory is made when
    [os.path.isdir] does not find it. *)
Definition _test_report_dir : M State string :=
  do present <- gets (fun s => bool_decide (report_dir ∈ dirs s));
  do_ (if negb present then
         do_ call cfg (makedirs report_dir);
         modify (set_dirs (fun d => {[report_dir]} ∪ d))
       else ret tt);
  ret report_dir.

Definition addDetail (label text : string) : M State unit :=
  modify (set_details (fun d => <[label := text]> d)).

(** [with self.log_exception(label): body].  The generator catches
    [Exception] at its [yield] and attaches the traceback as a detail; the
    with statement then swallows the exception. *)
Definition log_exception (label : string) (body : M State unit)
    : M State unit :=
  try_except_Exception body (fun e => addDetail label (format_exc e)).

Fixpoint rec (log : BrowserLog) : string :=
  match log with
  | LogDict message => message
  | LogList items => String.concat (String "010" EmptyString) (map rec items)
  | LogText text => text
  end.

Definition _unwrap_browser_log (_log : BrowserLog) : string := rec _log.

Definition _get_page_html_source : M State string :=
  do_ call cfg (find_element_by_tag_name "html");
  do_ call cfg (get_attribute "innerHTML");
  ret (innerHTML cfg).

(** The bodies of the five hooks, before [ignore_skip] wraps them. *)
Definition attach_page_source_body (exc_info : ExcInfo) : M State unit :=
  do report_dir <- _test_report_dir;
  let source_path := path_join report_dir "page.html" in
  log_exception "Attach page source"
    (do_ call cfg (open_w source_path);
     do html <- _get_page_html_source;
     call cfg (write source_path html)).

Definition attach_screenshot_body (exc_info : ExcInfo) : M State unit :=
  do report_dir <- _test_report_dir;
  let screen_path := path_join report_dir "screenshot.png" in
  log_exception "Attach screenshot"
    (call cfg (get_screenshot_as_file screen_path)).

Definition attach_video_body (exc_info : ExcInfo) : M State unit :=
  log_exception "Attach video"
    (do_ VideoRecorder_stop cfg;
     do report_dir <- _test_report_dir;
     call cfg (copyfile (file_path cfg) (path_join report_dir "video.mp4"))).

Definition attach_browser_log_body (exc_info : ExcInfo) : M State unit :=
  do report_dir <- _test_report_dir;
  let browser_log_path := path_join report_dir "browser.log" in
  log_exception "Attach browser log"
    (do_ call cfg (open_w browser_log_path);
     do_ call cfg (get_log "browser");
     call cfg (write browser_log_path (_unwrap_browser_log (browser_log cfg)))).

Definition attach_test_log_body (exc_info : ExcInfo) : M State unit :=
  do report_dir <- _test_report_dir;
  let test_log_path := path_join report_dir "test.log" in
  log_exception "Attach test log"
    (do_ call cfg (open_w test_log_path);
     do buffer <- gets log_buffer;
     call cfg (write test_log_path buffer)).

Definition _attach_page_source := ignore_skip attach_page_source_body.
Definition _attach_screenshot := ignore_skip attach_screenshot_body.
Definition _attach_video := ignore_skip attach_video_body.
Definition _attach_browser_log := ignore_skip attach_browser_log_body.
Definition _attach_test_log := ignore_skip attach_test_log_body.

(** The hooks with the bodies they wrap, in the order [setUp] registers
    them. *)
Definition hooks : list ((ExcInfo -> M State unit) * (ExcInfo -> M State unit)) :=
  [ (_attach_page_source, attach_page_source_body);
    (_attach_screenshot, attach_screenshot_body);
    (_attach_video, attach_video_body);
    (_attach_browser_log, attach_browser_log_body);
    (_attach_test_log, attach_test_log_body) ].

Definition tearDown : M State unit :=
  do_ VideoRecorder_stop cfg;
  do_ (if environ_get (environ cfg) "INTEGRATION_TESTS"
       then call cfg driver_quit else ret tt);
  do has_vdisplay <- gets vdisplay;
  do_ (if has_vdisplay then call cfg vdisplay_stop else ret tt);
  call cfg super_tearDown.

End Methods.
End BaseTestCase.

(** *** TestCase *)

Module TestCase.
Section Methods.
Variable cfg : Setting.

Definition AssertionError : ExcClass := MkExcClass "AssertionError" true.

Definition assertTrue (b : bool) : M State unit :=
  if b then ret tt else raise (MkExc AssertionError "False is not true").

Definition assertFalse (b : bool) : M State unit :=
  if b then raise (MkExc AssertionError "True is not false") else ret tt.

(** The body that [once_only] wraps. *)
Definition create_demo_user_body (_ : unit) : M State unit :=
  do_ call cfg (login (ADMIN_NAME cfg) (ADMIN_PASSWORD cfg));
  do_ call cfg (change_project (ADMIN_PROJECT cfg));
  do_ call cfg go_to_identity_projectspage;
  do present <- ask cfg (is_project_present (DEMO_PROJECT cfg));
  do_ (if negb present then call cfg (create_project (DEMO_PROJECT cfg))
       else ret tt);
  do_ call cfg go_to_identity_userspage;
  do present <- ask cfg (is_user_present (DEMO_NAME cfg));
  do_ (if present then call cfg (delete_user (DEMO_NAME cfg)) else ret tt);
  do_ call cfg (create_user (DEMO_NAME cfg) (DEMO_PASSWORD cfg)
                            (DEMO_PROJECT cfg) "_member_");
  do logged <- ask cfg is_logged_in;
  if logged then
    do_ call cfg go_to_home_page;
    call cfg log_out
  else ret tt.

Definition create_demo_user : unit -> M (list string * State) (option unit) :=
  once_only "create_demo_user" create_demo_user_body.

(** A method of the instance run in the process, whose world also holds
    the [called_funcs] of the decoration. *)
Definition in_process {A} (m : M State A) : M (list string * State) A :=
  fun cw =>
    match m (snd cw) with
    | (o, s1) => (o, (fst cw, s1))
    end.

Definition setUp : M (list string * State) unit :=
  do_ in_process (BaseTestCase.setUp cfg);
  do_ in_process (call cfg go_to_login_page);
  do_ create_demo_user tt;
  do_ in_process (call cfg (login (TEST_USER_NAME cfg) (TEST_PASSWORD cfg)));
  do_ in_process (call cfg (change_project (HOME_PROJECT cfg)));
  do found <- in_process (ask cfg (find_message_and_dismiss "SUCCESS"));
  do_ in_process (assertTrue found);
  do found <- in_process (ask cfg (find_message_and_dismiss "ERROR"));
  in_process (assertFalse found).

(** The statements of the [try] block: the log-out step. *)
Definition log_out_step : M State unit :=
  do logged <- ask cfg is_logged_in;
  if logged then
    do_ call cfg go_to_home_page;
    call cfg log_out
  else ret tt.

Definition tearDown : M State unit :=
  try_finally log_out_step (BaseTestCase.tearDown cfg).

End Methods.
End TestCase.

End Helpers.

(** ** The browser session the page objects drive *)

Module Session.

(** A row of a rendered table: the text each column displays. *)
Abbreviation Row := (gmap string string).

(** An entry of a directory as [os.listdir] and [os.path.isfile] see it. *)
Record DirEntry : Type := MkDirEntry {
  entry_name : string;
  entry_isfile : bool;
  entry_data : string
}.

(** Python objects the page objects construct, kept by identity.  A region
    holds the driver and the configuration it was constructed from. *)
Inductive Obj : Type :=
| Region (cls : string) (driver conf : nat) (field_mappings : list string).

(** Actions on the live page. *)
Inductive Action : Type :=
| click (button : string)
| set_text (field : string) (text : option string)
| set_value (field : string) (value : string)
| submit.

(** The live page changes while the test script sleeps: [rendered t name]
    are the rows table [name] shows at tick [t] of the polling clock, and
    [listdir t d] the entries of directory [d] then. *)
Record Browser : Type := MkBrowser {
  heap : gmap nat Obj;
  clock : nat;
  rendered : nat -> string -> list Row;
  listdir : nat -> string -> list DirEntry;
  actions : list Action
}.

Definition set_heap (f : gmap nat Obj -> gmap nat Obj) (w : Browser) : Browser :=
  MkBrowser (f (heap w)) (clock w) (rendered w) (listdir w) (actions w).

Definition set_clock (f : nat -> nat) (w : Browser) : Browser :=
  MkBrowser (heap w) (f (clock w)) (rendered w) (listdir w) (actions w).

Definition set_actions (f : list Action -> list Action) (w : Browser) : Browser :=
  MkBrowser (heap w) (clock w) (rendered w) (listdir w) (f (actions w)).

(** Calling a class: the new object gets an identity no live object has. *)
Definition new (o : Obj) : M Browser nat :=
  fun w =>
    let id := fresh (dom (heap w)) in
    (Return id, set_heap (fun h => <[id := o]> h) w).

Definition act (a : Action) : M Browser unit :=
  modify (set_actions (fun l => l ++ [a])).

(** A page object: the driver and the configuration it was given. *)
Record Page : Type := MkPage {
  page_driver : nat;
  page_conf : nat;
  _page_title : string
}.

(** The settings of the configuration the page methods read. *)
Record Conf : Type := MkConf {
  image_name : string;
  available_zone : string;
  volume_size : string;
  volume_type : string;
  polls : nat
}.

End Session.

(** ** The regions: tables, forms and the polling helper

    regions/tables.py, regions/forms.py and pages/basepage.py are not among
    the sources; what the pages need of them is modelled here. *)

Module Regions.
Import Session.

(** Modelled from the spec: [TableRegion.get_row] of regions/tables.py is
    missing; the spec has a table "supporting lookup of a row by a column's
    displayed value", a by-value lookup that does not verify uniqueness.
    The rows are searched in display order for one whose cell in [column]
    displays [text]; no row gives [None]. *)
Definition get_row (rows : list Row) (column text : string) : option Row :=
  List.find (fun row => bool_decide (row !! column = Some text)) rows.

(** [bool(row)] of a row region or [None]. *)
Definition bool_of_row (r : option Row) : bool :=
  match r with
  | Some _ => true
  | None => false
  end.

(** The rows table [name] shows now. *)
Definition rows_of (name : string) : M Browser (list Row) :=
  gets (fun w => rendered w (clock w) name).

Definition TimeoutException_raised : Exc :=
  MkExc TimeoutException "timeout waiting for the condition".

(** [time.sleep] of one polling interval. *)
Definition sleep : M Browser unit := modify (set_clock S).

Section Polling.
Context {V : Type}.
Variable truthy : V -> bool.

(** Modelled from the spec: [_wait_until] of pages/basepage.py is missing;
    the spec has it "repeatedly evaluate a supplied condition function
    against the live DOM until it returns a truthy result or a timeout
    elapses, then fail with a timeout condition", a "bounded retry with
    fixed polling interval, no backoff, no cancellation beyond the
    timeout".  [timeout] counts the polling intervals of the fixed
    timeout. *)
Fixpoint _wait_until (predicate : M Browser V) (timeout : nat)
    : M Browser V :=
  do value <- predicate;
  if truthy value then ret value
  else
    match timeout with
    | 0 => raise TimeoutException_raised
    | S remaining => do_ sleep; _wait_until predicate remaining
    end.

(** The world in which the [k]-th evaluation of the condition starts when
    no earlier evaluation ended the polling. *)
Fixpoint before_poll (predicate : M Browser V) (k : nat) (w : Browser)
    : Browser :=
  match k with
  | 0 => w
  | S j => before_poll predicate j (set_clock S (snd (predicate w)))
  end.

(** The [k]-th evaluation returns a value that is not truthy. *)
Definition falsy_at (predicate : M Browser V) (w : Browser) (k : nat) : Prop :=
  exists value,
    fst (predicate (before_poll predicate k w)) = Return value
    /\ truthy value = false.

End Polling.

(** Modelled from the spec: [TableRegion.is_row_deleted] of
    regions/tables.py is missing; the spec has the table "polling for row
    disappearance".  The condition holds when the getter finds no row. *)
Definition is_row_deleted (timeout : nat) (row_getter : M Browser (option Row))
    : M Browser bool :=
  _wait_until (fun gone : bool => gone)
    (do row <- row_getter; ret (negb (bool_of_row row))) timeout.

(** Modelled from the spec: [TableRegion.wait_cell_status] of
    regions/tables.py is missing; the spec has the table "polling for ...
    status change".  The condition holds when the cell the getter finds
    displays [status]. *)
Definition wait_cell_status (timeout : nat)
    (cell_getter : M Browser (option string)) (status : string)
    : M Browser bool :=
  _wait_until (fun reached : bool => reached)
    (do cell <- cell_getter; ret (bool_decide (cell = Some status))) timeout.

Section Forms.
(** Which attributes of a [FormRegion] with the given field mappings
    resolve to a field is decided by regions/forms.py and the displayed
    form. *)
Variable resolves : list string -> string -> bool.

(** [form.<name>]: the field, or AttributeError. *)
Definition form_field (form : nat) (name : string) : M Browser string :=
  do o <- gets (fun w => heap w !! form);
  match o with
  | Some (Region _ _ _ field_mappings) =>
      if resolves field_mappings name then ret name
      else raise (MkExc AttributeError name)
  | None => raise (MkExc AttributeError name)
  end.

End Forms.

End Regions.

(** ** pages/identity/userspage.py *)

Module UsersPage.
Import Session Regions.

Definition USERS_TABLE_NAME_COLUMN : string := "name".
Definition USERS_TABLE_ENABLED_COLUMN : string := "enabled".

(** [UsersTable.name] *)
Definition UsersTable_name : string := "users".

(** The property [users_table]: [UsersTable(self.driver, self.conf)]. *)
Definition users_table (self : Page) : M Browser nat :=
  new (Region "UsersTable" (page_driver self) (page_conf self) []).

Definition _get_row_with_user_name (self : Page) (name : string)
    : M Browser (option Row) :=
  do table <- users_table self;
  do rows <- rows_of UsersTable_name;
  ret (get_row rows USERS_TABLE_NAME_COLUMN name).

Definition is_user_present (self : Page) (name : string) : M Browser bool :=
  do row <- _get_row_with_user_name self name;
  ret (bool_of_row row).

End UsersPage.

(** ** pages/project/compute/volumes/volumespage.py *)

Module VolumesPage.
Import Session Regions.

Definition VOLUME_SOURCE_TYPE : string := "Volume".
Definition IMAGE_SOURCE_TYPE : string := "Image".

Definition VolumesTable_name : string := "volumes".

Definition CREATE_VOLUME_FROM_IMAGE_FORM_FIELDS : list string :=
  ["name"; "description"; "volume_source_type"; "image_source";
   "type"; "size"; "availability_zone"].

Definition VOLUMES_TABLE_NAME_COLUMN : string := "name".
Definition VOLUMES_TABLE_STATUS_COLUMN : string := "status".

(** The values the local variable [volume_source_type] of [create_volume]
    holds: the text passed in, then what [_get_source_name] returned, a
    pair of a form field and a name, or [None]. *)
Inductive Value : Type :=
| VNone
| VStr (s : string)
| VField (name : string)
| VPair (first second : Value).

(** [a == b]: values of different types are never equal. *)
Fixpoint py_eq (a b : Value) : bool :=
  match a, b with
  | VNone, VNone => true
  | VStr s, VStr t => String.eqb s t
  | VField f, VField g => String.eqb f g
  | VPair a1 a2, VPair b1 b2 => py_eq a1 b1 && py_eq a2 b2
  | _, _ => false
  end.

(** [a != b] *)
Definition py_ne (a b : Value) : bool := negb (py_eq a b).

Definition of_option (o : option string) : Value :=
  match o with
  | Some s => VStr s
  | None => VNone
  end.

Definition to_option (v : Value) : option string :=
  match v with
  | VStr s => Some s
  | _ => None
  end.

(** [v[i]] for [i] in 0, 1: a pair has items, [None] has none. *)
Definition getitem (v : Value) (i : nat) : M Browser Value :=
  match v, i with
  | VPair first _, 0 => ret first
  | VPair _ second, 1 => ret second
  | VPair _ _, _ => raise (MkExc IndexError "tuple index out of range")
  | VStr s, _ =>
      match String.get i s with
      | Some c => ret (VStr (String c EmptyString))
      | None => raise (MkExc IndexError "string index out of range")
      end
  | _, _ =>
      raise (MkExc TypeError "object has no attribute '__getitem__'")
  end.

(** [target.text = text] *)
Definition assign_text (target text : Value) : M Browser unit :=
  match target with
  | VField name => act (set_text name (to_option text))
  | _ => raise (MkExc AttributeError "text")
  end.

Section Methods.
Variable CONFIG : Conf.
Variable resolves : list string -> string -> bool.

(** The property [volumes_table]: [VolumesTable(self.driver, self.conf)]. *)
Definition volumes_table (self : Page) : M Browser nat :=
  new (Region "VolumesTable" (page_driver self) (page_conf self) []).

(** [VolumesTable.create_volume], bound to the table action 'create'. *)
Definition VolumesTable_create_volume (self : Page) : M Browser nat :=
  do_ act (click "create");
  new (Region "FormRegion" (page_driver self) (page_conf self)
              CREATE_VOLUME_FROM_IMAGE_FORM_FIELDS).

Definition _get_row_with_volume_name (self : Page) (name : string)
    : M Browser (option Row) :=
  do table <- volumes_table self;
  do rows <- rows_of VolumesTable_name;
  ret (get_row rows VOLUMES_TABLE_NAME_COLUMN name).

Definition _get_source_name (volume_form : nat) (volume_source_type : string)
    (volume_source : option string) : M Browser Value :=
  if String.eqb volume_source_type IMAGE_SOURCE_TYPE then
    do field <- form_field resolves volume_form "image_source";
    ret (VPair (VField field) (VStr (image_name CONFIG)))
  else if String.eqb volume_source_type VOLUME_SOURCE_TYPE then
    do field <- form_field resolves volume_form "volume_id";
    ret (VPair (VField field) (of_option volume_source))
  else ret VNone.

(** [form.<name>.text = text] and [form.<name>.value = value] *)
Definition set_field_text (form : nat) (name : string) (text : string)
    : M Browser unit :=
  do field <- form_field resolves form name;
  act (set_text field (Some text)).

Definition set_field_value (form : nat) (name : string) (value : string)
    : M Browser unit :=
  do field <- form_field resolves form name;
  act (set_value field value).

(** The comparison [volume_source_type != "Volume"] at the end of
    [create_volume], on the value the local variable holds there. *)
Definition guard (volume_source_type : Value) : bool :=
  py_ne volume_source_type (VStr "Volume").

Definition create_volume (self : Page) (volume_name : string)
    (description : option string) (volume_source_type : string)
    (volume_size : option string) (volume_source : option string)
    : M Browser unit :=
  do table <- volumes_table self;
  do volume_form <- VolumesTable_create_volume self;
  do_ set_field_text volume_form "name" volume_name;
  do_ match description with
      | Some d => set_field_text volume_form "description" d
      | None => ret tt
      end;
  do_ set_field_text volume_form "volume_source_type" volume_source_type;
  do volume_source_type <-
    _get_source_name volume_form volume_source_type volume_source;
  do text <- getitem volume_source_type 1;
  do target <- getitem volume_source_type 0;
  do_ assign_text target text;
  let volume_size :=
    match volume_size with
    | Some n => n
    | None => Session.volume_size CONFIG
    end in
  do_ set_field_value volume_form "size" volume_size;
  do_ (if guard volume_source_type then
         do_ set_field_value volume_form "type" (volume_type CONFIG);
         set_field_value volume_form "availability_zone"
                         (available_zone CONFIG)
       else ret tt);
  act submit.

Definition is_volume_present (self : Page) (name : string) : M Browser bool :=
  do row <- _get_row_with_volume_name self name;
  ret (bool_of_row row).

(** [cell_getter] is [row and row.cells[...]]: None when no row is found,
    else the cell, and a column the row does not have is a KeyError. *)
Definition is_volume_status (self : Page) (name status : string)
    : M Browser bool :=
  let cell_getter :=
    do row <- _get_row_with_volume_name self name;
    match row with
    | Some r =>
        match r !! VOLUMES_TABLE_STATUS_COLUMN with
        | Some cell => ret (Some cell)
        | None => raise (MkExc KeyError VOLUMES_TABLE_STATUS_COLUMN)
        end
    | None => ret None
    end in
  do table <- volumes_table self;
  wait_cell_status (polls CONFIG) cell_getter status.

Definition is_volume_deleted (self : Page) (name : string) : M Browser bool :=
  do table <- volumes_table self;
  is_row_deleted (polls CONFIG) (_get_row_with_volume_name self name).

End Methods.

End VolumesPage.

(** ** The regular expressions of apiaccesspage.py *)

Module Re.

(** The double quote. *)
Definition dq : ascii := "034"%char.

(** The newline. *)
Definition nl : ascii := "010"%char.

(** The two character classes the patterns use: any character but the
    double quote, and the dot (any character but a newline). *)
Inductive CharClass : Type :=
| not_quote
| any_char.

Definition in_class (cls : CharClass) (c : ascii) : bool :=
  match cls with
  | not_quote => negb (Ascii.eqb c dq)
  | any_char => negb (Ascii.eqb c nl)
  end.

(** A pattern of the shape [literal(cls+)closing]: literal text, one group
    of one or more characters of a class, literal text. *)
Record Regex : Type := MkRegex {
  literal : string;
  group_class : CharClass;
  closing : string
}.

(** [s] without the prefix [p], when it starts with it. *)
Fixpoint strip_prefix (p s : string) : option string :=
  match p, s with
  | EmptyString, _ => Some s
  | String a p', String b s' =>
      if Ascii.eqb a b then strip_prefix p' s' else None
  | String _ _, EmptyString => None
  end.

(** The longest non-empty run of characters of [cls] at the start of [s]
    that [closing] follows (the group is greedy and backtracks). *)
Fixpoint group_at (cls : CharClass) (closing s : string) : option string :=
  match s with
  | EmptyString => None
  | String c rest =>
      if in_class cls c then
        match group_at cls closing rest with
        | Some g => Some (String c g)
        | None =>
            match strip_prefix closing rest with
            | Some _ => Some (String c EmptyString)
            | None => None
            end
        end
      else None
  end.

(** A match that starts at the first character of [s]: its group 1. *)
Definition match_here (re : Regex) (s : string) : option string :=
  match strip_prefix (literal re) s with
  | Some rest => group_at (group_class re) (closing re) rest
  | None => None
  end.

(** [re.search(pattern, s)]: the leftmost match; [None] when there is
    none, else group 1 of the match. *)
Fixpoint search (re : Regex) (s : string) : option string :=
  match match_here re s with
  | Some g => Some g
  | None =>
      match s with
      | EmptyString => None
      | String _ rest => search re rest
      end
  end.

Definition quoted (name : string) : Regex :=
  MkRegex (name +:+ String dq EmptyString) not_quote (String dq EmptyString).

Definition to_end_of_line (name : string) : Regex :=
  MkRegex name any_char EmptyString.

End Re.

(** ** pages/project/compute/access_and_security/apiaccesspage.py *)

Module ApiaccessPage.
Import Session Regions.

Definition API_ACCESS_TABLE_SERVICE_COLUMN : string := "api_name".

Definition ApiAccessTable_name : string := "endpoints".

(** [s.endswith(suffix)] *)
Definition endswith (s suffix : string) : bool :=
  let n := String.length s in
  let m := String.length suffix in
  (m <=? n)%nat && String.eqb (String.substring (n - m) m s) suffix.

Section Methods.
Variable CONFIG : Conf.

(** The property [apiaccess_table]: [ApiAccessTable(self.driver, self.conf)]. *)
Definition apiaccess_table (self : Page) : M Browser nat :=
  new (Region "ApiAccessTable" (page_driver self) (page_conf self) []).

(** The table actions 'download_openrc_v2' and 'download_openrc'. *)
Definition download_openstack_rc_v2 (table : nat) : M Browser unit :=
  act (click "download_openrc_v2").

Definition download_openstack_rc_v3 (table : nat) : M Browser unit :=
  act (click "download_openrc").

Definition download_openstack_rc_file (self : Page) (version : Z)
    (directory template : string) : M Browser unit :=
  if (version =? 2)%Z then
    do table <- apiaccess_table self;
    download_openstack_rc_v2 table
  else if (version =? 3)%Z then
    do table <- apiaccess_table self;
    download_openstack_rc_v3 table
  else ret tt.

Definition list_of_files (directory template : string)
    : M Browser (list string) :=
  gets (fun w =>
    map entry_name
      (List.filter
         (fun f => entry_isfile f && endswith (entry_name f) template)
         (listdir w (clock w) directory))).

(** [open(join(directory, file_name)).read()] *)
Definition read_file (directory file_name : string) : M Browser string :=
  do entries <- gets (fun w => listdir w (clock w) directory);
  match List.find (fun f => String.eqb (entry_name f) file_name && entry_isfile f)
                  entries with
  | Some f => ret (entry_data f)
  | None => raise (MkExc IOError file_name)
  end.

(** [search(pattern, content).group(1)]: [search] gives [None] when
    nothing matches, and [None] has no [group]. *)
Definition group_1 (pattern : Re.Regex) (content : string) : M Browser string :=
  match Re.search pattern content with
  | Some g => ret g
  | None => raise (MkExc AttributeError "'NoneType' object has no attribute 'group'")
  end.

(** Reading a local variable that no executed statement has bound. *)
Definition local (name : string) (v : option Re.Regex) : M Browser Re.Regex :=
  match v with
  | Some re => ret re
  | None => raise (MkExc UnboundLocalError name)
  end.

Definition username_re : Re.Regex := Re.quoted "export OS_USERNAME=".

(** The two local variables the version branches bind: both in the branch
    of version 2 or of version 3, none otherwise. *)
Definition tenant_name_re (version : Z) : option Re.Regex :=
  if (version =? 2)%Z then Some (Re.quoted "export OS_TENANT_NAME=")
  else if (version =? 3)%Z then Some (Re.quoted "export OS_PROJECT_NAME=")
  else None.

Definition tenant_id_re (version : Z) : option Re.Regex :=
  if (version =? 2)%Z then Some (Re.to_end_of_line "export OS_TENANT_ID=")
  else if (version =? 3)%Z then Some (Re.to_end_of_line "export OS_PROJECT_ID=")
  else None.

Definition get_credentials_from_file (self : Page) (version : Z)
    (directory template : string) : M Browser (gmap string string) :=
  do_ _wait_until (fun found : bool => found)
        (do files <- list_of_files directory template;
         ret (0 <? length files)%nat)
        (polls CONFIG);
  do files <- list_of_files directory template;
  do file_name <-
    match files with
    | f :: _ => ret f
    | [] => raise (MkExc IndexError "list index out of range")
    end;
  do content <- read_file directory file_name;
  do username <- group_1 username_re content;
  do re <- local "tenant_name_re" (tenant_name_re version);
  do tenant_name <- group_1 re content;
  do re <- local "tenant_id_re" (tenant_id_re version);
  do tenant_id <- group_1 re content;
  let cred_dict : gmap string string :=
    <["OS_USERNAME" := username]>
      (<["OS_TENANT_NAME" := tenant_name]>
        (<["OS_TENANT_ID" := tenant_id]> ∅)) in
  ret cred_dict.

End Methods.

End ApiaccessPage.

(** ** helpers.py: [gen_random_resource_name] *)

Module Names.

(** [s.replace(c, '')] for a single character [c]. *)
Fixpoint remove (c : ascii) (s : string) : string :=
  match s with
  | EmptyString => EmptyString
  | String a rest =>
      if Ascii.eqb a c then remove c rest else String a (remove c rest)
  end.

(** [gen_random_resource_name(resource, timestamp)].  What
    [time.strftime("%d-%m-%H-%M-%S")] and [str(uuid.uuid4())] return is
    given. *)
Definition gen_random_resource_name (resource : string) (timestamp : bool)
    (tstamp uuid4 : string) : string :=
  let fields := ["horizon"] in
  let fields :=
    if negb (String.eqb resource EmptyString) then fields ++ [resource] else fields in
  let fields := if timestamp then fields ++ [tstamp] else fields in
  let fields := fields ++ [remove "-" uuid4] in
  String.concat "_" fields.

End Names.

(** ** helpers.py: [AssertsMixin] *)

Module AssertsMixin.

(** The values a sequence under test holds, as far as comparing them with
    True and False goes. *)
Inductive Item : Type :=
| IBool (b : bool)
| IInt (z : Z)
| INone
| IStr (s : string).

(** [x == y]: a bool equals the integer 1 or 0. *)
Definition item_eq (x y : Item) : bool :=
  match x, y with
  | IBool a, IBool b => Bool.eqb a b
  | IBool a, IInt z | IInt z, IBool a => Z.eqb z (if a then 1 else 0)
  | IInt a, IInt b => Z.eqb a b
  | INone, INone => true
  | IStr s, IStr t => String.eqb s t
  | _, _ => false
  end.

(** [first == second] on lists: the same length, and equal item by item. *)
Fixpoint list_eq (first second : list Item) : bool :=
  match first, second with
  | [], [] => true
  | x :: xs, y :: ys => item_eq x y && list_eq xs ys
  | _, _ => false
  end.

(** [testtools.matchers.MismatchError], which derives from
    AssertionError. *)
Definition MismatchError : ExcClass := MkExcClass "MismatchError" true.

Section Asserts.
Context {W : Type}.

(** The text with which testtools describes a mismatch. *)
Variable describe : list Item -> list Item -> string.

(** [assertEqual(expected, observed)] of [testtools.TestCase], the base
    class of [BaseTestCase]: the matcher compares [observed == expected],
    and a mismatch raises MismatchError. *)
Definition assertEqual (expected observed : list Item) : M W unit :=
  if list_eq observed expected then ret tt
  else raise (MkExc MismatchError (describe expected observed)).

Definition assertSequenceTrue (actual : list Item) : M W unit :=
  assertEqual actual (repeat (IBool true) (length actual)).

Definition assertSequenceFalse (actual : list Item) : M W unit :=
  assertEqual actual (repeat (IBool false) (length actual)).

End Asserts.

End AssertsMixin.

(** ** Page objects: marking and deleting rows, reading a size *)

Module TablePages.
Import Session Regions.

(** What a page method does to rows of the rendered table. *)
Inductive RowEvent : Type :=
| mark (row : Row).

(** A page method that marks rows runs in a world that also holds the
    rows marked so far, oldest first. *)
Definition on_page {A} (m : M Browser A) : M (list RowEvent * Browser) A :=
  fun mw =>
    match m (snd mw) with
    | (o, w1) => (o, (fst mw, w1))
    end.

(** Modelled from the spec: [RowRegion.mark] of regions/tables.py is
    missing; the spec has a region expose "composite operations (submit,
    cancel, mark-row)".  Marking a row is recorded as an event; [None],
    which the lookup gives when it finds no row, has no attribute
    [mark]. *)
Definition row_mark (row : option Row) : M (list RowEvent * Browser) unit :=
  match row with
  | Some r => modify (fun mw => (fst mw ++ [mark r], snd mw))
  | None =>
      raise (MkExc AttributeError "'NoneType' object has no attribute 'mark'")
  end.

(** [UsersTable.delete_user], the table action 'delete': click, then
    [forms.BaseFormRegion(self.driver, self.conf)]. *)
Definition UsersTable_delete_user (self : Page) : M Browser nat :=
  do_ act (click "delete");
  new (Region "BaseFormRegion" (page_driver self) (page_conf self) []).

(** [VolumesTable.delete_volumes], the table action 'delete'. *)
Definition VolumesTable_delete_volumes (self : Page) : M Browser nat :=
  do_ act (click "delete");
  new (Region "BaseFormRegion" (page_driver self) (page_conf self) []).

(** [UsersPage.delete_user] *)
Definition delete_user (self : Page) (name : string)
    : M (list RowEvent * Browser) unit :=
  do row <- on_page (UsersPage._get_row_with_user_name self name);
  do_ row_mark row;
  do table <- on_page (UsersPage.users_table self);
  do confirm_delete_users_form <- on_page (UsersTable_delete_user self);
  on_page (act submit).

(** The loop of [VolumesPage.delete_volumes]. *)
Fixpoint mark_all (self : Page) (names : list string)
    : M (list RowEvent * Browser) unit :=
  match names with
  | [] => ret tt
  | name :: rest =>
      do row <- on_page (VolumesPage._get_row_with_volume_name self name);
      do_ row_mark row;
      mark_all self rest
  end.

(** [VolumesPage.delete_volumes], called with any number of names *)
Definition delete_volumes (self : Page) (names : list string)
    : M (list RowEvent * Browser) unit :=
  do_ mark_all self names;
  do table <- on_page (VolumesPage.volumes_table self);
  do confirm_delete_volumes_form <-
    on_page (VolumesTable_delete_volumes self);
  on_page (act submit).

Definition VOLUMES_TABLE_SIZE_COLUMN : string := "size".

Definition ValueError : ExcClass := MkExcClass "ValueError" true.
Definition UnicodeEncodeError : ExcClass :=
  MkExcClass "UnicodeEncodeError" true.

(** The text of a cell is a unicode text; a character above 127 stands
    for a code point outside ASCII. *)
Definition is_ascii (c : ascii) : bool := (nat_of_ascii c <? 128)%nat.

Fixpoint all_ascii (text : string) : bool :=
  match text with
  | EmptyString => true
  | String c rest => is_ascii c && all_ascii rest
  end.

(** [str(text)] of a unicode text: the default codec encodes ASCII
    only. *)
Definition str {W} (text : string) : M W string :=
  if all_ascii text then ret text
  else raise (MkExc UnicodeEncodeError "ordinal not in range(128)").

(** [str.isdigit] on one character. *)
Definition isdigit (c : ascii) : bool :=
  let n := nat_of_ascii c in (48 <=? n)%nat && (n <=? 57)%nat.

(** [filter(str.isdigit, size)] *)
Fixpoint digits (size : string) : string :=
  match size with
  | EmptyString => EmptyString
  | String c rest =>
      if isdigit c then String c (digits rest) else digits rest
  end.

(** The number a text of digits spells, read after the number [acc]. *)
Fixpoint read (acc : N) (text : string) : N :=
  match text with
  | EmptyString => acc
  | String c rest => read (10 * acc + (N_of_ascii c - 48))%N rest
  end.

(** [int(text)] for a text of digits: the empty text is no number. *)
Definition int {W} (text : string) : M W N :=
  match text with
  | EmptyString =>
      raise (MkExc ValueError "invalid literal for int() with base 10: ''")
  | _ => ret (read 0%N text)
  end.

(** [VolumesPage.get_size]: [row.cells[...]] of None is an AttributeError,
    a column the row does not have a KeyError. *)
Definition get_size (self : Page) (name : string) : M Browser N :=
  do row <- VolumesPage._get_row_with_volume_name self name;
  match row with
  | None =>
      raise (MkExc AttributeError "'NoneType' object has no attribute 'cells'")
  | Some r =>
      match r !! VOLUMES_TABLE_SIZE_COLUMN with
      | None => raise (MkExc KeyError VOLUMES_TABLE_SIZE_COLUMN)
      | Some text =>
          do size <- str text;
          int (digits size)
      end
  end.

End TablePages.

(** * Properties

    First what the statements need: predicates on computations and the
    concrete runs the examples use; then the lemmas and theorems, module by
    module. *)

Import Decorators Helpers Session Regions.

(** ** Predicates on fixture computations *)

(** The calls a computation issues all satisfy [P]. *)
Definition issues {A} (P : Call -> Prop) (m : M State A) : Prop :=
  forall s, exists l, calls (snd (m s)) = calls s ++ l /\ Forall P l.

(** A computation leaves the observation [f] of the state as it was. *)
Definition keeps {A B} (f : State -> B) (m : M State A) : Prop :=
  forall s, f (snd (m s)) = f s.

(** The calls that set up the virtual display. *)
Definition display_call (c : Call) : Prop :=
  match c with
  | Xvfb _ _ | extend_xvfb_args _ _ | get_next_unused_display
  | vdisplay_start => True
  | _ => False
  end.

(** What [VideoRecorder.stop] issues. *)
Definition stop_calls (launched : bool) : list Call :=
  if launched then [send_signal_SIGINT; communicate] else [].

(** The call [driver.quit()]. *)
Definition is_driver_quit (c : Call) : bool :=
  match c with
  | driver_quit => true
  | _ => false
  end.

(** ** Predicates on page computations *)

(** The cell of [row] in [column] displays [text]. *)
Definition displays (column text : string) (row : Row) : Prop :=
  row !! column = Some text.

(** What [create_volume] types for the description: nothing for None. *)
Definition described (description : option string) : list Action :=
  match description with
  | Some d => [set_text "description" (Some d)]
  | None => []
  end.

(** The form exposes the fields of its mappings. *)
Definition exposes_its_fields (resolves : list string -> string -> bool)
    (mappings : list string) : Prop :=
  forall name, In name mappings -> resolves mappings name = true.

(** The table properties of the three pages, with the class each
    constructs. *)
Definition table_properties : list (string * (Page -> M Browser nat)) :=
  [ ("UsersTable", UsersPage.users_table);
    ("VolumesTable", VolumesPage.volumes_table);
    ("ApiAccessTable", ApiaccessPage.apiaccess_table) ].

Section PollingEnds.
Context {V : Type}.
Variable truthy : V -> bool.
Variable predicate : M Browser V.

(** How a polling of at most [timeout] intervals from world [w] ends: with
    the first truthy value, at an evaluation no later than the
    [timeout]-th; with the timeout, after [timeout + 1] evaluations that
    all returned values that are not truthy; or with an exception the
    condition itself raised. *)
Inductive Ending (timeout : nat) (w : Browser) : Outcome V * Browser -> Prop :=
| ends_truthy (k : nat) (value : V) :
    k <= timeout ->
    (forall j, j < k -> falsy_at truthy predicate w j) ->
    fst (predicate (before_poll predicate k w)) = Return value ->
    truthy value = true ->
    Ending timeout w (Return value, snd (predicate (before_poll predicate k w)))
| ends_timeout :
    (forall j, j <= timeout -> falsy_at truthy predicate w j) ->
    Ending timeout w
      (Raise TimeoutException_raised,
       snd (predicate (before_poll predicate timeout w)))
| ends_raised (k : nat) (e : Exc) :
    k <= timeout ->
    (forall j, j < k -> falsy_at truthy predicate w j) ->
    fst (predicate (before_poll predicate k w)) = Raise e ->
    Ending timeout w (Raise e, snd (predicate (before_poll predicate k w))).

End PollingEnds.

Section CredentialsParts.
Variable CONFIG : Conf.
Variables directory template : string.

(** The condition [get_credentials_from_file] waits for. *)
Definition file_is_there : M Browser bool :=
  do files <- ApiaccessPage.list_of_files directory template;
  ret (0 <? length files)%nat.

(** The first four statements of [get_credentials_from_file]: wait for the
    file, list the directory again, take the first name, read the file. *)
Definition fetch : M Browser string :=
  do_ _wait_until (fun found : bool => found) file_is_there (polls CONFIG);
  do files <- ApiaccessPage.list_of_files directory template;
  do file_name <-
    match files with
    | f :: _ => ret f
    | [] => raise (MkExc IndexError "list index out of range")
    end;
  ApiaccessPage.read_file directory file_name.

End CredentialsParts.

(** The dict [get_credentials_from_file] builds. *)
Definition cred_dict (username tenant_name tenant_id : string)
    : gmap string string :=
  <["OS_USERNAME" := username]>
    (<["OS_TENANT_NAME" := tenant_name]>
      (<["OS_TENANT_ID" := tenant_id]> ∅)).

(** Every character of [g] is of the class. *)
Fixpoint all_in (cls : Re.CharClass) (g : string) : bool :=
  match g with
  | EmptyString => true
  | String c rest => Re.in_class cls c && all_in cls rest
  end.

(** ** Concrete runs *)

Module Runs.

(** A setting of the fixture with the given environment and failing
    calls; the page shows a success message and no error message, and
    every other query answers True. *)
Definition setting (env : gmap string string)
    (failing : nat -> Call -> option Exc) : Setting :=
  MkSetting env failing
    (fun _ c =>
       match c with
       | find_message_and_dismiss kind => String.eqb kind "SUCCESS"
       | _ => true
       end)
    true true
    "/opt/horizon" "TestFlavors" "test_flavor_create"
    "<body></body>" (LogList [LogDict "GET /static 404"; LogText "done"])
    "99" "/tmp/tmpXa3.mp4"
    "admin" "secret" "admin" "demo" "secret" "demo" "demo" "secret" "demo".

Definition integration : gmap string string :=
  <["INTEGRATION_TESTS" := "1"]> ∅.

Definition headless : gmap string string :=
  <["SELENIUM_HEADLESS" := "1"]> integration.

(** Nothing fails. *)
Definition plain : Setting := setting integration (fun _ _ => None).

(** No environment variable is set. *)
Definition unset : Setting := setting ∅ (fun _ _ => None).

(** Headless, nothing fails. *)
Definition under_xvfb : Setting := setting headless (fun _ _ => None).

(** [log_out] times out. *)
Definition log_out_raises : Setting :=
  setting integration
    (fun _ c =>
       match c with
       | log_out => Some (MkExc TimeoutException "log out")
       | _ => None
       end).

(** Taking the screenshot fails with an exception that derives from
    [Exception]. *)
Definition screenshot_fails : Setting :=
  setting integration
    (fun _ c =>
       match c with
       | get_screenshot_as_file _ =>
           Some (MkExc (MkExcClass "WebDriverException" true) "no window")
       | _ => None
       end).

(** The user interrupts the test run while the hook waits for ffmpeg. *)
Definition interrupted : Setting :=
  setting integration
    (fun _ c =>
       match c with
       | communicate => Some (MkExc KeyboardInterrupt "")
       | _ => None
       end).

(** The state in which a test body starts. *)
Definition after_setUp (cfg : Setting) : State :=
  snd (BaseTestCase.setUp cfg initial).

Definition skipped : ExcInfo :=
  MkExcInfo SkipTest "The INTEGRATION_TESTS env variable is not set.".

Definition failed : ExcInfo :=
  MkExcInfo (MkExcClass "AssertionError" true) "False is not true".

Definition page : Page := MkPage 0 1 "Volumes".

Definition conf : Conf := MkConf "TestVM" "nova" "1" "lvm" 3.

Definition row (name status : string) : Row :=
  <["name" := name]> (<["status" := status]> ∅).

(** A browser that shows two volumes of the same name, and in which the
    downloaded file appears at the second tick. *)
Definition quoted (s : string) : string :=
  String Re.dq (s +:+ String Re.dq EmptyString).

Definition line (s : string) : string := s +:+ String Re.nl EmptyString.

Definition openrc_v2 : string :=
  line ("export OS_TENANT_ID=" +:+ "5f2b")
  +:+ line ("export OS_TENANT_NAME=" +:+ quoted "demo")
  +:+ line ("export OS_USERNAME=" +:+ quoted "admin").

Definition browser : Browser :=
  MkBrowser ∅ 0
    (fun _ table =>
       if String.eqb table "volumes"
       then [row "vol" "Available"; row "other" "In-use"; row "vol" "Error"]
       else [])
    (fun t _ =>
       if (t <? 2)%nat then [MkDirEntry "notes.txt" true "x"]
       else [MkDirEntry "notes.txt" true "x";
             MkDirEntry "demo-openrc.sh" true openrc_v2])
    [].

(** The file of version 3, there from the start. *)
Definition openrc_v3 : string :=
  line ("export OS_PROJECT_ID=" +:+ "9c1e")
  +:+ line ("export OS_PROJECT_NAME=" +:+ quoted "demo")
  +:+ line ("export OS_USERNAME=" +:+ quoted "admin").

Definition browser_v3 : Browser :=
  MkBrowser ∅ 0 (fun _ _ => [])
    (fun _ _ => [MkDirEntry "demo-openrc.sh" true openrc_v3]) [].

(** A form that exposes every field it is asked for. *)
Definition lenient (mappings : list string) (name : string) : bool := true.

(** Modelled from the spec: regions/forms.py is missing; the spec has a
    form region map "a fixed, ordered list of field names to UI controls"
    and a lookup that finds no element fail.  Such a form exposes the
    fields of its mappings and no other. *)
Definition mapped (mappings : list string) (name : string) : bool :=
  existsb (String.eqb name) mappings.

End Runs.

(** ** Predicates on resource names *)

(** How often the character [c] occurs in [s]. *)
Fixpoint count (c : ascii) (s : string) : nat :=
  match s with
  | EmptyString => 0
  | String a rest => (if Ascii.eqb a c then 1 else 0) + count c rest
  end.

(** The text after the last [c] of [s]; all of [s] when it has none. *)
Fixpoint after_last (c : ascii) (s : string) : string :=
  match s with
  | EmptyString => EmptyString
  | String a rest =>
      if (0 <? count c rest)%nat then after_last c rest
      else if Ascii.eqb a c then rest
      else String a rest
  end.

(** ** Predicates on the items of a sequence *)

(** An item that [==] finds equal to True: the bool itself or the
    integer 1; and to False: the bool or the integer 0. *)
Definition is_True (x : AssertsMixin.Item) : Prop :=
  x = AssertsMixin.IBool true \/ x = AssertsMixin.IInt 1.

Definition is_False (x : AssertsMixin.Item) : Prop :=
  x = AssertsMixin.IBool false \/ x = AssertsMixin.IInt 0.

(** ** Predicates on rows and sizes *)

(** The row of the table named [table] that a lookup by [name] finds in
    world [w]. *)
Definition row_named (table : string) (w : Browser) (name : string)
    : option Row :=
  get_row (rendered w (clock w) table) "name" name.

(** The rows found, up to the first lookup that found none. *)
Fixpoint found_before_missing (looked : list (option Row)) : list Row :=
  match looked with
  | Some row :: rest => row :: found_before_missing rest
  | _ => []
  end.

(** [None.mark()] *)
Definition no_mark : Exc :=
  MkExc AttributeError "'NoneType' object has no attribute 'mark'".

(** The number the digits of a text spell, the other characters left
    out. *)
Definition number (size : string) : N :=
  TablePages.read 0%N (TablePages.digits size).

(** ** More predicates on fixture computations *)

(** A computation either raises with the observation [f] as it was, or
    ends as [Q] says, which is told the observation at the start. *)
Definition raises_early_or {A B} (f : State -> B)
    (Q : B -> Outcome A * State -> Prop) (m : M State A) : Prop :=
  forall s,
    (exists e, fst (m s) = Raise e /\ f (snd (m s)) = f s) \/ Q (f s) (m s).

(** The five hooks, by name, in the order [setUp] registers them. *)
Definition hook_names : list string :=
  ["_attach_page_source"; "_attach_screenshot"; "_attach_video";
   "_attach_browser_log"; "_attach_test_log"].

(** The calls that undo what [setUp] started: stopping the display,
    quitting the driver, stopping ffmpeg. *)
Definition cleanup_call (c : Call) : Prop :=
  match c with
  | vdisplay_stop | driver_quit | send_signal_SIGINT | communicate => True
  | _ => False
  end.

(** The calls with which [create_demo_user] looks at and changes the
    projects and users of the cloud. *)
Definition provisioning (c : Call) : Prop :=
  match c with
  | go_to_identity_projectspage | is_project_present _ | create_project _
  | go_to_identity_userspage | is_user_present _ | delete_user _
  | create_user _ _ _ _ => True
  | _ => False
  end.

(** The calls a computation of the process issues all satisfy [P]. *)
Definition issues_in_process {A} (P : Call -> Prop)
    (m : M (list string * State) A) : Prop :=
  forall cw, exists l,
    calls (snd (snd (m cw))) = calls (snd cw) ++ l /\ Forall P l.

(** A computation of the process leaves [called_funcs] as it was. *)
Definition keeps_called_funcs {A} (m : M (list string * State) A) : Prop :=
  forall cw, fst (snd (m cw)) = fst cw.

Module Failures.

(** Headless; the browser cannot be started. *)
Definition no_browser : Setting :=
  Runs.setting Runs.headless
    (fun _ c =>
       match c with
       | WebDriverWrapper =>
           Some (MkExc (MkExcClass "WebDriverException" true) "no firefox")
       | _ => None
       end).

(** The report directory cannot be made. *)
Definition read_only : Setting :=
  Runs.setting Runs.integration
    (fun _ c =>
       match c with
       | makedirs _ => Some (MkExc OSError "Read-only file system")
       | _ => None
       end).

(** ffmpeg does not end. *)
Definition ffmpeg_hangs : Setting :=
  Runs.setting Runs.integration
    (fun _ c =>
       match c with
       | communicate => Some (MkExc OSError "No child processes")
       | _ => None
       end).

(** Creating the demo user fails. *)
Definition no_demo_user : Setting :=
  Runs.setting Runs.integration
    (fun _ c =>
       match c with
       | create_user _ _ _ _ =>
           Some (MkExc TimeoutException "create user")
       | _ => None
       end).

End Failures.

(** ** Predicates on the downloaded file *)

(** The regular files of [directory] whose names end with [template], as
    the directory is at tick [t]. *)
Definition matching (w : Browser) (directory template : string) (t : nat)
    : list DirEntry :=
  List.filter
    (fun f => entry_isfile f
              && ApiaccessPage.endswith (entry_name f) template)
    (listdir w t directory).

(** What [get_credentials_from_file] does with the content it has read. *)
Definition credentials_of (version : Z) (content : string)
    : M Browser (gmap string string) :=
  do username <- ApiaccessPage.group_1 ApiaccessPage.username_re content;
  do re <- ApiaccessPage.local "tenant_name_re"
             (ApiaccessPage.tenant_name_re version);
  do tenant_name <- ApiaccessPage.group_1 re content;
  do re <- ApiaccessPage.local "tenant_id_re"
             (ApiaccessPage.tenant_id_re version);
  do tenant_id <- ApiaccessPage.group_1 re content;
  ret (cred_dict username tenant_name tenant_id).

(** The world [k] polling intervals later. *)
Definition later (k : nat) (w : Browser) : Browser :=
  set_clock (fun t => t + k) w.

(** ** The lines of a browser log, and concrete pages *)

(** The lines of a browser log: the message of a dict, a text, and for a
    list the lines of its items one after the other; a list without items
    stands for one empty line. *)
Fixpoint lines (log : BrowserLog) : list string :=
  match log with
  | LogDict message => [message]
  | LogText text => [text]
  | LogList items =>
      match items with
      | [] => [EmptyString]
      | _ => concat (map lines items)
      end
  end.

(** Concrete pages. *)
Module Pages.

Definition volume (name size : string) : Row :=
  <["name" := name]> (<["size" := size]> ∅).

(** A volumes table with a size column, one size holding a no-break
    space, and a directory that holds the file of an earlier download from
    the start. *)
Definition browser : Browser :=
  MkBrowser ∅ 0
    (fun _ table =>
       if String.eqb table "volumes"
       then [volume "vol" "1GiB"; volume "half" "1.5GiB"; volume "odd" "-";
             volume "wide" ("1" +:+ String "160" "GiB")]
       else if String.eqb table "users"
       then [Runs.row "demo" "Yes"; Runs.row "demo" "No"]
       else [])
    (fun t _ =>
       if (t <? 2)%nat then [MkDirEntry "old-openrc.sh" true "old"]
       else [MkDirEntry "old-openrc.sh" true "old";
             MkDirEntry "demo-openrc.sh" true Runs.openrc_v2])
    [].

End Pages.

(** ** Computations in general *)

Lemma bind_Return_inv {W A B} (m : M W A) (k : A -> M W B) (w w' : W) (b : B) :
  bind m k w = (Return b, w') ->
  exists a w1, m w = (Return a, w1) /\ k a w1 = (Return b, w').
Proof.
  unfold bind. destruct (m w) as [[a | e] w1]; intros H.
  - eauto.
  - discriminate.
Qed.

Ltac bind_inv H :=
  let a := fresh "a" in
  let w1 := fresh "w" in
  let E := fresh "E" in
  apply bind_Return_inv in H; destruct H as (a & w1 & E & H).

Ltac bind_inv_as H E :=
  let a := fresh "a" in
  let w1 := fresh "w" in
  apply bind_Return_inv in H; destruct H as (a & w1 & E & H).

(** ** The decorator [once_only] *)

Section OnceOnlyProperties.
Context {W Args A : Type}.
Variable name : string.
Variable func : Args -> M W A.

Lemma existsb_eqb_In (l : list string) :
  existsb (String.eqb name) l = true <-> In name l.
Proof.
  rewrite existsb_exists. split.
  - intros (x & Hx & Heq). apply String.eqb_eq in Heq. now subst.
  - intros H. exists name. split; [exact H | apply String.eqb_refl].
Qed.

Lemma once_only_first_call (args : Args) (w : W) :
  once_only name func args (decorated w)
  = (wrapped (fst (func args w)), ([name], snd (func args w))).
Proof.
  unfold once_only, decorated. simpl.
  destruct (func args w) as [[a | e] w1]; reflexivity.
Qed.

Lemma once_only_guarded (args : Args) (called : list string) (w : W) :
  In name called ->
  once_only name func args (called, w) = (Return None, (called, w)).
Proof.
  intros Hin. unfold once_only. simpl.
  apply existsb_eqb_In in Hin. now rewrite Hin.
Qed.

Lemma call_all_guarded (argss : list Args) (called : list string) (w : W) :
  In name called ->
  call_all (once_only name func) argss (called, w)
  = (repeat (Return None) (length argss), (called, w)).
Proof.
  intros Hin. induction argss as [| args rest IH]; simpl.
  - reflexivity.
  - rewrite (once_only_guarded args called w Hin). now rewrite IH.
Qed.

(** C10: for a function wrapped by [once_only], of any sequence of calls
    made after the decoration the first one runs the body, on the world the
    caller had, and returns what the body returned (or raises what it
    raised); every later call, whatever its arguments, returns None and
    leaves the world alone.  So the world at the end is the world after one
    run of the body, and the list of the decoration holds the name of the
    function, once. *)
Theorem once_only_runs_body_once (args : Args) (rest : list Args) (w : W) :
  call_all (once_only name func) (args :: rest) (decorated w)
  = (wrapped (fst (func args w)) :: repeat (Return None) (length rest),
     ([name], snd (func args w))).
Proof.
  cbn [call_all]. rewrite once_only_first_call.
  rewrite call_all_guarded by (left; reflexivity).
  reflexivity.
Qed.

End OnceOnlyProperties.

(** [TestCase.create_demo_user] in two tests of one process: the second
    [setUp] finds the name in the list and creates no user. *)
Example create_demo_user_second_setUp :
  let first := TestCase.setUp Runs.plain (decorated initial) in
  let second := TestCase.create_demo_user Runs.plain tt (snd first) in
  fst first = Return tt
  /\ fst (snd first) = ["create_demo_user"]
  /\ In (create_user "demo" "secret" "demo" "_member_") (calls (snd (snd first)))
  /\ second = (Return None, snd first).
Proof. vm_compute. repeat split. do 16 right. left. reflexivity. Qed.

(** ** The fixture: call logs *)

Section Issues.
Variable cfg : Setting.
Variable P : Call -> Prop.

Lemma issues_ret {A} (a : A) : issues P (ret a).
Proof. intros s. exists []. simpl. now rewrite app_nil_r. Qed.

Lemma issues_raise {A} (e : Exc) : issues P (@raise State A e).
Proof. intros s. exists []. simpl. now rewrite app_nil_r. Qed.

Lemma issues_gets {A} (f : State -> A) : issues P (gets f).
Proof. intros s. exists []. simpl. now rewrite app_nil_r. Qed.

Lemma issues_modify (f : State -> State) :
  (forall s, calls (f s) = calls s) -> issues P (modify f).
Proof. intros Hf s. exists []. simpl. rewrite Hf. now rewrite app_nil_r. Qed.

Lemma issues_call (c : Call) : P c -> issues P (call cfg c).
Proof.
  intros Hc s. exists [c]. unfold call.
  destruct (fails cfg (length (calls s)) c); simpl; auto.
Qed.

Lemma issues_ask (c : Call) : P c -> issues P (ask cfg c).
Proof.
  intros Hc s. exists [c]. unfold ask.
  destruct (fails cfg (length (calls s)) c); simpl; auto.
Qed.

Lemma issues_bind {A B} (m : M State A) (k : A -> M State B) :
  issues P m -> (forall a, issues P (k a)) -> issues P (bind m k).
Proof.
  intros Hm Hk s. unfold bind.
  destruct (Hm s) as (l1 & E1 & F1).
  destruct (m s) as [[a | e] s1]; simpl in *.
  - destruct (Hk a s1) as (l2 & E2 & F2).
    exists (l1 ++ l2). rewrite E2, E1, app_assoc. split; [reflexivity |].
    apply Forall_app; auto.
  - exists l1. auto.
Qed.

Lemma issues_if {A} (b : bool) (m1 m2 : M State A) :
  issues P m1 -> issues P m2 -> issues P (if b then m1 else m2).
Proof. destruct b; auto. Qed.

End Issues.

Section Keeps.
Variable cfg : Setting.
Context {B : Type}.
Variable f : State -> B.
Hypothesis f_calls : forall g s, f (set_calls g s) = f s.

Lemma keeps_ret {A} (a : A) : keeps f (ret a).
Proof. intros s. reflexivity. Qed.

Lemma keeps_raise {A} (e : Exc) : keeps f (@raise State A e).
Proof. intros s. reflexivity. Qed.

Lemma keeps_gets {A} (g : State -> A) : keeps f (gets g).
Proof. intros s. reflexivity. Qed.

Lemma keeps_modify (g : State -> State) :
  (forall s, f (g s) = f s) -> keeps f (modify g).
Proof. intros Hg s. apply Hg. Qed.

Lemma keeps_call (c : Call) : keeps f (call cfg c).
Proof.
  intros s. unfold call.
  destruct (fails cfg (length (calls s)) c); simpl; apply f_calls.
Qed.

Lemma keeps_ask (c : Call) : keeps f (ask cfg c).
Proof.
  intros s. unfold ask.
  destruct (fails cfg (length (calls s)) c); simpl; apply f_calls.
Qed.

Lemma keeps_bind {A C} (m : M State A) (k : A -> M State C) :
  keeps f m -> (forall a, keeps f (k a)) -> keeps f (bind m k).
Proof.
  intros Hm Hk s. unfold bind. specialize (Hm s).
  destruct (m s) as [[a | e] s1]; simpl in *.
  - now rewrite Hk.
  - exact Hm.
Qed.

Lemma keeps_if {A} (b : bool) (m1 m2 : M State A) :
  keeps f m1 -> keeps f m2 -> keeps f (if b then m1 else m2).
Proof. destruct b; auto. Qed.

End Keeps.

Ltac issues_tac :=
  repeat first
    [ apply issues_bind; [| intros ?]
    | apply issues_if
    | apply issues_ret
    | apply issues_raise
    | apply issues_gets
    | apply issues_modify; intros []; reflexivity
    | apply issues_call
    | apply issues_ask ].

Ltac keeps_tac :=
  repeat first
    [ apply keeps_bind; [| intros ?]
    | apply keeps_if
    | apply keeps_ret
    | apply keeps_raise
    | apply keeps_gets
    | apply keeps_call; [intros ? []; reflexivity]
    | apply keeps_ask; [intros ? []; reflexivity]
    | apply keeps_modify; intros []; reflexivity ].

(** ** The hooks that attach artifacts *)

Section Hooks.
Variable cfg : Setting.

(** C1: each of the five hooks, called with an [exc_info] whose class is
    named 'SkipTest', returns at once and leaves the test as it was: no
    call is issued, no detail attached, no directory made.  Called with a
    class of any other name it does what the body it wraps does. *)
Theorem hooks_ignore_skip (exc_info : ExcInfo) (s : State) :
  Forall (fun hb : (ExcInfo -> M State unit) * (ExcInfo -> M State unit) =>
            (cls_name (exc_info_0 exc_info) = "SkipTest" ->
             fst hb exc_info s = (Return tt, s))
            /\ (cls_name (exc_info_0 exc_info) <> "SkipTest" ->
                fst hb exc_info s = snd hb exc_info s))
         (BaseTestCase.hooks cfg).
Proof.
  unfold BaseTestCase.hooks.
  repeat constructor; simpl; intros H;
    unfold BaseTestCase._attach_page_source, BaseTestCase._attach_screenshot,
      BaseTestCase._attach_video, BaseTestCase._attach_browser_log,
      BaseTestCase._attach_test_log, ignore_skip;
    destruct (String.eqb_spec (cls_name (exc_info_0 exc_info)) "SkipTest");
    try reflexivity; congruence.
Qed.

Lemma log_exception_raises_no_Exception (label : string) (body : M State unit)
    (s s' : State) (e : Exc) :
  BaseTestCase.log_exception label body s = (Raise e, s') ->
  derives_Exception (exc_type e) = false.
Proof.
  unfold BaseTestCase.log_exception, try_except_Exception,
    BaseTestCase.addDetail, modify.
  destruct (body s) as [[[] | e0] s1]; [discriminate |].
  destruct (derives_Exception (exc_type e0)) eqn:D; [discriminate |].
  intros H. injection H as <- _. exact D.
Qed.

Lemma test_report_dir_present (s : State) :
  BaseTestCase.report_dir cfg ∈ dirs s ->
  BaseTestCase._test_report_dir cfg s = (Return (BaseTestCase.report_dir cfg), s).
Proof.
  intros Hin. unfold BaseTestCase._test_report_dir, bind, gets.
  rewrite bool_decide_eq_true_2 by exact Hin. reflexivity.
Qed.

(** C2, amended: an operation run inside [log_exception] that returns is
    left alone; an exception it raises whose class derives from [Exception]
    is caught, and its traceback is attached as the detail of that label;
    an exception whose class does not derive from [Exception]
    (KeyboardInterrupt, SystemExit) propagates, and nothing is attached.
    Hence, once the report directory exists, no exception that derives from
    [Exception] leaves any of the five hooks. *)
Theorem log_exception_outcome :
  (forall (label : string) (body : M State unit) (s s1 : State),
     (body s = (Return tt, s1) ->
      BaseTestCase.log_exception label body s = (Return tt, s1))
     /\ (forall e, body s = (Raise e, s1) ->
           derives_Exception (exc_type e) = true ->
           BaseTestCase.log_exception label body s
           = (Return tt, set_details (fun d => <[label := format_exc e]> d) s1))
     /\ (forall e, body s = (Raise e, s1) ->
           derives_Exception (exc_type e) = false ->
           BaseTestCase.log_exception label body s = (Raise e, s1)))
  /\ (forall (exc_info : ExcInfo) (s : State),
        BaseTestCase.report_dir cfg ∈ dirs s ->
        Forall (fun hb : (ExcInfo -> M State unit) * (ExcInfo -> M State unit) =>
                  forall e s', fst hb exc_info s = (Raise e, s') ->
                               derives_Exception (exc_type e) = false)
               (BaseTestCase.hooks cfg)).
Proof.
  split.
  - intros label body s s1.
    unfold BaseTestCase.log_exception, try_except_Exception,
      BaseTestCase.addDetail, modify.
    repeat split.
    + intros H. now rewrite H.
    + intros e H D. rewrite H. now rewrite D.
    + intros e H D. rewrite H. now rewrite D.
  - intros exc_info s Hdir. unfold BaseTestCase.hooks.
    repeat constructor; simpl; intros e s';
      unfold BaseTestCase._attach_page_source, BaseTestCase._attach_screenshot,
        BaseTestCase._attach_video, BaseTestCase._attach_browser_log,
        BaseTestCase._attach_test_log, ignore_skip;
      (destruct (String.eqb (cls_name (exc_info_0 exc_info)) "SkipTest");
       [discriminate |]);
      unfold BaseTestCase.attach_page_source_body,
        BaseTestCase.attach_screenshot_body, BaseTestCase.attach_video_body,
        BaseTestCase.attach_browser_log_body, BaseTestCase.attach_test_log_body;
      try (unfold bind at 1; rewrite (test_report_dir_present s Hdir));
      apply log_exception_raises_no_Exception.
Qed.

End Hooks.

Lemma hooks_ignore_skip_witness :
  BaseTestCase._attach_video Runs.plain Runs.skipped (Runs.after_setUp Runs.plain)
  = (Return tt, Runs.after_setUp Runs.plain)
  /\ BaseTestCase._attach_video Runs.plain Runs.failed (Runs.after_setUp Runs.plain)
     = BaseTestCase.attach_video_body Runs.plain Runs.failed
         (Runs.after_setUp Runs.plain).
Proof.
  split.
  - exact (proj1 (Forall_inv (Forall_inv_tail (Forall_inv_tail
             (hooks_ignore_skip Runs.plain Runs.skipped
                (Runs.after_setUp Runs.plain))))) eq_refl).
  - apply (proj2 (Forall_inv (Forall_inv_tail (Forall_inv_tail
             (hooks_ignore_skip Runs.plain Runs.failed
                (Runs.after_setUp Runs.plain)))))).
    simpl. discriminate.
Defined.

(** A failed test: the video hook stops the recorder and copies the file
    into the report directory it makes. *)
Example attach_video_after_failure :
  BaseTestCase._attach_video Runs.plain Runs.failed (Runs.after_setUp Runs.plain)
  = (Return tt,
     set_dirs (fun d => {[BaseTestCase.report_dir Runs.plain]} ∪ d)
       (set_is_launched false
          (set_calls
             (fun l => l ++ [send_signal_SIGINT; communicate;
                             makedirs "/opt/horizon/test_reports/TestFlavors.test_flavor_create";
                             copyfile "/tmp/tmpXa3.mp4"
                               "/opt/horizon/test_reports/TestFlavors.test_flavor_create/video.mp4"])
             (Runs.after_setUp Runs.plain)))).
Proof. vm_compute. reflexivity. Qed.

Lemma log_exception_outcome_witness :
  BaseTestCase.log_exception "Attach screenshot"
    (call Runs.screenshot_fails (get_screenshot_as_file "screenshot.png"))
    initial
  = (Return tt,
     set_details
       (fun d => <["Attach screenshot" := "WebDriverException: no window"]> d)
       (set_calls (fun l => l ++ [get_screenshot_as_file "screenshot.png"])
          initial)).
Proof.
  apply (proj1 (proj2 (proj1 (log_exception_outcome Runs.screenshot_fails)
                         "Attach screenshot"
                         (call Runs.screenshot_fails
                            (get_screenshot_as_file "screenshot.png"))
                         initial
                         (set_calls
                            (fun l => l ++ [get_screenshot_as_file "screenshot.png"])
                            initial)))
               (MkExc (MkExcClass "WebDriverException" true) "no window")).
  - reflexivity.
  - reflexivity.
Defined.

(** C2 as stated fails: the user interrupts the run while the video hook
    waits for ffmpeg inside [log_exception].  The KeyboardInterrupt leaves
    the hook, and no detail is attached. *)
Lemma attach_video_interrupt_propagates :
  fst (BaseTestCase._attach_video Runs.interrupted Runs.failed
         (Runs.after_setUp Runs.interrupted))
  = Raise (MkExc KeyboardInterrupt "")
  /\ details (snd (BaseTestCase._attach_video Runs.interrupted Runs.failed
                     (Runs.after_setUp Runs.interrupted)))
     = details (Runs.after_setUp Runs.interrupted)
  /\ calls (snd (BaseTestCase._attach_video Runs.interrupted Runs.failed
                   (Runs.after_setUp Runs.interrupted)))
     = calls (Runs.after_setUp Runs.interrupted)
       ++ [send_signal_SIGINT; communicate].
Proof. vm_compute. repeat split. Qed.

(** ** [setUp] and [tearDown] *)

(** The condition [os.environ.get(name, False)] holds exactly when the
    variable is set to a text that is not empty. *)
Lemma environ_get_true (env : gmap string string) (name : string) :
  environ_get env name = true
  <-> exists v, env !! name = Some v /\ v <> "".
Proof.
  unfold environ_get. destruct (env !! name) as [v |].
  - destruct (String.eqb_spec v ""); simpl; split.
    + discriminate.
    + intros (v' & Hv & Hne). injection Hv as <-. contradiction.
    + intros _. eauto.
    + reflexivity.
  - split; [discriminate |]. intros (v & Hv & _). discriminate.
Qed.

Section TearDown.
Variable cfg : Setting.

Lemma setUp_needs_INTEGRATION_TESTS (s0 s1 : State) :
  BaseTestCase.setUp cfg s0 = (Return tt, s1) ->
  environ_get (environ cfg) "INTEGRATION_TESTS" = true.
Proof.
  unfold BaseTestCase.setUp, bind, BaseTestCase._configure_log, modify.
  destruct (environ_get (environ cfg) "INTEGRATION_TESTS"); simpl.
  - reflexivity.
  - discriminate.
Qed.

Lemma log_out_step_keeps_is_launched :
  keeps is_launched (TestCase.log_out_step cfg).
Proof. unfold TestCase.log_out_step. keeps_tac. Qed.

Lemma tearDown_after_step (s : State) :
  snd (TestCase.tearDown cfg s)
  = snd (BaseTestCase.tearDown cfg (snd (TestCase.log_out_step cfg s))).
Proof.
  unfold TestCase.tearDown, try_finally.
  destruct (TestCase.log_out_step cfg s) as [[[] | e] s1]; simpl;
    destruct (BaseTestCase.tearDown cfg s1) as [[[] | e2] s2]; reflexivity.
Qed.

Lemma VideoRecorder_stop_Return (s s1 : State) :
  VideoRecorder_stop cfg s = (Return tt, s1) ->
  calls s1 = calls s ++ stop_calls (is_launched s)
  /\ is_launched s1 = false
  /\ vdisplay s1 = vdisplay s.
Proof.
  unfold VideoRecorder_stop, bind, gets, call, modify.
  destruct (is_launched s) eqn:L; simpl.
  - destruct (fails cfg (length (calls s)) send_signal_SIGINT); simpl;
      [discriminate |].
    destruct (fails cfg _ communicate); simpl; [discriminate |].
    intros H. injection H as <-. simpl. rewrite <- app_assoc. auto.
  - intros H. injection H as <-. rewrite app_nil_r. auto.
Qed.

Lemma tearDown_quits (s : State) :
  environ_get (environ cfg) "INTEGRATION_TESTS" = true ->
  fst (VideoRecorder_stop cfg s) = Return tt ->
  exists rest,
    calls (snd (BaseTestCase.tearDown cfg s))
    = calls s ++ stop_calls (is_launched s) ++ driver_quit :: rest
    /\ is_launched (snd (BaseTestCase.tearDown cfg s)) = false.
Proof.
  intros Hflag Hstop. unfold BaseTestCase.tearDown. rewrite Hflag.
  set (tail := bind (gets vdisplay) _).
  assert (T : issues (fun _ => True) tail) by (subst tail; issues_tac; exact I).
  assert (K : keeps is_launched tail) by (subst tail; keeps_tac).
  unfold bind.
  destruct (VideoRecorder_stop cfg s) as [[[] | e0] s1] eqn:E1;
    [| discriminate].
  destruct (VideoRecorder_stop_Return s s1 E1) as (C1 & L1 & V1).
  unfold call.
  destruct (fails cfg (length (calls s1)) driver_quit) as [e |]; simpl.
  - exists []. rewrite C1, <- app_assoc. auto.
  - match goal with |- context [snd (tail ?st)] =>
      destruct (T st) as (l & El & _); pose proof (K st) as Kl end.
    exists l. rewrite El, Kl. simpl. rewrite C1, <- !app_assoc. auto.
Qed.

(** [BaseTestCase.tearDown] has no handler of its own: what the recorder
    raises ends it. *)
Lemma tearDown_recorder_raises (s : State) (e : Exc) :
  fst (VideoRecorder_stop cfg s) = Raise e ->
  BaseTestCase.tearDown cfg s = (Raise e, snd (VideoRecorder_stop cfg s)).
Proof.
  intros H. unfold BaseTestCase.tearDown. unfold bind at 1.
  destruct (VideoRecorder_stop cfg s) as [[[] | e'] s1]; simpl in *;
    congruence.
Qed.

Lemma VideoRecorder_stop_issues_its_calls :
  issues (fun c => c = send_signal_SIGINT \/ c = communicate)
    (VideoRecorder_stop cfg).
Proof. unfold VideoRecorder_stop. issues_tac; auto. Qed.

(** C6, amended: after a test, that is with [setUp] completed in this
    environment, [TestCase.tearDown] first runs the log-out step: it asks
    whether the session is logged in and, when it is, goes to the home
    page and logs out.  Whatever that step did, raised or not,
    [BaseTestCase.tearDown] then stops the screen capture; when stopping it
    returns, the driver is quit next.  When stopping the screen capture
    raises, [tearDown] raises that exception and issues nothing after the
    calls of the recorder: the driver is not quit. *)
Theorem tearDown_logs_out_and_quits (s0 s1 s : State) :
  BaseTestCase.setUp cfg s0 = (Return tt, s1) ->
  let after_step := snd (TestCase.log_out_step cfg s) in
  let after := snd (TestCase.tearDown cfg s) in
  (fst (VideoRecorder_stop cfg after_step) = Return tt ->
   (exists rest,
      calls after
      = calls after_step ++ stop_calls (is_launched s) ++ driver_quit :: rest)
   /\ is_launched after = false)
  /\ (forall e,
        fst (VideoRecorder_stop cfg after_step) = Raise e ->
        fst (TestCase.tearDown cfg s) = Raise e
        /\ exists l,
             calls after = calls after_step ++ l
             /\ Forall (fun c => c = send_signal_SIGINT \/ c = communicate) l)
  /\ (exists step, calls after_step = calls s ++ is_logged_in :: step)
  /\ (fails cfg (length (calls s)) is_logged_in = None ->
      answers cfg (length (calls s)) is_logged_in = true ->
      fails cfg (S (length (calls s))) go_to_home_page = None ->
      calls after_step = calls s ++ [is_logged_in; go_to_home_page; log_out])
  /\ (fails cfg (length (calls s)) is_logged_in = None ->
      answers cfg (length (calls s)) is_logged_in = false ->
      calls after_step = calls s ++ [is_logged_in]).
Proof.
  intros Hset. cbv zeta.
  apply setUp_needs_INTEGRATION_TESTS in Hset.
  split; [| split].
  - intros Hstop. rewrite tearDown_after_step.
    destruct (tearDown_quits (snd (TestCase.log_out_step cfg s)) Hset Hstop)
      as (rest & E & L).
    rewrite (log_out_step_keeps_is_launched s) in E.
    split; [exists rest; exact E | exact L].
  - intros e Hstop.
    pose proof (tearDown_recorder_raises _ e Hstop) as B.
    split.
    + unfold TestCase.tearDown, try_finally.
      destruct (TestCase.log_out_step cfg s) as [[[] | e1] s2]; simpl in *;
        now rewrite B.
    + rewrite tearDown_after_step, B. simpl.
      apply VideoRecorder_stop_issues_its_calls.
  - unfold TestCase.log_out_step, bind, ask, call.
    destruct (fails cfg (length (calls s)) is_logged_in) as [e |]; simpl.
    + repeat split; try discriminate. now exists [].
    + destruct (answers cfg (length (calls s)) is_logged_in); simpl.
      * rewrite length_app. simpl. rewrite Nat.add_1_r.
        destruct (fails cfg (S (length (calls s))) go_to_home_page) as [e |];
          simpl.
        -- repeat split; try discriminate.
           exists [go_to_home_page]. now rewrite <- app_assoc.
        -- destruct (fails cfg _ log_out); simpl;
             (repeat split; try discriminate;
               [ exists [go_to_home_page; log_out]; now rewrite <- !app_assoc
               | intros; now rewrite <- !app_assoc ]).
      * repeat split; try discriminate. now exists [].
Qed.

End TearDown.

Lemma tearDown_logs_out_and_quits_witness :
  fst (TestCase.tearDown Runs.log_out_raises (Runs.after_setUp Runs.log_out_raises))
  = Raise (MkExc TimeoutException "log out")
  /\ exists rest,
       calls (snd (TestCase.tearDown Runs.log_out_raises
                     (Runs.after_setUp Runs.log_out_raises)))
       = calls (snd (TestCase.log_out_step Runs.log_out_raises
                       (Runs.after_setUp Runs.log_out_raises)))
         ++ stop_calls (is_launched (Runs.after_setUp Runs.log_out_raises))
         ++ driver_quit :: rest.
Proof.
  split.
  - vm_compute. reflexivity.
  - destruct (tearDown_logs_out_and_quits Runs.log_out_raises
                initial (Runs.after_setUp Runs.log_out_raises)
                (Runs.after_setUp Runs.log_out_raises))
      as (Quits & _).
    + vm_compute. reflexivity.
    + destruct Quits as (Calls & _).
      * vm_compute. reflexivity.
      * exact Calls.
Defined.

(** C6 as stated fails: in a run in which ffmpeg cannot be waited for,
    [setUp] completes, and [tearDown] logs out, signals ffmpeg, raises what
    the wait raised, and never quits the driver. *)
Lemma tearDown_recorder_raises_no_quit :
  fst (TestCase.setUp Failures.ffmpeg_hangs (decorated initial)) = Return tt
  /\ fst (TestCase.tearDown Failures.ffmpeg_hangs
            (snd (snd (TestCase.setUp Failures.ffmpeg_hangs
                         (decorated initial)))))
     = Raise (MkExc OSError "No child processes")
  /\ calls (snd (TestCase.tearDown Failures.ffmpeg_hangs
                   (snd (snd (TestCase.setUp Failures.ffmpeg_hangs
                                (decorated initial))))))
     = calls (snd (snd (TestCase.setUp Failures.ffmpeg_hangs
                          (decorated initial))))
       ++ [is_logged_in; go_to_home_page; log_out;
           send_signal_SIGINT; communicate]
  /\ existsb is_driver_quit
       (calls (snd (TestCase.tearDown Failures.ffmpeg_hangs
                      (snd (snd (TestCase.setUp Failures.ffmpeg_hangs
                                   (decorated initial)))))))
     = false.
Proof. vm_compute. repeat split. Qed.

(** The whole teardown when [log_out] raises: the finally block still runs
    to its end, and the exception of the log-out step is raised again. *)
Example tearDown_when_log_out_raises :
  TestCase.tearDown Runs.log_out_raises (Runs.after_setUp Runs.log_out_raises)
  = (Raise (MkExc TimeoutException "log out"),
     set_is_launched false
       (set_calls
          (fun l => l ++ [is_logged_in; go_to_home_page; log_out;
                          send_signal_SIGINT; communicate; driver_quit;
                          super_tearDown])
          (Runs.after_setUp Runs.log_out_raises))).
Proof. vm_compute. reflexivity. Qed.

Section SetUp.
Variable cfg : Setting.

Lemma setUp_without_display :
  environ_get (environ cfg) "INTEGRATION_TESTS" = true ->
  environ_get (environ cfg) "SELENIUM_HEADLESS" = false ->
  issues (fun c => ~ display_call c) (BaseTestCase.setUp cfg)
  /\ keeps vdisplay (BaseTestCase.setUp cfg).
Proof.
  intros H1 H2. unfold BaseTestCase.setUp. rewrite H1, H2.
  unfold VideoRecorder_init, VideoRecorder_start, BaseTestCase._configure_log,
    BaseTestCase.addOnException.
  split.
  - issues_tac; simpl; auto.
  - keeps_tac.
Qed.

Lemma setUp_with_display (s : State) :
  environ_get (environ cfg) "INTEGRATION_TESTS" = true ->
  environ_get (environ cfg) "SELENIUM_HEADLESS" = true ->
  exists rest,
    calls (snd (BaseTestCase.setUp cfg s)) = calls s ++ Xvfb 1920 1080 :: rest
    /\ ((forall n c, display_call c -> fails cfg n c = None) ->
        In vdisplay_start rest
        /\ vdisplay (snd (BaseTestCase.setUp cfg s)) = true).
Proof.
  intros H1 H2. unfold BaseTestCase.setUp. rewrite H1, H2. simpl negb. cbv iota.
  set (tail := bind (call cfg WebDriverWrapper) _).
  assert (T : issues (fun _ => True) tail).
  { subst tail.
    unfold VideoRecorder_init, VideoRecorder_start, BaseTestCase.addOnException.
    issues_tac; exact I. }
  assert (K : keeps vdisplay tail).
  { subst tail.
    unfold VideoRecorder_init, VideoRecorder_start, BaseTestCase.addOnException.
    keeps_tac. }
  set (extend := if has_extra_xvfb_args cfg then _ else _).
  assert (X : exists c, display_call c /\ extend = call cfg c).
  { subst extend.
    destruct (has_extra_xvfb_args cfg); eexists; split; try reflexivity; exact I. }
  destruct X as (c & Dc & ->).
  unfold bind, BaseTestCase._configure_log, modify, call. simpl.
  destruct (fails cfg (length (calls s)) (Xvfb 1920 1080)) eqn:F1; simpl.
  { exists []. split; [reflexivity |].
    intros F. rewrite F in F1 by exact I. discriminate. }
  rewrite !length_app. simpl.
  destruct (fails cfg _ c) eqn:F2; simpl.
  { eexists. split; [rewrite <- app_assoc; reflexivity |].
    intros F. rewrite F in F2 by exact Dc. discriminate. }
  rewrite !length_app. simpl.
  destruct (fails cfg _ get_next_unused_display) eqn:F3; simpl.
  { eexists. split; [rewrite <- !app_assoc; reflexivity |].
    intros F. rewrite F in F3 by exact I. discriminate. }
  rewrite !length_app. simpl.
  destruct (fails cfg _ vdisplay_start) eqn:F4; simpl.
  { eexists. split; [rewrite <- !app_assoc; reflexivity |].
    intros F. rewrite F in F4 by exact I. discriminate. }
  match goal with |- context [snd (tail ?st)] =>
    destruct (T st) as (l & El & _); pose proof (K st) as Kl end.
  rewrite El, Kl. simpl.
  eexists. split; [rewrite <- !app_assoc; simpl; reflexivity |].
  intros _. split; [| reflexivity].
  right; right; left; reflexivity.
Qed.

(** C7: when INTEGRATION_TESTS is unset or empty, [BaseTestCase.setUp]
    raises the skip exception after it configured the log and before any
    call: no virtual display, no browser session.  Otherwise the calls it
    issues include the construction of the virtual display exactly when
    SELENIUM_HEADLESS is set to a non-empty text; without it [self.vdisplay]
    stays unbound, and with it the display is bound and started unless one
    of its calls raises. *)
Theorem setUp_gated_by_environment (s : State) :
  (environ_get (environ cfg) "INTEGRATION_TESTS" = false ->
   BaseTestCase.setUp cfg s
   = (Raise (BaseTestCase.skipException
               "The INTEGRATION_TESTS env variable is not set."),
      set_log_buffer "" s))
  /\ (environ_get (environ cfg) "INTEGRATION_TESTS" = true ->
      exists issued,
        calls (snd (BaseTestCase.setUp cfg s)) = calls s ++ issued
        /\ (In (Xvfb 1920 1080) issued
            <-> environ_get (environ cfg) "SELENIUM_HEADLESS" = true)
        /\ (Exists display_call issued
            <-> environ_get (environ cfg) "SELENIUM_HEADLESS" = true)
        /\ (environ_get (environ cfg) "SELENIUM_HEADLESS" = false ->
            vdisplay (snd (BaseTestCase.setUp cfg s)) = vdisplay s)
        /\ (environ_get (environ cfg) "SELENIUM_HEADLESS" = true ->
            (forall n c, display_call c -> fails cfg n c = None) ->
            In vdisplay_start issued
            /\ vdisplay (snd (BaseTestCase.setUp cfg s)) = true)).
Proof.
  split.
  - intros H.
    unfold BaseTestCase.setUp, bind, BaseTestCase._configure_log, modify.
    rewrite H. reflexivity.
  - intros H1.
    destruct (environ_get (environ cfg) "SELENIUM_HEADLESS") eqn:H2.
    + destruct (setUp_with_display s H1 H2) as (rest & E & S).
      exists (Xvfb 1920 1080 :: rest). split; [exact E |].
      split; [split; [reflexivity | intros _; left; reflexivity] |].
      split; [split; [reflexivity | intros _; left; exact I] |].
      split; [discriminate |].
      intros _ F. destruct (S F) as [I1 V1]. split; [right; exact I1 | exact V1].
    + destruct (setUp_without_display H1 H2) as [T K].
      destruct (T s) as (l & E & F).
      exists l. split; [exact E |].
      rewrite List.Forall_forall in F.
      split; [split; [intros HIn; exfalso; apply (F _ HIn); exact I
                     | discriminate] |].
      split; [split; [intros HEx | discriminate] |].
      { apply List.Exists_exists in HEx. destruct HEx as (c & HIn & Dc).
        exfalso. exact (F c HIn Dc). }
      split; [intros _; apply K |].
      discriminate.
Qed.

End SetUp.

Lemma setUp_gated_by_environment_witness :
  BaseTestCase.setUp Runs.unset initial
  = (Raise (BaseTestCase.skipException
              "The INTEGRATION_TESTS env variable is not set."),
     set_log_buffer "" initial).
Proof.
  apply (proj1 (setUp_gated_by_environment Runs.unset initial)).
  vm_compute. reflexivity.
Defined.

(** The calls of [setUp] under a virtual display, and without one. *)
Example setUp_headless :
  BaseTestCase.setUp Runs.under_xvfb initial
  = (Return tt,
     MkState
       [Xvfb 1920 1080; extend_xvfb_args "extra_xvfb_args" ["-noreset"; "-ac"];
        get_next_unused_display; vdisplay_start; WebDriverWrapper;
        maximize_window; set_window_size "1920" "1080"; implicitly_wait;
        set_page_load_timeout; xdpyinfo; open_w "/dev/null"; Popen_ffmpeg;
        super_setUp]
       ∅ ∅ "" true true
       ["_attach_page_source"; "_attach_screenshot"; "_attach_video";
        "_attach_browser_log"; "_attach_test_log"]
       "99").
Proof. vm_compute. reflexivity. Qed.

Example setUp_with_a_screen :
  BaseTestCase.setUp Runs.plain initial
  = (Return tt,
     MkState
       [WebDriverWrapper; maximize_window; implicitly_wait;
        set_page_load_timeout; xdpyinfo; open_w "/dev/null"; Popen_ffmpeg;
        super_setUp]
       ∅ ∅ "" false true
       ["_attach_page_source"; "_attach_screenshot"; "_attach_video";
        "_attach_browser_log"; "_attach_test_log"]
       "0.0").
Proof. vm_compute. reflexivity. Qed.

(** ** Page objects: the table properties *)

Lemma new_fresh (o : Obj) (w : Browser) :
  exists r, new o w = (Return r, set_heap (fun h => <[r := o]> h) w)
    /\ heap w !! r = None.
Proof.
  unfold new. eexists. split; [reflexivity |].
  apply not_elem_of_dom. apply is_fresh.
Qed.

Lemma new_twice (o : Obj) (w : Browser) :
  exists r1 r2 w1 w2,
    new o w = (Return r1, w1) /\ new o w1 = (Return r2, w2)
    /\ r1 <> r2
    /\ heap w !! r1 = None /\ heap w1 !! r2 = None
    /\ heap w2 !! r1 = Some o /\ heap w2 !! r2 = Some o
    /\ (forall r, r <> r1 -> r <> r2 -> heap w2 !! r = heap w !! r).
Proof.
  destruct (new_fresh o w) as (r1 & E1 & F1).
  destruct (new_fresh o (set_heap (fun h => <[r1 := o]> h) w)) as (r2 & E2 & F2).
  exists r1, r2. eexists. eexists.
  split; [exact E1 |]. split; [exact E2 |].
  simpl in *.
  assert (r1 <> r2) as Hne.
  { intros ->. rewrite lookup_insert_eq in F2. discriminate. }
  repeat split; auto.
  - rewrite lookup_insert_ne by auto. apply lookup_insert_eq.
  - apply lookup_insert_eq.
  - intros r H1 H2. rewrite !lookup_insert_ne by auto. reflexivity.
Qed.

(** C5: two successive accesses to the table property of a page
    ([users_table], [volumes_table], [apiaccess_table]) both return; the
    two regions are distinct objects, neither of which existed before its
    access; both are of the table class of the page and hold the driver and
    the configuration of the page; no other object is made or changed, so
    nothing caches the first region for the second access. *)
Theorem table_property_constructs_fresh_region (self : Page) (w : Browser) :
  Forall (fun cp : string * (Page -> M Browser nat) =>
            exists r1 r2 w1 w2,
              snd cp self w = (Return r1, w1)
              /\ snd cp self w1 = (Return r2, w2)
              /\ r1 <> r2
              /\ heap w !! r1 = None
              /\ heap w1 !! r2 = None
              /\ heap w2 !! r1
                 = Some (Region (fst cp) (page_driver self) (page_conf self) [])
              /\ heap w2 !! r2
                 = Some (Region (fst cp) (page_driver self) (page_conf self) [])
              /\ (forall r, r <> r1 -> r <> r2 -> heap w2 !! r = heap w !! r))
         table_properties.
Proof.
  unfold table_properties.
  repeat constructor; simpl;
    unfold UsersPage.users_table, VolumesPage.volumes_table,
      ApiaccessPage.apiaccess_table;
    match goal with |- context [new ?o _] =>
      destruct (new_twice o w)
        as (r1 & r2 & w1 & w2 & E1 & E2 & Hne & F1 & F2 & L1 & L2 & Hrest)
    end;
    exists r1, r2, w1, w2; repeat split; auto.
Qed.

(** Two accesses in an empty session: the regions are the objects 0 and 1. *)
Example users_table_twice :
  let first := UsersPage.users_table Runs.page Runs.browser in
  let second := UsersPage.users_table Runs.page (snd first) in
  fst first = Return 0 /\ fst second = Return 1
  /\ heap (snd second) !! 0 = Some (Region "UsersTable" 0 1 [])
  /\ heap (snd second) !! 1 = Some (Region "UsersTable" 0 1 []).
Proof. vm_compute. repeat split. Qed.

(** ** Page objects: lookup of a row by its displayed name *)

Lemma get_row_Some (rows : list Row) (column text : string) (row : Row) :
  get_row rows column text = Some row ->
  In row rows /\ displays column text row.
Proof.
  unfold get_row. intros H. apply find_some in H. destruct H as [HIn Hb].
  split; [exact HIn |]. now apply bool_decide_eq_true in Hb.
Qed.

Lemma get_row_None (rows : list Row) (column text : string) :
  get_row rows column text = None ->
  forall row, In row rows -> ~ displays column text row.
Proof.
  unfold get_row. intros H row HIn Hd.
  pose proof (find_none _ _ H row HIn) as Hb. simpl in Hb.
  apply bool_decide_eq_false in Hb. contradiction.
Qed.

Lemma bool_of_get_row (rows : list Row) (column text : string) :
  bool_of_row (get_row rows column text) = true
  <-> exists row, In row rows /\ displays column text row.
Proof.
  destruct (get_row rows column text) as [row |] eqn:E; simpl.
  - split; [intros _ | reflexivity]. exists row. now apply get_row_Some.
  - split; [discriminate |]. intros (row & HIn & Hd).
    exfalso. exact (get_row_None _ _ _ E row HIn Hd).
Qed.

Lemma get_row_with_user_name_eq (self : Page) (name : string) (w : Browser) :
  fst (UsersPage._get_row_with_user_name self name w)
  = Return (get_row (rendered w (clock w) "users") "name" name).
Proof. reflexivity. Qed.

Lemma get_row_with_volume_name_eq (self : Page) (name : string) (w : Browser) :
  fst (VolumesPage._get_row_with_volume_name self name w)
  = Return (get_row (rendered w (clock w) "volumes") "name" name).
Proof. reflexivity. Qed.

(** C4: [is_user_present(name)] and [is_volume_present(name)] return, and
    return True exactly when the table rendered now has a row whose 'name'
    column displays [name].  The row lookup behind them returns a row of
    the table that displays [name] whenever there is one, however many there
    are: nothing checks that only one row matches, and which of several
    matching rows is returned is not part of the statement. *)
Theorem row_lookup_is_by_displayed_name (self : Page) (name : string)
    (w : Browser) :
  let users := rendered w (clock w) "users" in
  let volumes := rendered w (clock w) "volumes" in
  (exists present,
     fst (UsersPage.is_user_present self name w) = Return present
     /\ (present = true
         <-> exists row, In row users /\ displays "name" name row))
  /\ (exists present,
        fst (VolumesPage.is_volume_present self name w) = Return present
        /\ (present = true
            <-> exists row, In row volumes /\ displays "name" name row))
  /\ (exists found,
        fst (UsersPage._get_row_with_user_name self name w) = Return found
        /\ (forall row, found = Some row ->
                        In row users /\ displays "name" name row)
        /\ ((exists row, In row users /\ displays "name" name row) ->
            is_Some found))
  /\ (exists found,
        fst (VolumesPage._get_row_with_volume_name self name w) = Return found
        /\ (forall row, found = Some row ->
                        In row volumes /\ displays "name" name row)
        /\ ((exists row, In row volumes /\ displays "name" name row) ->
            is_Some found)).
Proof.
  cbv zeta. repeat split.
  - eexists. split; [reflexivity |]. apply bool_of_get_row.
  - eexists. split; [reflexivity |]. apply bool_of_get_row.
  - eexists. split; [apply get_row_with_user_name_eq |]. split.
    + intros row. apply get_row_Some.
    + intros H. apply bool_of_get_row in H.
      destruct (get_row _ _ _); [eauto | discriminate].
  - eexists. split; [apply get_row_with_volume_name_eq |]. split.
    + intros row. apply get_row_Some.
    + intros H. apply bool_of_get_row in H.
      destruct (get_row _ _ _); [eauto | discriminate].
Qed.

Lemma row_lookup_is_by_displayed_name_witness :
  exists found,
    fst (VolumesPage._get_row_with_volume_name Runs.page "vol" Runs.browser)
    = Return found
    /\ is_Some found.
Proof.
  destruct (proj2 (proj2 (proj2
              (row_lookup_is_by_displayed_name Runs.page "vol" Runs.browser))))
    as (found & Hfound & _ & Hsome).
  exists found. split; [exact Hfound |].
  apply Hsome. exists (Runs.row "vol" "Error"). split.
  - right. right. left. reflexivity.
  - reflexivity.
Defined.

(** Two volumes display the name 'vol': the volume is present, and the
    lookup returns one of the two rows without complaint. *)
Example lookup_with_duplicate_names :
  fst (VolumesPage.is_volume_present Runs.page "vol" Runs.browser) = Return true
  /\ fst (VolumesPage._get_row_with_volume_name Runs.page "vol" Runs.browser)
     = Return (Some (Runs.row "vol" "Available"))
  /\ fst (VolumesPage.is_volume_present Runs.page "none" Runs.browser)
     = Return false.
Proof.
  split; [vm_compute; reflexivity |].
  split; [reflexivity |].
  vm_compute; reflexivity.
Qed.

(** ** The polling helper *)

Section PollingProperties.
Context {V : Type}.
Variable truthy : V -> bool.
Variable predicate : M Browser V.

Lemma wait_until_unfold (timeout : nat) (w : Browser) :
  _wait_until truthy predicate timeout w
  = match predicate w with
    | (Return value, w1) =>
        if truthy value then (Return value, w1)
        else match timeout with
             | 0 => (Raise TimeoutException_raised, w1)
             | S remaining =>
                 _wait_until truthy predicate remaining (set_clock S w1)
             end
    | (Raise e, w1) => (Raise e, w1)
    end.
Proof.
  destruct timeout; simpl; unfold bind;
    destruct (predicate w) as [[value | e] w1]; try reflexivity;
    destruct (truthy value); reflexivity.
Qed.

Lemma falsy_shift (w : Browser) (value : V) (w1 : Browser) (P : nat -> Prop) :
  predicate w = (Return value, w1) ->
  truthy value = false ->
  (forall j, P j -> falsy_at truthy predicate (set_clock S w1) j) ->
  forall j, match j with 0 => True | S i => P i end ->
            falsy_at truthy predicate w j.
Proof.
  intros E T H [| i] Hj.
  - exists value. simpl. rewrite E. auto.
  - unfold falsy_at in *. simpl. rewrite E. simpl. apply H. exact Hj.
Qed.

Lemma before_poll_0 (w : Browser) (o : Outcome V) (w1 : Browser) :
  predicate w = (o, w1) ->
  fst (predicate (before_poll predicate 0 w)) = o
  /\ snd (predicate (before_poll predicate 0 w)) = w1.
Proof. simpl. intros ->. auto. Qed.

Lemma before_poll_S (w : Browser) (value : V) (w1 : Browser) (k : nat) :
  predicate w = (Return value, w1) ->
  before_poll predicate k (set_clock S w1) = before_poll predicate (S k) w.
Proof. simpl. intros ->. reflexivity. Qed.

Lemma wait_until_ending (timeout : nat) (w : Browser) :
  Ending truthy predicate timeout w (_wait_until truthy predicate timeout w).
Proof.
  revert w. induction timeout as [| n IH]; intros w; rewrite wait_until_unfold;
    destruct (predicate w) as [[value | e] w1] eqn:E;
    destruct (before_poll_0 w _ w1 E) as [E0 E1].
  - destruct (truthy value) eqn:T; rewrite <- E1.
    + apply ends_truthy; [lia | intros j Hj; lia | exact E0 | exact T].
    + apply ends_timeout. intros j Hj. assert (j = 0) as -> by lia.
      exists value. auto.
  - rewrite <- E1. apply ends_raised; [lia | intros j Hj; lia | exact E0].
  - destruct (truthy value) eqn:T.
    + rewrite <- E1.
      apply ends_truthy; [lia | intros j Hj; lia | exact E0 | exact T].
    + specialize (IH (set_clock S w1)).
      inversion IH as [k v Hk Hf Hv Ht Heq | Hf Heq | k e Hk Hf He Heq];
        rewrite (before_poll_S w value w1 _ E) in *.
      * apply ends_truthy; auto; [lia |].
        intros j Hj.
        apply (falsy_shift w value w1 (fun i => i < k) E T Hf).
        destruct j; [exact I | lia].
      * apply ends_timeout. intros j Hj.
        apply (falsy_shift w value w1 (fun i => i <= n) E T Hf).
        destruct j; [exact I | lia].
      * apply ends_raised; auto; [lia |].
        intros j Hj.
        apply (falsy_shift w value w1 (fun i => i < k) E T Hf).
        destruct j; [exact I | lia].
  - rewrite <- E1. apply ends_raised; [lia | intros j Hj; lia | exact E0].
Qed.

(** The clock when the [k]-th evaluation starts, for a condition that does
    not wait itself. *)
Lemma before_poll_clock (k : nat) (w : Browser) :
  (forall w0, clock (snd (predicate w0)) = clock w0) ->
  clock (before_poll predicate k w) = k + clock w.
Proof.
  intros Hc. revert w. induction k as [| k IH]; intros w; simpl.
  - reflexivity.
  - rewrite IH. simpl. rewrite Hc. lia.
Qed.

Lemma wait_until_returns_or_times_out (timeout : nat) (w : Browser) :
  (forall w0, exists value, fst (predicate w0) = Return value) ->
  (exists value,
     fst (_wait_until truthy predicate timeout w) = Return value
     /\ truthy value = true)
  \/ fst (_wait_until truthy predicate timeout w)
     = Raise TimeoutException_raised.
Proof.
  intros Htotal.
  pose proof (wait_until_ending timeout w) as HE.
  inversion HE as [k v Hk Hf Hv Ht Heq | Hf Heq | k e Hk Hf He Heq]; simpl.
  - left. exists v. auto.
  - right. reflexivity.
  - destruct (Htotal (before_poll predicate k w)) as (v & Hv). congruence.
Qed.

Lemma wait_until_clock (timeout : nat) (w : Browser) :
  (forall w0, clock (snd (predicate w0)) = clock w0) ->
  clock w <= clock (snd (_wait_until truthy predicate timeout w))
          <= clock w + timeout.
Proof.
  intros Hc.
  pose proof (wait_until_ending timeout w) as HE.
  inversion HE as [k v Hk Hf Hv Ht Heq | Hf Heq | k e Hk Hf He Heq]; simpl;
    rewrite Hc, before_poll_clock by exact Hc; lia.
Qed.

End PollingProperties.

(** The call sites: [is_volume_deleted] returns True or raises the timeout,
    and [get_credentials_from_file] does not go on when its polling
    raised. *)
Lemma is_volume_deleted_ends (CONFIG : Conf) (self : Page) (name : string)
    (w : Browser) :
  fst (VolumesPage.is_volume_deleted CONFIG self name w) = Return true
  \/ fst (VolumesPage.is_volume_deleted CONFIG self name w)
     = Raise TimeoutException_raised.
Proof.
  assert (E : VolumesPage.is_volume_deleted CONFIG self name w
              = is_row_deleted (polls CONFIG)
                  (VolumesPage._get_row_with_volume_name self name)
                  (snd (VolumesPage.volumes_table self w))) by reflexivity.
  rewrite E. unfold is_row_deleted.
  match goal with |- context [_wait_until ?t ?p ?n ?w1] =>
    destruct (wait_until_returns_or_times_out t p n w1)
      as [(v & Hv & Ht) | Ht]
  end.
  - intros w0. eexists. reflexivity.
  - left. simpl in Ht. now subst v.
  - right. exact Ht.
Qed.

Lemma get_credentials_after_fetch (CONFIG : Conf) (self : Page) (version : Z)
    (directory template : string) (w : Browser) :
  ApiaccessPage.get_credentials_from_file CONFIG self version directory template w
  = match fetch CONFIG directory template w with
    | (Return content, w1) =>
        (do username <- ApiaccessPage.group_1 ApiaccessPage.username_re content;
         do re <- ApiaccessPage.local "tenant_name_re"
                    (ApiaccessPage.tenant_name_re version);
         do tenant_name <- ApiaccessPage.group_1 re content;
         do re <- ApiaccessPage.local "tenant_id_re"
                    (ApiaccessPage.tenant_id_re version);
         do tenant_id <- ApiaccessPage.group_1 re content;
         ret (cred_dict username tenant_name tenant_id)) w1
    | (Raise e, w1) => (Raise e, w1)
    end.
Proof.
  unfold ApiaccessPage.get_credentials_from_file, fetch, file_is_there, bind.
  destruct (_wait_until _ _ _ w) as [[found | e] w1]; [| reflexivity].
  destruct (ApiaccessPage.list_of_files directory template w1)
    as [[files | e] w2]; [| reflexivity].
  destruct files as [| f rest]; [reflexivity |]. simpl.
  destruct (ApiaccessPage.read_file directory f w2) as [[content | e] w3];
    reflexivity.
Qed.

Lemma get_credentials_times_out (CONFIG : Conf) (self : Page) (version : Z)
    (directory template : string) (w : Browser) (e : Exc) :
  fst (_wait_until (fun found : bool => found)
         (file_is_there directory template) (polls CONFIG) w) = Raise e ->
  fst (ApiaccessPage.get_credentials_from_file CONFIG self version
         directory template w) = Raise e.
Proof.
  intros H. rewrite get_credentials_after_fetch. unfold fetch, bind at 1.
  destruct (_wait_until _ _ _ w) as [[found | e0] w1]; simpl in *.
  - discriminate.
  - congruence.
Qed.

(** C3: the polling helper evaluates the condition, sleeps one interval
    after each result that is not truthy, and ends in one of three ways
    only.  With the first truthy result, which it returns to the caller,
    after at most [timeout] sleeps; with the timeout exception, after
    [timeout + 1] evaluations none of which was truthy; or with an exception
    the condition itself raised.  A condition that never raises leaves the
    first two.  When the condition does not wait itself, the helper ends no
    later than [timeout] intervals after it started: nothing retries beyond
    that.  At the call sites, [is_volume_deleted] returns True or raises the
    timeout, and [get_credentials_from_file] raises what its polling
    raised. *)
Theorem polling_is_bounded :
  (forall (V : Type) (truthy : V -> bool) (predicate : M Browser V)
          (timeout : nat) (w : Browser),
     Ending truthy predicate timeout w (_wait_until truthy predicate timeout w)
     /\ ((forall w0, exists value, fst (predicate w0) = Return value) ->
         (exists value,
            fst (_wait_until truthy predicate timeout w) = Return value
            /\ truthy value = true)
         \/ fst (_wait_until truthy predicate timeout w)
            = Raise TimeoutException_raised)
     /\ ((forall w0, clock (snd (predicate w0)) = clock w0) ->
         clock w <= clock (snd (_wait_until truthy predicate timeout w))
                 <= clock w + timeout))
  /\ (forall CONFIG self name w,
        fst (VolumesPage.is_volume_deleted CONFIG self name w) = Return true
        \/ fst (VolumesPage.is_volume_deleted CONFIG self name w)
           = Raise TimeoutException_raised)
  /\ (forall CONFIG self version directory template w e,
        fst (_wait_until (fun found : bool => found)
               (file_is_there directory template) (polls CONFIG) w) = Raise e ->
        fst (ApiaccessPage.get_credentials_from_file CONFIG self version
               directory template w) = Raise e).
Proof.
  split; [| split].
  - intros V truthy predicate timeout w. split; [| split].
    + apply wait_until_ending.
    + apply wait_until_returns_or_times_out.
    + apply wait_until_clock.
  - apply is_volume_deleted_ends.
  - apply get_credentials_times_out.
Qed.

Lemma polling_is_bounded_witness :
  (exists value,
     fst (_wait_until (fun found : bool => found)
            (file_is_there "downloads" "openrc.sh") 3 Runs.browser)
     = Return value
     /\ value = true)
  \/ fst (_wait_until (fun found : bool => found)
            (file_is_there "downloads" "openrc.sh") 3 Runs.browser)
     = Raise TimeoutException_raised.
Proof.
  apply (proj1 (proj2 (proj1 polling_is_bounded bool (fun found => found)
                         (file_is_there "downloads" "openrc.sh") 3
                         Runs.browser))).
  intros w0. eexists. reflexivity.
Defined.

(** The file appears at the second tick: a polling of three intervals
    returns at tick 2, one of a single interval times out at tick 1. *)
Example polling_for_the_download :
  fst (_wait_until (fun found : bool => found)
         (file_is_there "downloads" "openrc.sh") 3 Runs.browser)
  = Return true
  /\ clock (snd (_wait_until (fun found : bool => found)
                   (file_is_there "downloads" "openrc.sh") 3 Runs.browser))
     = 2
  /\ fst (_wait_until (fun found : bool => found)
            (file_is_there "downloads" "openrc.sh") 1 Runs.browser)
     = Raise TimeoutException_raised
  /\ clock (snd (_wait_until (fun found : bool => found)
                   (file_is_there "downloads" "openrc.sh") 1 Runs.browser))
     = 1.
Proof. repeat split; vm_compute; reflexivity. Qed.

(** ** [VolumesPage.create_volume] *)

Section CreateVolume.
Variable CONFIG : Conf.
Variable resolves : list string -> string -> bool.

Lemma get_source_name_is_no_text (form : nat) (vst : string)
    (vsrc : option string) (w w' : Browser) (value : VolumesPage.Value) :
  VolumesPage._get_source_name CONFIG resolves form vst vsrc w
  = (Return value, w') ->
  VolumesPage.guard value = true.
Proof.
  unfold VolumesPage._get_source_name.
  destruct (String.eqb vst VolumesPage.IMAGE_SOURCE_TYPE).
  - intros H. bind_inv H. injection H as <- _. reflexivity.
  - destruct (String.eqb vst VolumesPage.VOLUME_SOURCE_TYPE).
    + intros H. bind_inv H. injection H as <- _. reflexivity.
    + intros H. injection H as <- _. reflexivity.
Qed.

Lemma form_field_eq (form : nat) (name : string) (w : Browser) :
  form_field resolves form name w
  = (match heap w !! form with
     | Some (Region _ _ _ fm) =>
         if resolves fm name then Return name
         else Raise (MkExc AttributeError name)
     | None => Raise (MkExc AttributeError name)
     end, w).
Proof.
  unfold form_field, bind, gets.
  destruct (heap w !! form) as [[cls d c fm] |]; [| reflexivity].
  destruct (resolves fm name); reflexivity.
Qed.

Lemma set_field_value_Return (form : nat) (name value : string) (u : unit)
    (w w' : Browser) :
  VolumesPage.set_field_value resolves form name value w = (Return u, w') ->
  actions w' = actions w ++ [set_value name value].
Proof.
  unfold VolumesPage.set_field_value. intros H. bind_inv H.
  rewrite form_field_eq in E.
  destruct (heap w !! form) as [[cls d c fm] |]; [| discriminate].
  destruct (resolves fm name); [| discriminate].
  injection E as <- <-. injection H as _ <-. reflexivity.
Qed.

Lemma create_volume_sets_type_and_zone (self : Page) (volume_name : string)
    (description : option string) (vst : string) (size vsrc : option string)
    (w w' : Browser) :
  VolumesPage.create_volume CONFIG resolves self volume_name description vst
    size vsrc w = (Return tt, w') ->
  exists before,
    actions w'
    = before ++ [set_value "type" (volume_type CONFIG);
                 set_value "availability_zone" (available_zone CONFIG);
                 submit].
Proof.
  unfold VolumesPage.create_volume. intros H.
  do 5 bind_inv H. bind_inv_as H Hsrc. do 3 bind_inv H.
  rewrite (get_source_name_is_no_text _ _ _ _ _ _ Hsrc) in H.
  bind_inv_as H Hsize. clear Hsize.
  bind_inv_as H Hthen. bind_inv_as Hthen Htype.
  apply set_field_value_Return in Htype, Hthen.
  injection H as <-. cbn [actions set_actions].
  rewrite Hthen, Htype. rewrite <- !app_assoc. simpl.
  eexists. reflexivity.
Qed.

Section OnTheForm.
Hypothesis exposed :
  exposes_its_fields resolves VolumesPage.CREATE_VOLUME_FROM_IMAGE_FORM_FIELDS.

Lemma fields_of_the_form :
  let fields := VolumesPage.CREATE_VOLUME_FROM_IMAGE_FORM_FIELDS in
  resolves fields "name" = true
  /\ resolves fields "description" = true
  /\ resolves fields "volume_source_type" = true
  /\ resolves fields "image_source" = true
  /\ resolves fields "type" = true
  /\ resolves fields "size" = true
  /\ resolves fields "availability_zone" = true.
Proof. cbv zeta. repeat split; apply exposed; simpl; tauto. Qed.

Ltac on_the_form more more' :=
  destruct fields_of_the_form as (Hn & Hd & Hs & Hi & Ht & Hz & Ha);
  unfold VolumesPage.create_volume, VolumesPage.volumes_table,
    VolumesPage.VolumesTable_create_volume, VolumesPage.set_field_text,
    VolumesPage.set_field_value, VolumesPage._get_source_name, act, modify, new;
  cbn [String.eqb Ascii.eqb Bool.eqb VolumesPage.VOLUME_SOURCE_TYPE
       VolumesPage.IMAGE_SOURCE_TYPE];
  unfold bind;
  repeat progress
    (rewrite ?form_field_eq;
     cbn [heap set_actions set_heap VolumesPage.getitem
          VolumesPage.assign_text ret raise VolumesPage.guard
          VolumesPage.py_ne VolumesPage.py_eq negb VolumesPage.to_option];
     unfold act, modify;
     rewrite ?lookup_insert_eq, ?Hn, ?Hd, ?Hs, ?Hi, ?Ht, ?Hz, ?Ha,
       ?more, ?more').

Lemma create_volume_from_image (self : Page) (volume_name : string)
    (description size vsrc : option string) (w : Browser) :
  exists w',
    VolumesPage.create_volume CONFIG resolves self volume_name description
      VolumesPage.IMAGE_SOURCE_TYPE size vsrc w = (Return tt, w')
    /\ actions w'
       = actions w
         ++ [click "create"; set_text "name" (Some volume_name)]
         ++ described description
         ++ [set_text "volume_source_type" (Some "Image");
             set_text "image_source" (Some (image_name CONFIG));
             set_value "size" (default (volume_size CONFIG) size);
             set_value "type" (volume_type CONFIG);
             set_value "availability_zone" (available_zone CONFIG);
             submit].
Proof.
  destruct description as [d |]; on_the_form (@lookup_insert_eq) (@lookup_insert_eq);
    (eexists; split; [reflexivity |]);
    cbn [actions set_actions set_heap described]; rewrite <- !app_assoc;
    destruct size; reflexivity.
Qed.

Lemma create_volume_from_volume (self : Page) (volume_name : string)
    (description size vsrc : option string) (w : Browser) :
  resolves VolumesPage.CREATE_VOLUME_FROM_IMAGE_FORM_FIELDS "volume_id"
  = true ->
  exists w',
    VolumesPage.create_volume CONFIG resolves self volume_name description
      VolumesPage.VOLUME_SOURCE_TYPE size vsrc w = (Return tt, w')
    /\ actions w'
       = actions w
         ++ [click "create"; set_text "name" (Some volume_name)]
         ++ described description
         ++ [set_text "volume_source_type" (Some "Volume");
             set_text "volume_id" vsrc;
             set_value "size" (default (volume_size CONFIG) size);
             set_value "type" (volume_type CONFIG);
             set_value "availability_zone" (available_zone CONFIG);
             submit].
Proof.
  intros Hv.
  destruct description as [d |]; on_the_form Hv Hv;
    (eexists; split; [reflexivity |]);
    cbn [actions set_actions set_heap described]; rewrite <- !app_assoc;
    destruct vsrc, size; reflexivity.
Qed.

Lemma create_volume_without_volume_id (self : Page) (volume_name : string)
    (description size vsrc : option string) (w : Browser) :
  resolves VolumesPage.CREATE_VOLUME_FROM_IMAGE_FORM_FIELDS "volume_id"
  = false ->
  exists w',
    VolumesPage.create_volume CONFIG resolves self volume_name description
      VolumesPage.VOLUME_SOURCE_TYPE size vsrc w
    = (Raise (MkExc AttributeError "volume_id"), w')
    /\ actions w'
       = actions w
         ++ [click "create"; set_text "name" (Some volume_name)]
         ++ described description
         ++ [set_text "volume_source_type" (Some "Volume")].
Proof.
  intros Hv.
  destruct description as [d |]; on_the_form Hv Hv;
    (eexists; split; [reflexivity |]);
    cbn [actions set_actions set_heap described]; rewrite <- !app_assoc;
    reflexivity.
Qed.

Lemma create_volume_from_another_source (self : Page)
    (volume_name vst : string) (description size vsrc : option string)
    (w : Browser) :
  vst <> VolumesPage.IMAGE_SOURCE_TYPE ->
  vst <> VolumesPage.VOLUME_SOURCE_TYPE ->
  exists w',
    VolumesPage.create_volume CONFIG resolves self volume_name description
      vst size vsrc w
    = (Raise (MkExc TypeError "object has no attribute '__getitem__'"), w')
    /\ actions w'
       = actions w
         ++ [click "create"; set_text "name" (Some volume_name)]
         ++ described description
         ++ [set_text "volume_source_type" (Some vst)].
Proof.
  intros Hi' Hv'.
  apply String.eqb_neq in Hi', Hv'.
  destruct description as [d |]; on_the_form Hi' Hv';
    (eexists; split; [reflexivity |]);
    cbn [actions set_actions set_heap described]; rewrite <- !app_assoc;
    reflexivity.
Qed.

End OnTheForm.

(** C8, amended: in [create_volume] the local variable
    [volume_source_type] holds, at the comparison with "Volume", what
    [_get_source_name] returned: a pair or None, never a text, so the
    comparison is true for every value that reaches it, and every call
    that completes has set the type and the availability zone right
    before it submitted the form, whatever the source type.  Not every
    call reaches the comparison.  On a form that exposes the fields of its
    mappings: with the source type 'Image' the call completes and sets
    both; with 'Volume' it raises AttributeError at [volume_id], which is
    not among the mappings, unless the form exposes that field as well, and
    then it completes and sets both; with any other source type
    [_get_source_name] returns None and taking its item raises TypeError.
    A call that raises has set neither field. *)
Theorem create_volume_guard_is_always_true :
  (forall form vst vsrc w w' value,
     VolumesPage._get_source_name CONFIG resolves form vst vsrc w
     = (Return value, w') ->
     VolumesPage.guard value = true)
  /\ (forall self volume_name description vst size vsrc w w',
        VolumesPage.create_volume CONFIG resolves self volume_name description
          vst size vsrc w = (Return tt, w') ->
        exists before,
          actions w'
          = before ++ [set_value "type" (volume_type CONFIG);
                       set_value "availability_zone" (available_zone CONFIG);
                       submit])
  /\ (exposes_its_fields resolves
        VolumesPage.CREATE_VOLUME_FROM_IMAGE_FORM_FIELDS ->
      forall self volume_name description size vsrc w,
        let opened :=
          actions w
          ++ [click "create"; set_text "name" (Some volume_name)]
          ++ described description in
        let run vst :=
          VolumesPage.create_volume CONFIG resolves self volume_name
            description vst size vsrc w in
        (fst (run "Image") = Return tt
         /\ actions (snd (run "Image"))
            = opened
              ++ [set_text "volume_source_type" (Some "Image");
                  set_text "image_source" (Some (image_name CONFIG));
                  set_value "size" (default (volume_size CONFIG) size);
                  set_value "type" (volume_type CONFIG);
                  set_value "availability_zone" (available_zone CONFIG);
                  submit])
        /\ (resolves VolumesPage.CREATE_VOLUME_FROM_IMAGE_FORM_FIELDS
              "volume_id" = false ->
            fst (run "Volume") = Raise (MkExc AttributeError "volume_id")
            /\ actions (snd (run "Volume"))
               = opened ++ [set_text "volume_source_type" (Some "Volume")])
        /\ (resolves VolumesPage.CREATE_VOLUME_FROM_IMAGE_FORM_FIELDS
              "volume_id" = true ->
            fst (run "Volume") = Return tt
            /\ actions (snd (run "Volume"))
               = opened
                 ++ [set_text "volume_source_type" (Some "Volume");
                     set_text "volume_id" vsrc;
                     set_value "size" (default (volume_size CONFIG) size);
                     set_value "type" (volume_type CONFIG);
                     set_value "availability_zone" (available_zone CONFIG);
                     submit])
        /\ (forall vst,
              vst <> "Image" -> vst <> "Volume" ->
              fst (run vst)
              = Raise (MkExc TypeError "object has no attribute '__getitem__'")
              /\ actions (snd (run vst))
                 = opened ++ [set_text "volume_source_type" (Some vst)])).
Proof.
  split; [| split].
  - intros form vst vsrc w w' value. apply get_source_name_is_no_text.
  - intros self volume_name description vst size vsrc w w'.
    apply create_volume_sets_type_and_zone.
  - intros Hres self volume_name description size vsrc w. cbv zeta.
    split; [| split; [| split]].
    + destruct (create_volume_from_image Hres self volume_name description
                  size vsrc w) as (w' & E & A).
      unfold VolumesPage.IMAGE_SOURCE_TYPE in E. rewrite E. simpl.
      rewrite A, <- !app_assoc. auto.
    + intros Hv.
      destruct (create_volume_without_volume_id Hres self volume_name
                  description size vsrc w Hv) as (w' & E & A).
      unfold VolumesPage.VOLUME_SOURCE_TYPE in E. rewrite E. simpl.
      rewrite A, <- !app_assoc. auto.
    + intros Hv.
      destruct (create_volume_from_volume Hres self volume_name description
                  size vsrc w Hv) as (w' & E & A).
      unfold VolumesPage.VOLUME_SOURCE_TYPE in E. rewrite E. simpl.
      rewrite A, <- !app_assoc. auto.
    + intros vst Hi Hv.
      destruct (create_volume_from_another_source Hres self volume_name vst
                  description size vsrc w Hi Hv) as (w' & E & A).
      rewrite E. simpl. rewrite A, <- !app_assoc. auto.
Qed.

End CreateVolume.

Lemma create_volume_guard_is_always_true_witness :
  fst (VolumesPage.create_volume Runs.conf Runs.mapped Runs.page "disk"
         (Some "scratch") "Image" None None Runs.browser) = Return tt
  /\ actions (snd (VolumesPage.create_volume Runs.conf Runs.mapped Runs.page
                     "disk" (Some "scratch") "Image" None None Runs.browser))
     = [click "create";
        set_text "name" (Some "disk");
        set_text "description" (Some "scratch");
        set_text "volume_source_type" (Some "Image");
        set_text "image_source" (Some "TestVM");
        set_value "size" "1";
        set_value "type" "lvm";
        set_value "availability_zone" "nova";
        submit].
Proof.
  apply (proj2 (proj2 (create_volume_guard_is_always_true Runs.conf
                         Runs.mapped))
           ltac:(intros name H; simpl in H;
                 repeat (destruct H as [<- | H]; [reflexivity |]);
                 contradiction)
           Runs.page "disk" (Some "scratch") None None Runs.browser).
Defined.

(** C8 as stated fails on the form [create_volume] opens, which exposes
    the fields of its mappings: with the source type 'Volume' the call
    raises AttributeError at [volume_id] after it has typed the name and
    the source type, and with a source type that is neither 'Image' nor
    'Volume' it raises TypeError; neither call reaches the comparison or
    sets a field. *)
Lemma create_volume_that_raises :
  fst (VolumesPage.create_volume Runs.conf Runs.mapped Runs.page "copy" None
         "Volume" None (Some "vol") Runs.browser)
  = Raise (MkExc AttributeError "volume_id")
  /\ actions (snd (VolumesPage.create_volume Runs.conf Runs.mapped Runs.page
                     "copy" None "Volume" None (Some "vol") Runs.browser))
     = [click "create"; set_text "name" (Some "copy");
        set_text "volume_source_type" (Some "Volume")]
  /\ fst (VolumesPage.create_volume Runs.conf Runs.mapped Runs.page "copy" None
            "Snapshot" None None Runs.browser)
     = Raise (MkExc TypeError "object has no attribute '__getitem__'")
  /\ actions (snd (VolumesPage.create_volume Runs.conf Runs.mapped Runs.page
                     "copy" None "Snapshot" None None Runs.browser))
     = [click "create"; set_text "name" (Some "copy");
        set_text "volume_source_type" (Some "Snapshot")].
Proof. repeat split; vm_compute; reflexivity. Qed.

(** On a form that exposes [volume_id] as well, a volume is made from a
    volume, and the type and the availability zone are set. *)
Example create_volume_from_a_volume :
  actions (snd (VolumesPage.create_volume Runs.conf Runs.lenient Runs.page
                  "copy" None "Volume" None (Some "vol") Runs.browser))
  = [click "create";
     set_text "name" (Some "copy");
     set_text "volume_source_type" (Some "Volume");
     set_text "volume_id" (Some "vol");
     set_value "size" "1";
     set_value "type" "lvm";
     set_value "availability_zone" "nova";
     submit].
Proof. vm_compute. reflexivity. Qed.

(** ** The patterns *)

(** A group is a non-empty run of characters of the class at the start of
    the text, and the closing text follows it. *)
Lemma group_at_spec (cls : Re.CharClass) (closing s g : string) :
  Re.group_at cls closing s = Some g ->
  g <> EmptyString
  /\ all_in cls g = true
  /\ exists tail, Re.strip_prefix g s = Some tail
                  /\ is_Some (Re.strip_prefix closing tail).
Proof.
  revert g. induction s as [| c rest IH]; intros g; simpl.
  - discriminate.
  - destruct (Re.in_class cls c) eqn:Hc; [| discriminate].
    destruct (Re.group_at cls closing rest) as [g' |] eqn:Hg.
    + intros H. injection H as <-.
      destruct (IH g' eq_refl) as (_ & Hall & tail & Ht & Hs).
      split; [discriminate |]. split; [simpl; now rewrite Hc, Hall |].
      exists tail. simpl. rewrite Ascii.eqb_refl. auto.
    + destruct (Re.strip_prefix closing rest) as [after |] eqn:Hs;
        [| discriminate].
      intros H. injection H as <-.
      split; [discriminate |]. split; [simpl; now rewrite Hc |].
      exists rest. simpl. rewrite Ascii.eqb_refl. split; [reflexivity |].
      rewrite Hs. eauto.
Qed.

(** The group is greedy: the character after it, if any, is not of the
    class, or the closing text does not follow a longer run. *)
Lemma group_at_longest (cls : Re.CharClass) (closing s g : string) (c : ascii)
    (tail : string) :
  Re.group_at cls closing s = Some g ->
  Re.strip_prefix g s = Some (String c tail) ->
  Re.in_class cls c = true ->
  Re.group_at cls closing (String c tail) = None.
Proof.
  revert g. induction s as [| a rest IH]; intros g; simpl.
  - discriminate.
  - destruct (Re.in_class cls a) eqn:Ha; [| discriminate].
    destruct (Re.group_at cls closing rest) as [g' |] eqn:Hg.
    + intros H. injection H as <-. simpl. rewrite Ascii.eqb_refl.
      intros Hs Hc. exact (IH g' eq_refl Hs Hc).
    + destruct (Re.strip_prefix closing rest) as [after |] eqn:Hs;
        [| discriminate].
      intros H. injection H as <-. simpl. rewrite Ascii.eqb_refl.
      intros Ht Hc. injection Ht as ->. exact Hg.
Qed.

(** [search] returns group 1 of a match that starts somewhere in the text,
    and no match starts before it. *)
Lemma search_spec (re : Re.Regex) (s g : string) :
  Re.search re s = Some g ->
  exists before after,
    s = before +:+ after
    /\ Re.match_here re after = Some g
    /\ forall n, n < String.length before ->
                 Re.match_here re
                   (String.substring n (String.length s - n) s) = None.
Proof.
  induction s as [| c rest IH]; simpl.
  - destruct (Re.match_here re EmptyString) as [g0 |] eqn:Hm; [| discriminate].
    intros H. injection H as <-.
    exists EmptyString, EmptyString. simpl. split; [reflexivity |].
    split; [exact Hm |]. intros n Hn. lia.
  - destruct (Re.match_here re (String c rest)) as [g0 |] eqn:Hm.
    + intros H. injection H as <-.
      exists EmptyString, (String c rest). simpl. split; [reflexivity |].
      split; [exact Hm |]. intros n Hn. lia.
    + intros H. destruct (IH H) as (before & after & -> & Ha & Hnone).
      exists (String c before), after. simpl. split; [reflexivity |].
      split; [exact Ha |].
      intros [| n] Hn.
      * simpl.
        replace (String.substring 0 (String.length (before +:+ after))
                   (before +:+ after))
          with (before +:+ after).
        -- exact Hm.
        -- clear. induction (before +:+ after) as [| a t IHt]; simpl.
           ++ reflexivity.
           ++ now rewrite <- IHt.
      * simpl. apply Hnone. lia.
Qed.

(** The patterns on lines of a credentials file: the group of a quoted
    value stops before the closing quote and is not empty; the group of a
    rest of line stops before the newline; the first match wins. *)
Example search_on_lines :
  Re.search ApiaccessPage.username_re Runs.openrc_v2 = Some "admin"
  /\ Re.search (Re.to_end_of_line "export OS_TENANT_ID=") Runs.openrc_v2
     = Some "5f2b"
  /\ Re.search ApiaccessPage.username_re
       (Runs.line ("export OS_USERNAME=" +:+ Runs.quoted ""))
     = None
  /\ Re.search ApiaccessPage.username_re
       (Runs.line ("export OS_USERNAME=" +:+ Runs.quoted "a")
        +:+ Runs.line ("export OS_USERNAME=" +:+ Runs.quoted "b"))
     = Some "a"
  /\ Re.search (Re.to_end_of_line "export OS_TENANT_ID=")
       "export OS_TENANT_ID="
     = None.
Proof. repeat split; vm_compute; reflexivity. Qed.

(** ** [ApiaccessPage.get_credentials_from_file] *)

Section Credentials.
Variable CONFIG : Conf.
Variable self : Page.
Variables directory template : string.

Lemma versions_bind_the_patterns (version : Z) :
  (version = 2 \/ version = 3)%Z
  <-> is_Some (ApiaccessPage.tenant_name_re version)
      /\ is_Some (ApiaccessPage.tenant_id_re version).
Proof.
  unfold ApiaccessPage.tenant_name_re, ApiaccessPage.tenant_id_re.
  destruct (Z.eqb_spec version 2); [split; eauto |].
  destruct (Z.eqb_spec version 3); [split; eauto |].
  split.
  - intros [? | ?]; contradiction.
  - intros [[x Hx] _]. discriminate.
Qed.

Lemma cred_dict_keys (u tn ti : string) :
  dom (cred_dict u tn ti)
  = ({["OS_USERNAME"; "OS_TENANT_NAME"; "OS_TENANT_ID"]} : gset string).
Proof.
  unfold cred_dict. rewrite !dom_insert_L, dom_empty_L. set_solver.
Qed.

Lemma get_credentials_Return (version : Z) (w w' : Browser)
    (d : gmap string string) :
  ApiaccessPage.get_credentials_from_file CONFIG self version
    directory template w = (Return d, w') ->
  exists content username tenant_name tenant_id,
    fetch CONFIG directory template w = (Return content, w')
    /\ Re.search (Re.quoted "export OS_USERNAME=") content = Some username
    /\ (version = 2%Z
        /\ Re.search (Re.quoted "export OS_TENANT_NAME=") content
           = Some tenant_name
        /\ Re.search (Re.to_end_of_line "export OS_TENANT_ID=") content
           = Some tenant_id
        \/ version = 3%Z
           /\ Re.search (Re.quoted "export OS_PROJECT_NAME=") content
              = Some tenant_name
           /\ Re.search (Re.to_end_of_line "export OS_PROJECT_ID=") content
              = Some tenant_id)
    /\ d = cred_dict username tenant_name tenant_id.
Proof.
  rewrite get_credentials_after_fetch.
  destruct (fetch CONFIG directory template w) as [[content | e] w1];
    [| discriminate].
  unfold bind, ApiaccessPage.group_1, ApiaccessPage.local,
    ApiaccessPage.username_re.
  destruct (Re.search (Re.quoted "export OS_USERNAME=") content)
    as [u |] eqn:Hu; [| discriminate].
  cbn [ret raise].
  unfold ApiaccessPage.tenant_name_re, ApiaccessPage.tenant_id_re.
  destruct (Z.eqb_spec version 2) as [-> | H2].
  - cbn [ret raise].
    destruct (Re.search (Re.quoted "export OS_TENANT_NAME=") content)
      as [tn |] eqn:Htn; [| discriminate].
    cbn [ret raise].
    destruct (Re.search (Re.to_end_of_line "export OS_TENANT_ID=") content)
      as [ti |] eqn:Hti; [| discriminate].
    cbn [ret raise]. intros H. injection H as <- <-.
    exists content, u, tn, ti. auto 10.
  - destruct (Z.eqb_spec version 3) as [-> | H3]; [| discriminate].
    cbn [ret raise].
    destruct (Re.search (Re.quoted "export OS_PROJECT_NAME=") content)
      as [tn |] eqn:Htn; [| discriminate].
    cbn [ret raise].
    destruct (Re.search (Re.to_end_of_line "export OS_PROJECT_ID=") content)
      as [ti |] eqn:Hti; [| discriminate].
    cbn [ret raise]. intros H. injection H as <- <-.
    exists content, u, tn, ti. auto 10.
Qed.

(** C9: with version 2, once the file has been fetched (it appeared within
    the timeout and was read) and the patterns for OS_USERNAME,
    OS_TENANT_NAME and OS_TENANT_ID match its content,
    [get_credentials_from_file] returns the dict whose keys are exactly
    OS_USERNAME, OS_TENANT_NAME and OS_TENANT_ID and whose values are the
    groups the patterns matched; with version 3 it does the same with the
    patterns for OS_USERNAME, OS_PROJECT_NAME and OS_PROJECT_ID, under the
    same three keys.  It returns in no other case, and nothing else.  With
    any other version neither [tenant_name_re] nor [tenant_id_re] is bound:
    the function never returns, and once the file has been fetched and the
    user name matched it raises UnboundLocalError for [tenant_name_re];
    and [download_openstack_rc_file] does nothing at all. *)
Theorem get_credentials_only_for_versions_2_and_3 (w : Browser) :
  (forall content w1 username tenant_name tenant_id,
     fetch CONFIG directory template w = (Return content, w1) ->
     Re.search (Re.quoted "export OS_USERNAME=") content = Some username ->
     (Re.search (Re.quoted "export OS_TENANT_NAME=") content
      = Some tenant_name ->
      Re.search (Re.to_end_of_line "export OS_TENANT_ID=") content
      = Some tenant_id ->
      ApiaccessPage.get_credentials_from_file CONFIG self 2
        directory template w
      = (Return (cred_dict username tenant_name tenant_id), w1))
     /\ (Re.search (Re.quoted "export OS_PROJECT_NAME=") content
         = Some tenant_name ->
         Re.search (Re.to_end_of_line "export OS_PROJECT_ID=") content
         = Some tenant_id ->
         ApiaccessPage.get_credentials_from_file CONFIG self 3
           directory template w
         = (Return (cred_dict username tenant_name tenant_id), w1)))
  /\ (forall username tenant_name tenant_id,
        dom (cred_dict username tenant_name tenant_id)
        = ({["OS_USERNAME"; "OS_TENANT_NAME"; "OS_TENANT_ID"]} : gset string))
  /\ (forall version d w',
        ApiaccessPage.get_credentials_from_file CONFIG self version
          directory template w = (Return d, w') ->
        exists content username tenant_name tenant_id,
          fetch CONFIG directory template w = (Return content, w')
          /\ Re.search (Re.quoted "export OS_USERNAME=") content
             = Some username
          /\ (version = 2%Z
              /\ Re.search (Re.quoted "export OS_TENANT_NAME=") content
                 = Some tenant_name
              /\ Re.search (Re.to_end_of_line "export OS_TENANT_ID=") content
                 = Some tenant_id
              \/ version = 3%Z
                 /\ Re.search (Re.quoted "export OS_PROJECT_NAME=") content
                    = Some tenant_name
                 /\ Re.search (Re.to_end_of_line "export OS_PROJECT_ID=")
                      content
                    = Some tenant_id)
          /\ d = cred_dict username tenant_name tenant_id)
  /\ (forall version,
        version <> 2%Z -> version <> 3%Z ->
        ApiaccessPage.tenant_name_re version = None
        /\ ApiaccessPage.tenant_id_re version = None
        /\ (exists e,
              fst (ApiaccessPage.get_credentials_from_file CONFIG self version
                     directory template w) = Raise e)
        /\ (forall content w1 username,
              fetch CONFIG directory template w = (Return content, w1) ->
              Re.search (Re.quoted "export OS_USERNAME=") content
              = Some username ->
              ApiaccessPage.get_credentials_from_file CONFIG self version
                directory template w
              = (Raise (MkExc UnboundLocalError "tenant_name_re"), w1))
        /\ ApiaccessPage.download_openstack_rc_file self version
             directory template w
           = (Return tt, w)).
Proof.
  split; [| split; [| split]].
  - intros content w1 u tn ti Hf Hu. split; intros Hn Hi;
      rewrite get_credentials_after_fetch, Hf;
      unfold bind, ApiaccessPage.group_1, ApiaccessPage.local,
        ApiaccessPage.username_re;
      rewrite Hu; simpl; rewrite Hn; simpl; rewrite Hi; reflexivity.
  - apply cred_dict_keys.
  - intros version d w'. apply get_credentials_Return.
  - intros version H2 H3.
    assert (Hn : ApiaccessPage.tenant_name_re version = None).
    { unfold ApiaccessPage.tenant_name_re.
      destruct (Z.eqb_spec version 2); [contradiction |].
      destruct (Z.eqb_spec version 3); [contradiction | reflexivity]. }
    assert (Hi : ApiaccessPage.tenant_id_re version = None).
    { unfold ApiaccessPage.tenant_id_re.
      destruct (Z.eqb_spec version 2); [contradiction |].
      destruct (Z.eqb_spec version 3); [contradiction | reflexivity]. }
    split; [exact Hn |]. split; [exact Hi |].
    split; [| split].
    + rewrite get_credentials_after_fetch.
      destruct (fetch CONFIG directory template w) as [[content | e] w1];
        [| eauto].
      unfold bind, ApiaccessPage.group_1, ApiaccessPage.local. rewrite Hn.
      destruct (Re.search ApiaccessPage.username_re content); simpl; eauto.
    + intros content w1 u Hf Hu.
      rewrite get_credentials_after_fetch, Hf.
      unfold bind, ApiaccessPage.group_1, ApiaccessPage.local,
        ApiaccessPage.username_re.
      rewrite Hu, Hn. reflexivity.
    + unfold ApiaccessPage.download_openstack_rc_file.
      destruct (Z.eqb_spec version 2); [contradiction |].
      destruct (Z.eqb_spec version 3); [contradiction | reflexivity].
Qed.

End Credentials.

Lemma get_credentials_only_for_versions_2_and_3_witness :
  ApiaccessPage.get_credentials_from_file Runs.conf Runs.page 2
    "downloads" "openrc.sh" Runs.browser
  = (Return (cred_dict "admin" "demo" "5f2b"),
     snd (fetch Runs.conf "downloads" "openrc.sh" Runs.browser))
  /\ ApiaccessPage.get_credentials_from_file Runs.conf Runs.page 3
       "downloads" "openrc.sh" Runs.browser_v3
     = (Return (cred_dict "admin" "demo" "9c1e"),
        snd (fetch Runs.conf "downloads" "openrc.sh" Runs.browser_v3)).
Proof.
  split.
  - apply (proj1 (proj1 (get_credentials_only_for_versions_2_and_3 Runs.conf
                           Runs.page "downloads" "openrc.sh" Runs.browser)
                    Runs.openrc_v2 _ "admin" "demo" "5f2b"
                    ltac:(apply injective_projections;
                          [vm_compute; reflexivity | reflexivity])
                    ltac:(vm_compute; reflexivity)));
      vm_compute; reflexivity.
  - apply (proj2 (proj1 (get_credentials_only_for_versions_2_and_3 Runs.conf
                           Runs.page "downloads" "openrc.sh" Runs.browser_v3)
                    Runs.openrc_v3 _ "admin" "demo" "9c1e"
                    ltac:(apply injective_projections;
                          [vm_compute; reflexivity | reflexivity])
                    ltac:(vm_compute; reflexivity)));
      vm_compute; reflexivity.
Defined.

(** The patterns the two versions bind. *)
Example patterns_of_the_versions :
  ApiaccessPage.tenant_name_re 2 = Some (Re.quoted "export OS_TENANT_NAME=")
  /\ ApiaccessPage.tenant_id_re 2
     = Some (Re.to_end_of_line "export OS_TENANT_ID=")
  /\ ApiaccessPage.tenant_name_re 3
     = Some (Re.quoted "export OS_PROJECT_NAME=")
  /\ ApiaccessPage.tenant_id_re 3
     = Some (Re.to_end_of_line "export OS_PROJECT_ID=").
Proof. repeat split. Qed.

(** Other runs on the same download: version 4 reads an unbound variable;
    version 3 patterns do not match a version 2 file, and None has no
    group; a download that does not appear in time is a timeout.  Asking
    for the file of version 4 clicks nothing. *)
Example get_credentials_that_raise :
  fst (ApiaccessPage.get_credentials_from_file Runs.conf Runs.page 4
         "downloads" "openrc.sh" Runs.browser)
  = Raise (MkExc UnboundLocalError "tenant_name_re")
  /\ fst (ApiaccessPage.get_credentials_from_file Runs.conf Runs.page 3
            "downloads" "openrc.sh" Runs.browser)
     = Raise (MkExc AttributeError "'NoneType' object has no attribute 'group'")
  /\ fst (ApiaccessPage.get_credentials_from_file Runs.conf Runs.page 2
            "downloads" ".pem" Runs.browser)
     = Raise TimeoutException_raised
  /\ fst (ApiaccessPage.download_openstack_rc_file Runs.page 4
            "downloads" "openrc.sh" Runs.browser)
     = Return tt
  /\ actions (snd (ApiaccessPage.download_openstack_rc_file Runs.page 4
                     "downloads" "openrc.sh" Runs.browser))
     = []
  /\ actions (snd (ApiaccessPage.download_openstack_rc_file Runs.page 3
                     "downloads" "openrc.sh" Runs.browser))
     = [click "download_openrc"].
Proof. repeat split; vm_compute; reflexivity. Qed.

(** ** Resource names *)

Section NamesProperties.
Import Names.

Lemma length_app_string (a b : string) :
  String.length (a +:+ b) = String.length a + String.length b.
Proof. induction a as [| c a IH]; simpl; [reflexivity | now rewrite IH]. Qed.

Lemma app_string_assoc (a b c : string) :
  (a +:+ b) +:+ c = a +:+ (b +:+ c).
Proof.
  induction a as [| x a IH]; [reflexivity |].
  change (String x ((a +:+ b) +:+ c) = String x (a +:+ (b +:+ c))).
  now f_equal.
Qed.

Lemma concat_snoc (sep : string) (fields : list string) (x last : string) :
  String.concat sep ((x :: fields) ++ [last])
  = String.concat sep (x :: fields) +:+ sep +:+ last.
Proof.
  revert x. induction fields as [| y fields IH]; intros x.
  - reflexivity.
  - change (String.concat sep ((x :: y :: fields) ++ [last]))
      with (x +:+ sep +:+ String.concat sep ((y :: fields) ++ [last])).
    rewrite IH.
    change (String.concat sep (x :: y :: fields))
      with (x +:+ sep +:+ String.concat sep (y :: fields)).
    now rewrite !app_string_assoc.
Qed.

Lemma length_remove (c : ascii) (s : string) :
  String.length (remove c s) + count c s = String.length s.
Proof.
  induction s as [| a s IH]; simpl; [reflexivity |].
  destruct (Ascii.eqb a c); simpl; lia.
Qed.

Lemma count_remove_other (c d : ascii) (s : string) :
  count d s = 0 -> count d (remove c s) = 0.
Proof.
  induction s as [| a s IH]; simpl; [reflexivity |].
  destruct (Ascii.eqb a d) eqn:Ed; [discriminate |]. simpl. intros H.
  destruct (Ascii.eqb a c); simpl; [auto |]. rewrite Ed. simpl. auto.
Qed.

Lemma count_app (c : ascii) (a b : string) :
  count c (a +:+ b) = count c a + count c b.
Proof. induction a as [| x a IH]; simpl; [reflexivity | rewrite IH; lia]. Qed.

Lemma after_last_app (c : ascii) (p h : string) :
  count c h = 0 ->
  after_last c (p +:+ String c h) = h.
Proof.
  intros Hh. induction p as [| a p IH]; simpl.
  - rewrite Hh. simpl. now rewrite Ascii.eqb_refl.
  - rewrite count_app. simpl. rewrite Ascii.eqb_refl.
    replace (0 <? count c p + (1 + count c h))%nat with true
      by (symmetry; apply Nat.ltb_lt; lia).
    exact IH.
Qed.

(** The name is some text, an underscore, and the uuid without its
    dashes. *)
Lemma gen_random_resource_name_ends (resource : string) (timestamp : bool)
    (tstamp uuid4 : string) :
  exists front,
    gen_random_resource_name resource timestamp tstamp uuid4
    = front +:+ String "_" (remove "-" uuid4)
    /\ String.length front
       = 7 + (if String.eqb resource EmptyString then 0 else S (String.length resource))
           + (if timestamp then S (String.length tstamp) else 0).
Proof.
  unfold gen_random_resource_name.
  destruct (String.eqb resource EmptyString) eqn:Er; destruct timestamp; simpl negb;
    cbv iota.
  - exists (String.concat "_" ["horizon"; tstamp]).
    split; [apply (concat_snoc "_" [tstamp] "horizon") |].
    simpl. rewrite ?length_app_string. simpl. lia.
  - exists (String.concat "_" ["horizon"]).
    split; [apply (concat_snoc "_" [] "horizon") | reflexivity].
  - exists (String.concat "_" ["horizon"; resource; tstamp]).
    split; [apply (concat_snoc "_" [resource; tstamp] "horizon") |].
    simpl. rewrite ?length_app_string. simpl. rewrite ?length_app_string.
    simpl. lia.
  - exists (String.concat "_" ["horizon"; resource]).
    split; [apply (concat_snoc "_" [resource] "horizon") |].
    simpl. rewrite ?length_app_string. simpl. lia.
Qed.

(** X1: the length of a generated name.  The fields are joined with one
    underscore each: the seven characters of the prefix, the resource when
    it is not empty, the time stamp when it is asked for, and the uuid
    less its dashes.  With the 14 characters of a time stamp and the 36 of a
    uuid with its 4 dashes, a name with both is 56 characters longer than
    the resource. *)
Theorem gen_random_resource_name_length (resource : string)
    (timestamp : bool) (tstamp uuid4 : string) :
  String.length (gen_random_resource_name resource timestamp tstamp uuid4)
  = 7 + (if String.eqb resource EmptyString then 0 else 1 + String.length resource)
      + (if timestamp then 1 + String.length tstamp else 0)
      + 1 + (String.length uuid4 - count "-" uuid4).
Proof.
  destruct (gen_random_resource_name_ends resource timestamp tstamp uuid4)
    as (front & E & L).
  rewrite E, length_app_string. simpl String.length. rewrite L.
  pose proof (length_remove "-" uuid4).
  destruct (String.eqb resource EmptyString), timestamp; lia.
Qed.

(** X2: the uuid is the last field of a generated name and can be read
    back from it: what follows the last underscore is the uuid without its
    dashes, whatever the resource and the time stamp are (they may hold
    underscores themselves).  So two names made from uuids that differ
    are different names, also for different resources or time stamps. *)
Theorem gen_random_resource_name_unique (resource1 resource2 : string)
    (timestamp1 timestamp2 : bool) (tstamp1 tstamp2 uuid1 uuid2 : string) :
  count "_" uuid1 = 0 ->
  count "_" uuid2 = 0 ->
  after_last "_"
    (gen_random_resource_name resource1 timestamp1 tstamp1 uuid1)
  = remove "-" uuid1
  /\ (remove "-" uuid1 <> remove "-" uuid2 ->
      gen_random_resource_name resource1 timestamp1 tstamp1 uuid1
      <> gen_random_resource_name resource2 timestamp2 tstamp2 uuid2).
Proof.
  intros H1 H2.
  assert (L : forall r ts t u, count "_" u = 0 ->
            after_last "_" (gen_random_resource_name r ts t u) = remove "-" u).
  { intros r ts t u Hu.
    destruct (gen_random_resource_name_ends r ts t u) as (front & E & _).
    rewrite E. apply after_last_app. now apply count_remove_other. }
  split; [now apply L |].
  intros Hne Heq. apply Hne.
  rewrite <- (L resource1 timestamp1 tstamp1 uuid1 H1).
  rewrite <- (L resource2 timestamp2 tstamp2 uuid2 H2).
  now rewrite Heq.
Qed.

End NamesProperties.

Lemma gen_random_resource_name_unique_witness :
  after_last "_"
    (Names.gen_random_resource_name "my_volume" true "03-11-10-41-50"
       "6f1c2a9e-0b7d-4c55-9e21-3a8d5f0b7c14")
  = "6f1c2a9e0b7d4c559e213a8d5f0b7c14"
  /\ (Names.remove "-" "6f1c2a9e-0b7d-4c55-9e21-3a8d5f0b7c14"
      <> Names.remove "-" "6f1c2a9e-0b7d-4c55-9e21-3a8d5f0b7c15" ->
      Names.gen_random_resource_name "my_volume" true "03-11-10-41-50"
        "6f1c2a9e-0b7d-4c55-9e21-3a8d5f0b7c14"
      <> Names.gen_random_resource_name "flavor" false "03-11-10-41-51"
           "6f1c2a9e-0b7d-4c55-9e21-3a8d5f0b7c15").
Proof.
  apply (gen_random_resource_name_unique "my_volume" "flavor" true false
           "03-11-10-41-50" "03-11-10-41-51"
           "6f1c2a9e-0b7d-4c55-9e21-3a8d5f0b7c14"
           "6f1c2a9e-0b7d-4c55-9e21-3a8d5f0b7c15"); reflexivity.
Defined.

(** A flavor name as [tests/test_flavors.py] makes it: 62 characters. *)
Example flavor_name_length :
  String.length
    (Names.gen_random_resource_name "flavor" true "03-11-10-41-50"
       "6f1c2a9e-0b7d-4c55-9e21-3a8d5f0b7c14") = 62
  /\ Names.gen_random_resource_name EmptyString false "03-11-10-41-50"
       "6f1c2a9e-0b7d-4c55-9e21-3a8d5f0b7c14"
     = "horizon_6f1c2a9e0b7d4c559e213a8d5f0b7c14".
Proof. split; reflexivity. Qed.

(** ** Sequences of truth values *)

Section AssertsProperties.
Import AssertsMixin.
Context {W : Type}.
Variable describe : list Item -> list Item -> string.

Lemma item_eq_True (x : Item) : item_eq (IBool true) x = true <-> is_True x.
Proof.
  unfold is_True. destruct x as [[|] | z | | s]; simpl; split;
    try discriminate; try (intros [H | H]; discriminate); auto.
  - intros H. apply Z.eqb_eq in H. subst. now right.
  - intros [H | H]; [discriminate |]. injection H as ->. reflexivity.
Qed.

Lemma item_eq_False (x : Item) : item_eq (IBool false) x = true <-> is_False x.
Proof.
  unfold is_False. destruct x as [[|] | z | | s]; simpl; split;
    try discriminate; try (intros [H | H]; discriminate); auto.
  - intros H. apply Z.eqb_eq in H. subst. now right.
  - intros [H | H]; [discriminate |]. injection H as ->. reflexivity.
Qed.

Lemma list_eq_repeat (y : Item) (actual : list Item) :
  list_eq (repeat y (length actual)) actual = true
  <-> Forall (fun x => item_eq y x = true) actual.
Proof.
  induction actual as [| x actual IH]; simpl.
  - split; [constructor | reflexivity].
  - rewrite andb_true_iff, IH. split.
    + intros [Hx Hr]. now constructor.
    + intros H. inversion H. auto.
Qed.

Lemma assertEqual_cases (expected observed : list Item) (w : W) :
  (list_eq observed expected = true
   /\ assertEqual describe expected observed w = (Return tt, w))
  \/ (list_eq observed expected = false
      /\ assertEqual describe expected observed w
         = (Raise (MkExc MismatchError (describe expected observed)), w)).
Proof.
  unfold assertEqual. destruct (list_eq observed expected); [left | right];
    auto.
Qed.

Lemma assertSequenceTrue_passes (actual : list Item) (w : W) :
  assertSequenceTrue describe actual w = (Return tt, w)
  <-> Forall is_True actual.
Proof.
  unfold assertSequenceTrue.
  destruct (assertEqual_cases actual
              (repeat (IBool true) (length actual)) w) as [[E R] | [E R]];
    rewrite R.
  - split; [intros _ | reflexivity].
    apply list_eq_repeat in E. revert E. apply List.Forall_impl.
    intros x. apply item_eq_True.
  - split; [discriminate |]. intros H. exfalso.
    assert (E' : list_eq (repeat (IBool true) (length actual)) actual = true).
    { apply list_eq_repeat. revert H. apply List.Forall_impl.
      intros x. apply item_eq_True. }
    congruence.
Qed.

Lemma assertSequenceFalse_passes (actual : list Item) (w : W) :
  assertSequenceFalse describe actual w = (Return tt, w)
  <-> Forall is_False actual.
Proof.
  unfold assertSequenceFalse.
  destruct (assertEqual_cases actual
              (repeat (IBool false) (length actual)) w) as [[E R] | [E R]];
    rewrite R.
  - split; [intros _ | reflexivity].
    apply list_eq_repeat in E. revert E. apply List.Forall_impl.
    intros x. apply item_eq_False.
  - split; [discriminate |]. intros H. exfalso.
    assert (E' : list_eq (repeat (IBool false) (length actual)) actual = true).
    { apply list_eq_repeat. revert H. apply List.Forall_impl.
      intros x. apply item_eq_False. }
    congruence.
Qed.

(** X3: [assertSequenceTrue] passes exactly when every item equals True,
    which among bools, integers, None and texts the bool True and the
    integer 1 do and no other item does (a text or the integer 2, truthy
    as they are, fail it); likewise [assertSequenceFalse] with False and 0.
    Either one returns without a change or raises the MismatchError of
    testtools without a change.  The empty sequence passes both, and it
    is the only one that does. *)
Theorem assertSequence_passes (actual : list Item) (w : W) :
  (assertSequenceTrue describe actual w = (Return tt, w)
   <-> Forall is_True actual)
  /\ (assertSequenceFalse describe actual w = (Return tt, w)
      <-> Forall is_False actual)
  /\ (assertSequenceTrue describe actual w = (Return tt, w)
      \/ exists text,
           assertSequenceTrue describe actual w
           = (Raise (MkExc MismatchError text), w))
  /\ (assertSequenceFalse describe actual w = (Return tt, w)
      \/ exists text,
           assertSequenceFalse describe actual w
           = (Raise (MkExc MismatchError text), w))
  /\ (assertSequenceTrue describe actual w = (Return tt, w)
      /\ assertSequenceFalse describe actual w = (Return tt, w)
      <-> actual = []).
Proof.
  split; [apply assertSequenceTrue_passes |].
  split; [apply assertSequenceFalse_passes |].
  split.
  { unfold assertSequenceTrue.
    destruct (assertEqual_cases actual
                (repeat (IBool true) (length actual)) w) as [[_ R] | [_ R]];
      eauto. }
  split.
  { unfold assertSequenceFalse.
    destruct (assertEqual_cases actual
                (repeat (IBool false) (length actual)) w) as [[_ R] | [_ R]];
      eauto. }
  rewrite assertSequenceTrue_passes, assertSequenceFalse_passes. split.
  - intros [HT HF]. destruct actual as [| x rest]; [reflexivity |].
    inversion HT as [| ? ? [H1 | H1] _]; inversion HF as [| ? ? [H2 | H2] _];
      subst; discriminate.
  - intros ->. split; constructor.
Qed.

End AssertsProperties.

(** The integers 1 and 0 pass for True and False; 2 and a text do not. *)
Example assertSequence_on_items :
  let describe (expected observed : list AssertsMixin.Item) := "differ" in
  let run (m : M unit unit) := fst (m tt) in
  run (AssertsMixin.assertSequenceTrue describe
         [AssertsMixin.IBool true; AssertsMixin.IInt 1]) = Return tt
  /\ run (AssertsMixin.assertSequenceFalse describe
            [AssertsMixin.IInt 0; AssertsMixin.IBool false]) = Return tt
  /\ run (AssertsMixin.assertSequenceTrue describe
            [AssertsMixin.IBool true; AssertsMixin.IInt 2])
     = Raise (MkExc AssertsMixin.MismatchError "differ")
  /\ run (AssertsMixin.assertSequenceTrue describe [AssertsMixin.IStr "yes"])
     = Raise (MkExc AssertsMixin.MismatchError "differ")
  /\ run (AssertsMixin.assertSequenceFalse describe [AssertsMixin.INone])
     = Raise (MkExc AssertsMixin.MismatchError "differ").
Proof. repeat split. Qed.

(** ** Rows that are marked, sizes that are read *)

Section MarkedRows.
Import TablePages.
Variable self : Page.

(** A lookup allocates the table region and changes nothing else. *)
Lemma lookup_volume (name : string) (ms : list RowEvent) (w : Browser) :
  on_page (VolumesPage._get_row_with_volume_name self name) (ms, w)
  = (Return (row_named "volumes" w name),
     (ms, snd (VolumesPage.volumes_table self w))).
Proof. reflexivity. Qed.

Lemma lookup_user (name : string) (ms : list RowEvent) (w : Browser) :
  on_page (UsersPage._get_row_with_user_name self name) (ms, w)
  = (Return (row_named "users" w name),
     (ms, snd (UsersPage.users_table self w))).
Proof. reflexivity. Qed.

Lemma row_named_after_new (table : string) (o : Obj) (w : Browser)
    (name : string) :
  row_named table (snd (new o w)) name = row_named table w name.
Proof. reflexivity. Qed.

Lemma mark_all_cons (name : string) (names : list string)
    (ms : list RowEvent) (w : Browser) :
  mark_all self (name :: names) (ms, w)
  = match row_named "volumes" w name with
    | Some row =>
        mark_all self names
          (ms ++ [mark row], snd (VolumesPage.volumes_table self w))
    | None => (Raise no_mark, (ms, snd (VolumesPage.volumes_table self w)))
    end.
Proof.
  cbn [mark_all]. unfold bind at 1. rewrite lookup_volume.
  destruct (row_named "volumes" w name); reflexivity.
Qed.

Lemma mark_all_spec (names : list string) (ms : list RowEvent) (w : Browser) :
  let looked := map (row_named "volumes" w) names in
  let r := mark_all self names (ms, w) in
  fst (snd r) = ms ++ map mark (found_before_missing looked)
  /\ actions (snd (snd r)) = actions w
  /\ clock (snd (snd r)) = clock w
  /\ rendered (snd (snd r)) = rendered w
  /\ fst r = if forallb bool_of_row looked then Return tt else Raise no_mark.
Proof.
  cbv zeta. revert ms w. induction names as [| name names IH]; intros ms w.
  - simpl. rewrite app_nil_r. auto.
  - rewrite mark_all_cons. cbn [map found_before_missing forallb].
    destruct (row_named "volumes" w name) as [row |] eqn:E.
    + assert (L : map (row_named "volumes"
                         (snd (VolumesPage.volumes_table self w))) names
                  = map (row_named "volumes" w) names) by reflexivity.
      destruct (IH (ms ++ [mark row])
                   (snd (VolumesPage.volumes_table self w)))
        as (Hm & Ha & Hc & Hr & Ho).
      rewrite L in Hm, Ho.
      rewrite Hm, Ha, Hc, Hr, Ho, <- app_assoc. cbn [map bool_of_row andb].
      repeat split.
    + cbn [bool_of_row andb map fst snd]. rewrite app_nil_r.
      repeat split.
Qed.

(** X4: [delete_volumes], given names, marks the rows in the order of the names,
    one lookup each, and stops at the first name the table has no row for:
    [None.mark()] raises AttributeError, the rows of the names before it
    stay marked, and the delete button is not clicked.  When every name
    has a row (also when no name is given) it returns, having clicked
    'delete' and submitted the confirmation once.  So it returns exactly
    when [is_volume_present] is True for every name. *)
Theorem delete_volumes_marks_rows (names : list string)
    (ms : list RowEvent) (w : Browser) :
  let looked := map (row_named "volumes" w) names in
  let r := delete_volumes self names (ms, w) in
  fst (snd r) = ms ++ map mark (found_before_missing looked)
  /\ (fst r = Return tt
      /\ actions (snd (snd r)) = actions w ++ [click "delete"; submit]
      /\ found_before_missing looked = omap id looked
      \/ fst r = Raise no_mark /\ actions (snd (snd r)) = actions w)
  /\ (fst r = Return tt
      <-> Forall (fun name =>
                    fst (VolumesPage.is_volume_present self name w)
                    = Return true) names).
Proof.
  cbv zeta.
  assert (R : delete_volumes self names (ms, w)
              = match mark_all self names (ms, w) with
                | (Return _, (ms1, w1)) =>
                    (Return tt,
                     (ms1,
                      snd (act submit
                        (snd (VolumesTable_delete_volumes self
                          (snd (VolumesPage.volumes_table self w1)))))))
                | (Raise e, mw) => (Raise e, mw)
                end).
  { unfold delete_volumes, bind.
    destruct (mark_all self names (ms, w)) as [[[] | e] [ms1 w1]];
      reflexivity. }
  rewrite R. clear R.
  destruct (mark_all_spec names ms w) as (Hm & Ha & Hc & Hr & Ho).
  destruct (mark_all self names (ms, w)) as [[[] | e] [ms1 w1]] eqn:E;
    simpl in *.
  - split; [exact Hm |].
    assert (All : forallb bool_of_row (map (row_named "volumes" w) names)
                  = true).
    { destruct (forallb _ _); [reflexivity | discriminate]. }
    split.
    + left. split; [reflexivity |]. split; [rewrite Ha, <- app_assoc; reflexivity |].
      clear -All. induction names as [| n names IH]; [reflexivity |].
      simpl in *. destruct (row_named "volumes" w n); simpl in *;
        [| discriminate]. now rewrite IH.
    + split; [intros _ | reflexivity].
      apply List.Forall_forall. intros n Hn.
      rewrite forallb_forall in All.
      specialize (All (row_named "volumes" w n)
                      (in_map _ _ _ Hn)).
      change (Return (bool_of_row (row_named "volumes" w n)) = Return true).
      now rewrite All.
  - split; [exact Hm |].
    destruct (forallb _ _) eqn:All; [discriminate |].
    injection Ho as ->.
    split; [right; auto |].
    split; [discriminate |]. intros H. exfalso.
    assert (All' : forallb bool_of_row (map (row_named "volumes" w) names)
                   = true).
    { apply forallb_forall. intros x Hx. apply in_map_iff in Hx.
      destruct Hx as (n & <- & Hn).
      rewrite List.Forall_forall in H. specialize (H n Hn).
      change (Return (bool_of_row (row_named "volumes" w n)) = Return true)
        in H.
      now injection H. }
    congruence.
Qed.

(** X5: [delete_user(name)] returns exactly when [is_user_present(name)]
    is True.  Then it has marked one row, a row of the users table that
    displays [name], clicked 'delete' and submitted the confirmation.
    Without such a row [None.mark()] raises AttributeError before
    anything is clicked. *)
Theorem delete_user_needs_the_row (name : string) (ms : list RowEvent)
    (w : Browser) :
  let r := delete_user self name (ms, w) in
  (fst r = Return tt
   <-> fst (UsersPage.is_user_present self name w) = Return true)
  /\ (fst r = Return tt ->
      exists row,
        In row (rendered w (clock w) "users")
        /\ displays "name" name row
        /\ fst (snd r) = ms ++ [mark row]
        /\ actions (snd (snd r)) = actions w ++ [click "delete"; submit])
  /\ (fst r <> Return tt ->
      r = (Raise no_mark, (ms, snd (UsersPage.users_table self w)))
      /\ actions (snd (snd r)) = actions w).
Proof.
  cbv zeta.
  assert (R : delete_user self name (ms, w)
              = match row_named "users" w name with
                | Some row =>
                    (Return tt,
                     (ms ++ [mark row],
                      snd (act submit
                        (snd (UsersTable_delete_user self
                          (snd (UsersPage.users_table self
                            (snd (UsersPage.users_table self w)))))))))
                | None =>
                    (Raise no_mark, (ms, snd (UsersPage.users_table self w)))
                end).
  { unfold delete_user, bind. rewrite lookup_user.
    destruct (row_named "users" w name); reflexivity. }
  rewrite R. clear R.
  change (fst (UsersPage.is_user_present self name w))
    with (@Return bool (bool_of_row (row_named "users" w name))).
  destruct (row_named "users" w name) as [row |] eqn:E; simpl.
  - split; [split; reflexivity |]. split.
    + intros _. exists row. apply get_row_Some in E. destruct E as [HIn Hd].
      split; [exact HIn |]. split; [exact Hd |]. split; [reflexivity |].
      now rewrite <- app_assoc.
    + intros H. now contradiction H.
  - split; [split; discriminate |]. split; [discriminate |].
    intros _. split; reflexivity.
Qed.

End MarkedRows.

Section Sizes.
Import TablePages.

Lemma read_acc (text : string) (acc : N) :
  read acc text
  = (acc * 10 ^ N.of_nat (String.length text) + read 0 text)%N.
Proof.
  revert acc. induction text as [| c text IH]; intros acc.
  - simpl. lia.
  - cbn [read String.length]. rewrite IH.
    rewrite (IH (10 * 0 + (N_of_ascii c - 48))%N).
    rewrite Nat2N.inj_succ, N.pow_succ_r'. lia.
Qed.

Lemma digits_app (a b : string) : digits (a +:+ b) = digits a +:+ digits b.
Proof.
  induction a as [| c a IH]; [reflexivity |].
  change (String c a +:+ b) with (String c (a +:+ b)).
  cbn [digits]. rewrite IH. now destruct (isdigit c).
Qed.

Lemma read_app (a b : string) (acc : N) :
  read acc (a +:+ b) = read (read acc a) b.
Proof.
  revert acc. induction a as [| c a IH]; intros acc; [reflexivity |].
  change (String c a +:+ b) with (String c (a +:+ b)).
  cbn [read]. apply IH.
Qed.

(** The digits of two texts side by side: the first number is shifted by
    as many places as the second text has digits. *)
Lemma number_app (a b : string) :
  number (a +:+ b)
  = (number a * 10 ^ N.of_nat (String.length (digits b)) + number b)%N.
Proof.
  unfold number. rewrite digits_app, read_app. apply read_acc.
Qed.

(** X6: [get_size(name)] reads the size cell of the row found for [name]
    by keeping its digits only.  The text of the cell is first made a
    [str]: a text with a character outside ASCII raises
    UnicodeEncodeError.  For an ASCII text that holds a digit, the number
    returned is the one its digits spell in order, so a text between two
    numbers (a decimal point, a unit) joins them, the first shifted by the
    digits of the second; an ASCII text without any digit raises
    ValueError, and a name without a row AttributeError. *)
Theorem get_size_reads_the_digits (self : Page) (name : string)
    (w : Browser) :
  match row_named "volumes" w name with
  | None =>
      fst (get_size self name w)
      = Raise (MkExc AttributeError
                 "'NoneType' object has no attribute 'cells'")
  | Some row =>
      forall size, row !! "size" = Some size ->
        (all_ascii size = false ->
         exists text,
           fst (get_size self name w)
           = Raise (MkExc UnicodeEncodeError text))
        /\ (all_ascii size = true ->
            digits size = EmptyString ->
            fst (get_size self name w)
            = Raise (MkExc ValueError
                       "invalid literal for int() with base 10: ''"))
        /\ (all_ascii size = true ->
            digits size <> EmptyString ->
            fst (get_size self name w) = Return (number size))
        /\ (forall a between b,
              size = a +:+ between +:+ b ->
              digits between = EmptyString ->
              number size
              = (number a * 10 ^ N.of_nat (String.length (digits b))
                 + number b)%N)
  end.
Proof.
  assert (G : get_size self name w
              = match row_named "volumes" w name with
                | None =>
                    (Raise (MkExc AttributeError
                              "'NoneType' object has no attribute 'cells'"),
                     snd (VolumesPage.volumes_table self w))
                | Some row =>
                    match row !! "size" with
                    | None =>
                        (Raise (MkExc KeyError "size"),
                         snd (VolumesPage.volumes_table self w))
                    | Some text =>
                        if all_ascii text
                        then int (digits text)
                               (snd (VolumesPage.volumes_table self w))
                        else (Raise (MkExc UnicodeEncodeError
                                       "ordinal not in range(128)"),
                              snd (VolumesPage.volumes_table self w))
                    end
                end).
  { assert (L : VolumesPage._get_row_with_volume_name self name w
                = (Return (row_named "volumes" w name),
                   snd (VolumesPage.volumes_table self w))) by reflexivity.
    unfold get_size, bind, str. rewrite L.
    destruct (row_named "volumes" w name) as [row |]; [| reflexivity].
    unfold VOLUMES_TABLE_SIZE_COLUMN.
    destruct (row !! "size") as [text |]; [| reflexivity].
    destruct (all_ascii text); reflexivity. }
  rewrite G. clear G.
  destruct (row_named "volumes" w name) as [row |]; [| reflexivity].
  intros size Hs. rewrite Hs.
  split; [| split; [| split]].
  - intros A. rewrite A. simpl. eauto.
  - intros A D. rewrite A, D. reflexivity.
  - intros A D. rewrite A. unfold int, number.
    destruct (digits size); [easy | reflexivity].
  - intros a between b -> Hb.
    assert (D : digits (between +:+ b) = digits b).
    { rewrite digits_app, Hb. reflexivity. }
    rewrite number_app, D. f_equal. unfold number. now rewrite D.
Qed.

End Sizes.

(** A size of one and a half gibibytes is read as fifteen. *)
Example get_size_of_a_fraction :
  number "1.5GiB" = 15%N /\ number "20 GiB" = 20%N /\ number "007" = 7%N.
Proof. repeat split. Qed.

(** ** The recorder *)

Section Recorder.
Variable cfg : Setting.

Lemma VideoRecorder_start_cases (s : State) :
  is_launched s = true /\ VideoRecorder_start cfg s = (Return tt, s)
  \/ is_launched s = false
     /\ (fst (VideoRecorder_start cfg s) = Return tt
         /\ is_launched (snd (VideoRecorder_start cfg s)) = true
         \/ (exists e, fst (VideoRecorder_start cfg s) = Raise e)
            /\ is_launched (snd (VideoRecorder_start cfg s)) = false).
Proof.
  unfold VideoRecorder_start, bind, gets, call, modify.
  destruct (is_launched s) eqn:L; simpl; [left; auto | right].
  split; [reflexivity |].
  destruct (fails cfg (length (calls s)) (open_w "/dev/null")) as [e |];
    simpl; [right; eauto |].
  destruct (fails cfg _ Popen_ffmpeg) as [e |]; simpl; [right; eauto |].
  left. auto.
Qed.

Lemma VideoRecorder_stop_cases (s : State) :
  is_launched s = false /\ VideoRecorder_stop cfg s = (Return tt, s)
  \/ is_launched s = true
     /\ (fst (VideoRecorder_stop cfg s) = Return tt
         /\ is_launched (snd (VideoRecorder_stop cfg s)) = false
         \/ (exists e, fst (VideoRecorder_stop cfg s) = Raise e)
            /\ is_launched (snd (VideoRecorder_stop cfg s)) = true).
Proof.
  unfold VideoRecorder_stop, bind, gets, call, modify.
  destruct (is_launched s) eqn:L; simpl; [right | left; auto].
  split; [reflexivity |].
  destruct (fails cfg (length (calls s)) send_signal_SIGINT) as [e |];
    simpl; [right; eauto |].
  destruct (fails cfg _ communicate) as [e |]; simpl; [right; eauto |].
  left. auto.
Qed.

Lemma VideoRecorder_stop_signals (s : State) :
  is_launched s = true ->
  exists rest,
    calls (snd (VideoRecorder_stop cfg s))
    = calls s ++ send_signal_SIGINT :: rest.
Proof.
  intros L. unfold VideoRecorder_stop, bind, gets, call, modify. rewrite L.
  destruct (fails cfg (length (calls s)) send_signal_SIGINT) as [e |]; simpl.
  - exists []. reflexivity.
  - destruct (fails cfg _ communicate) as [e |]; simpl;
      exists [communicate]; now rewrite <- app_assoc.
Qed.

(** X7: [is_launched] follows what [start] and [stop] did.  After [start]
    it is True exactly when it was True or [start] returned; after [stop]
    it is still True exactly when it was True and [stop] raised.  So a
    second [start] after one that returned launches nothing, a [stop] after
    a [start] that raised signals nothing, a second [stop] after one that
    returned signals nothing, and after a [stop] that raised the next
    [stop] signals the process again. *)
Theorem VideoRecorder_is_launched_follows (s : State) :
  let started := snd (VideoRecorder_start cfg s) in
  let stopped := snd (VideoRecorder_stop cfg s) in
  is_launched started
  = is_launched s || completes (VideoRecorder_start cfg) s
  /\ is_launched stopped
     = is_launched s && negb (completes (VideoRecorder_stop cfg) s)
  /\ (completes (VideoRecorder_start cfg) s = true ->
      VideoRecorder_start cfg started = (Return tt, started))
  /\ (is_launched s = false ->
      completes (VideoRecorder_start cfg) s = false ->
      VideoRecorder_stop cfg started = (Return tt, started))
  /\ (completes (VideoRecorder_stop cfg) s = true ->
      VideoRecorder_stop cfg stopped = (Return tt, stopped))
  /\ (completes (VideoRecorder_stop cfg) s = false ->
      exists rest,
        calls (snd (VideoRecorder_stop cfg stopped))
        = calls stopped ++ send_signal_SIGINT :: rest).
Proof.
  cbv zeta. unfold completes.
  assert (Again : forall s1, is_launched s1 = true ->
            VideoRecorder_start cfg s1 = (Return tt, s1)).
  { intros s1 L1. destruct (VideoRecorder_start_cases s1) as [[_ E] | [L _]];
      [exact E | congruence]. }
  assert (Idle : forall s1, is_launched s1 = false ->
            VideoRecorder_stop cfg s1 = (Return tt, s1)).
  { intros s1 L1. destruct (VideoRecorder_stop_cases s1) as [[_ E] | [L _]];
      [exact E | congruence]. }
  destruct (VideoRecorder_start_cases s)
    as [[L E] | [L [[E F] | [[e E] F]]]];
    destruct (VideoRecorder_stop_cases s)
      as [[L' E'] | [L' [[E' F'] | [[e' E'] F']]]];
    try congruence;
    rewrite ?E, ?E', ?F, ?F'; simpl; rewrite ?L; simpl;
    (split; [reflexivity |]); (split; [reflexivity |]);
    (split; [intros H; try discriminate; apply Again; congruence |]);
    (split; [intros H1 H2; try discriminate; apply Idle; congruence |]);
    (split; [intros H; try discriminate; apply Idle; congruence |]);
    intros H; try discriminate; apply VideoRecorder_stop_signals; congruence.
Qed.

End Recorder.

(** ** The report directory *)

Section ReportDir.
Variable cfg : Setting.

Lemma test_report_dir_absent (s : State) :
  BaseTestCase.report_dir cfg ∉ dirs s ->
  BaseTestCase._test_report_dir cfg s
  = match fails cfg (length (calls s))
            (makedirs (BaseTestCase.report_dir cfg)) with
    | Some e =>
        (Raise e,
         set_calls (fun l => l ++ [makedirs (BaseTestCase.report_dir cfg)]) s)
    | None =>
        (Return (BaseTestCase.report_dir cfg),
         set_dirs (fun d => {[BaseTestCase.report_dir cfg]} ∪ d)
           (set_calls
              (fun l => l ++ [makedirs (BaseTestCase.report_dir cfg)]) s))
    end.
Proof.
  intros Hout. unfold BaseTestCase._test_report_dir, bind, gets, call, modify.
  rewrite bool_decide_eq_false_2 by exact Hout. simpl.
  destruct (fails cfg (length (calls s)) _); reflexivity.
Qed.

(** X8: the report directory is made at most once.  An access of
    [_test_report_dir] that returns gives the path of the test, and the
    directory then exists, so that any further access returns the same
    path and does nothing: no second [makedirs].  An access that finds the
    directory does nothing either.  An access raises only what [makedirs]
    raised; the directory is then still missing, and the next access calls
    [makedirs] again. *)
Theorem test_report_dir_is_made_once (s : State) :
  let dir := BaseTestCase.report_dir cfg in
  let r := BaseTestCase._test_report_dir cfg s in
  (fst r = Return dir
   /\ (dir ∈ dirs (snd r))
   /\ BaseTestCase._test_report_dir cfg (snd r) = (Return dir, snd r)
   /\ (dir ∈ dirs s -> snd r = s)
   /\ (dir ∉ dirs s -> calls (snd r) = calls s ++ [makedirs dir]))
  \/ (exists e,
        fst r = Raise e
        /\ fails cfg (length (calls s)) (makedirs dir) = Some e
        /\ (dir ∉ dirs (snd r))
        /\ calls (snd r) = calls s ++ [makedirs dir]
        /\ calls (snd (BaseTestCase._test_report_dir cfg (snd r)))
           = calls s ++ [makedirs dir; makedirs dir]).
Proof.
  cbv zeta. destruct (decide (BaseTestCase.report_dir cfg ∈ dirs s)) as [Hin | Hout].
  - left. rewrite (test_report_dir_present cfg s Hin). simpl.
    rewrite (test_report_dir_present cfg s Hin).
    repeat split; auto. intros Hout. contradiction.
  - rewrite (test_report_dir_absent s Hout).
    destruct (fails cfg (length (calls s)) _) as [e |] eqn:F.
    + right. exists e. simpl. repeat split; auto.
      rewrite test_report_dir_absent by exact Hout.
      match goal with |- context [match ?x with _ => _ end] =>
        destruct x end; simpl; now rewrite <- app_assoc.
    + left. simpl.
      assert (Hin : BaseTestCase.report_dir cfg
                    ∈ {[BaseTestCase.report_dir cfg]} ∪ dirs s)
        by set_solver.
      repeat split; auto.
      * now apply test_report_dir_present.
      * intros Hin'. contradiction.
Qed.

Variable exc_info : ExcInfo.
Hypothesis not_skipped : cls_name (exc_info_0 exc_info) <> "SkipTest".

Lemma ignore_skip_runs_body (body : ExcInfo -> M State unit) (s : State) :
  ignore_skip body exc_info s = body exc_info s.
Proof.
  unfold ignore_skip.
  destruct (String.eqb_spec (cls_name (exc_info_0 exc_info)) "SkipTest");
    [contradiction | reflexivity].
Qed.

(** X9: four of the five hooks evaluate [_test_report_dir] before they
    enter [log_exception].  When the directory is missing and [makedirs]
    raises, whatever the class of the exception, these four hooks raise it
    to their caller and attach nothing.  [_attach_video] evaluates it
    inside [log_exception]: with the recorder stopped already, the same
    failure is caught there when it derives from Exception, attached under
    'Attach video', and the hook returns. *)
Theorem hooks_when_makedirs_raises (s : State) (e : Exc) :
  let dir := BaseTestCase.report_dir cfg in
  let tried := set_calls (fun l => l ++ [makedirs dir]) s in
  dir ∉ dirs s ->
  fails cfg (length (calls s)) (makedirs dir) = Some e ->
  Forall (fun hook : ExcInfo -> M State unit =>
            hook exc_info s = (Raise e, tried))
    [ BaseTestCase._attach_page_source cfg;
      BaseTestCase._attach_screenshot cfg;
      BaseTestCase._attach_browser_log cfg;
      BaseTestCase._attach_test_log cfg ]
  /\ (is_launched s = false ->
      derives_Exception (exc_type e) = true ->
      BaseTestCase._attach_video cfg exc_info s
      = (Return tt,
         set_details (fun d => <["Attach video" := format_exc e]> d) tried)).
Proof.
  cbv zeta. intros Hout Hfail.
  pose proof (test_report_dir_absent s Hout) as T. rewrite Hfail in T.
  split.
  - repeat constructor;
      unfold BaseTestCase._attach_page_source, BaseTestCase._attach_screenshot,
        BaseTestCase._attach_browser_log, BaseTestCase._attach_test_log;
      rewrite ignore_skip_runs_body;
      unfold BaseTestCase.attach_page_source_body,
        BaseTestCase.attach_screenshot_body,
        BaseTestCase.attach_browser_log_body,
        BaseTestCase.attach_test_log_body;
      unfold bind at 1; rewrite T; reflexivity.
  - intros L D. unfold BaseTestCase._attach_video.
    rewrite ignore_skip_runs_body. unfold BaseTestCase.attach_video_body,
      BaseTestCase.log_exception, try_except_Exception.
    assert (B : bind (VideoRecorder_stop cfg)
                  (fun _ =>
                     bind (BaseTestCase._test_report_dir cfg)
                       (fun report_dir =>
                          call cfg (copyfile (file_path cfg)
                                      (path_join report_dir "video.mp4")))) s
                = (Raise e,
                   set_calls
                     (fun l => l ++ [makedirs (BaseTestCase.report_dir cfg)])
                     s)).
    { unfold bind at 1.
      destruct (VideoRecorder_stop_cases cfg s) as [[_ E] | [L' _]];
        [| congruence].
      rewrite E. unfold bind. now rewrite T. }
    rewrite B, D. reflexivity.
Qed.

End ReportDir.

Lemma hooks_when_makedirs_raises_witness :
  let s := set_is_launched false (Runs.after_setUp Failures.read_only) in
  let e := MkExc OSError "Read-only file system" in
  let tried :=
    set_calls
      (fun l => l ++ [makedirs (BaseTestCase.report_dir Failures.read_only)])
      s in
  Forall (fun hook : ExcInfo -> M State unit =>
            hook Runs.failed s = (Raise e, tried))
    [ BaseTestCase._attach_page_source Failures.read_only;
      BaseTestCase._attach_screenshot Failures.read_only;
      BaseTestCase._attach_browser_log Failures.read_only;
      BaseTestCase._attach_test_log Failures.read_only ]
  /\ BaseTestCase._attach_video Failures.read_only Runs.failed s
     = (Return tt,
        set_details (fun d => <["Attach video" := format_exc e]> d) tried).
Proof.
  cbv zeta.
  destruct (hooks_when_makedirs_raises Failures.read_only Runs.failed
              ltac:(simpl; discriminate)
              (set_is_launched false (Runs.after_setUp Failures.read_only))
              (MkExc OSError "Read-only file system")
              ltac:(vm_compute; set_solver) eq_refl) as [Four Video].
  split; [exact Four | apply Video; reflexivity].
Defined.

(** After a test that failed, with the recorder running: the page-source
    hook raises the error of [makedirs]; the video hook, run next, stops
    the recorder and attaches the same error. *)
Example hooks_on_a_read_only_disk :
  let s := Runs.after_setUp Failures.read_only in
  let video := BaseTestCase._attach_video Failures.read_only Runs.failed s in
  fst (BaseTestCase._attach_page_source Failures.read_only Runs.failed s)
  = Raise (MkExc OSError "Read-only file system")
  /\ details
       (snd (BaseTestCase._attach_page_source Failures.read_only
               Runs.failed s)) = ∅
  /\ fst video = Return tt
  /\ dom (details (snd video)) = {["Attach video"]}
  /\ is_launched (snd video) = false.
Proof. vm_compute. repeat split. Qed.

(** ** [setUp]: what a failure leaves behind *)

Section RaisesEarly.
Variable cfg : Setting.
Context {A B : Type}.
Variable f : State -> B.
Variable Q : B -> Outcome A * State -> Prop.

Lemma raises_early_or_raise (e : Exc) : raises_early_or f Q (raise e).
Proof. intros s. left. exists e. auto. Qed.

Lemma raises_early_or_bind {X} (m : M State X) (k : X -> M State A) :
  keeps f m -> (forall x, raises_early_or f Q (k x)) ->
  raises_early_or f Q (bind m k).
Proof.
  intros Hm Hk s. unfold bind. specialize (Hm s).
  destruct (m s) as [[x | e] s1]; simpl in *.
  - rewrite <- Hm. apply Hk.
  - left. exists e. auto.
Qed.

Lemma raises_early_or_if (b : bool) (m1 m2 : M State A) :
  raises_early_or f Q m1 -> raises_early_or f Q m2 ->
  raises_early_or f Q (if b then m1 else m2).
Proof. destruct b; auto. Qed.

Lemma raises_early_or_end (m : M State A) :
  (forall s, Q (f s) (m s)) -> raises_early_or f Q m.
Proof. intros H s. right. apply H. Qed.

End RaisesEarly.

Section SetUpFailures.
Variable cfg : Setting.

Lemma VideoRecorder_keeps_on_exception :
  keeps on_exception (VideoRecorder_init cfg)
  /\ keeps on_exception (VideoRecorder_start cfg).
Proof.
  split; unfold VideoRecorder_init, VideoRecorder_start; keeps_tac.
Qed.

(** X10: [setUp] registers the five hooks together, as its last step
    before [super().setUp()].  When it raises earlier (the test is
    skipped, the display, the browser or the recorder does not start) the
    hooks registered are those there were: no artifact is attached for
    such a failure.  Otherwise the five hooks were added, in their order,
    and the call of [super().setUp()] was the last thing [setUp] did. *)
Theorem setUp_registers_hooks_last (s : State) :
  let r := BaseTestCase.setUp cfg s in
  (exists e, fst r = Raise e /\ on_exception (snd r) = on_exception s)
  \/ (on_exception (snd r) = on_exception s ++ hook_names
      /\ exists before, calls (snd r) = before ++ [super_setUp]).
Proof.
  cbv zeta.
  apply (raises_early_or_bind on_exception
           (fun hooks r =>
              on_exception (snd r) = hooks ++ hook_names
              /\ exists before, calls (snd r) = before ++ [super_setUp])).
  { unfold BaseTestCase._configure_log. keeps_tac. }
  intros _. apply raises_early_or_if; [apply raises_early_or_raise |].
  do 5 (apply raises_early_or_bind; [solve [keeps_tac] | intros _]).
  apply raises_early_or_bind;
    [apply VideoRecorder_keeps_on_exception | intros _].
  apply raises_early_or_bind;
    [apply VideoRecorder_keeps_on_exception | intros _].
  apply raises_early_or_end. intros s1.
  unfold bind, BaseTestCase.addOnException, modify, call. simpl.
  destruct (fails cfg _ super_setUp); simpl; rewrite <- !app_assoc; simpl;
    (split; [reflexivity | eexists; reflexivity]).
Qed.

Lemma setUp_issues_no_cleanup :
  issues (fun c => ~ cleanup_call c) (BaseTestCase.setUp cfg).
Proof.
  unfold BaseTestCase.setUp, BaseTestCase._configure_log,
    BaseTestCase.addOnException, VideoRecorder_init, VideoRecorder_start.
  issues_tac; simpl; tauto.
Qed.

Lemma snd_bind_holds {X Y} (I : State -> Prop) (m : M State X)
    (k : X -> M State Y) (s : State) :
  I (snd (m s)) -> (forall x s1, I s1 -> I (snd (k x s1))) ->
  I (snd (bind m k s)).
Proof.
  intros Hm Hk. unfold bind. destruct (m s) as [[x | e] s1]; simpl in *; auto.
Qed.

Lemma keeps_holds {X B} (f : State -> B) (b : B) (m : M State X) :
  keeps f m -> forall s, f s = b -> f (snd (m s)) = b.
Proof. intros K s H. now rewrite K. Qed.

(** X11: [setUp] undoes nothing of what it started.  It never stops the
    display, quits the driver or stops ffmpeg; and once [Xvfb(1920, 1080)]
    has returned in a headless run, [self.vdisplay] stays bound whatever
    happens next.  So when a later step raises (the browser does not
    start, say) the display that was started is left running by
    [setUp]. *)
Theorem setUp_leaves_what_it_started :
  issues (fun c => ~ cleanup_call c) (BaseTestCase.setUp cfg)
  /\ (forall s,
        environ_get (environ cfg) "INTEGRATION_TESTS" = true ->
        environ_get (environ cfg) "SELENIUM_HEADLESS" = true ->
        fails cfg (length (calls s)) (Xvfb 1920 1080) = None ->
        vdisplay (snd (BaseTestCase.setUp cfg s)) = true).
Proof.
  split; [exact setUp_issues_no_cleanup |].
  intros s Hint Hhl Hx. unfold BaseTestCase.setUp. rewrite Hint, Hhl.
  cbn [negb].
  assert (Rest : forall (m : M State unit), keeps vdisplay m ->
            forall s1, vdisplay s1 = true -> vdisplay (snd (m s1)) = true).
  { intros m K s1 H. now rewrite K. }
  unfold bind at 1. unfold BaseTestCase._configure_log at 1, modify at 1.
  apply (snd_bind_holds (fun st => vdisplay st = true)).
  - unfold bind at 1. unfold call at 1. cbn [set_log_buffer calls].
    rewrite Hx. unfold bind at 1, modify at 1.
    apply Rest; [keeps_tac | reflexivity].
  - intros _ s1. apply Rest.
    unfold BaseTestCase.addOnException, VideoRecorder_init,
      VideoRecorder_start. keeps_tac.
Qed.

End SetUpFailures.

Lemma setUp_leaves_what_it_started_witness :
  vdisplay (snd (BaseTestCase.setUp Failures.no_browser initial)) = true.
Proof.
  apply (proj2 (setUp_leaves_what_it_started Failures.no_browser));
    reflexivity.
Defined.

(** A headless run in which the browser does not start: [setUp] raises
    right after the display was started, no hook is registered, and
    nothing stops the display. *)
Example setUp_without_a_browser :
  let r := BaseTestCase.setUp Failures.no_browser initial in
  fst r = Raise (MkExc (MkExcClass "WebDriverException" true) "no firefox")
  /\ calls (snd r)
     = [Xvfb 1920 1080; extend_xvfb_args "extra_xvfb_args" ["-noreset"; "-ac"];
        get_next_unused_display; vdisplay_start; WebDriverWrapper]
  /\ vdisplay (snd r) = true
  /\ on_exception (snd r) = [].
Proof. vm_compute. repeat split. Qed.

(** ** [tearDown] when the recorder does not stop *)

Section TearDownFailures.
Variable cfg : Setting.

Lemma VideoRecorder_stop_issues :
  issues (fun c => c = send_signal_SIGINT \/ c = communicate)
    (VideoRecorder_stop cfg).
Proof. unfold VideoRecorder_stop. issues_tac; auto. Qed.

(** X12: [BaseTestCase.tearDown] has no [finally] of its own.  When
    stopping the recorder raises, [TestCase.tearDown] raises that
    exception, in place of whatever the log-out step raised; after the
    log-out step only the calls of the recorder were issued, so the driver
    is not quit, the display is not stopped and [super().tearDown()] is not
    called; and the recorder still counts as launched. *)
Theorem tearDown_stops_at_a_recorder_failure (s : State) (e : Exc) :
  let after_step := snd (TestCase.log_out_step cfg s) in
  fst (VideoRecorder_stop cfg after_step) = Raise e ->
  TestCase.tearDown cfg s = (Raise e, snd (VideoRecorder_stop cfg after_step))
  /\ is_launched (snd (TestCase.tearDown cfg s)) = true
  /\ exists l,
       calls (snd (TestCase.tearDown cfg s)) = calls after_step ++ l
       /\ Forall (fun c => c = send_signal_SIGINT \/ c = communicate) l.
Proof.
  cbv zeta. intros H.
  assert (B : BaseTestCase.tearDown cfg (snd (TestCase.log_out_step cfg s))
              = (Raise e,
                 snd (VideoRecorder_stop cfg
                        (snd (TestCase.log_out_step cfg s))))).
  { unfold BaseTestCase.tearDown. unfold bind at 1.
    destruct (VideoRecorder_stop cfg (snd (TestCase.log_out_step cfg s)))
      as [[[] | e'] s2]; simpl in *; congruence. }
  assert (T : TestCase.tearDown cfg s
              = (Raise e,
                 snd (VideoRecorder_stop cfg
                        (snd (TestCase.log_out_step cfg s))))).
  { unfold TestCase.tearDown, try_finally.
    destruct (TestCase.log_out_step cfg s) as [[[] | e1] s1]; simpl in *;
      now rewrite B. }
  rewrite T. simpl. split; [reflexivity |]. split.
  - destruct (VideoRecorder_stop_cases cfg
                (snd (TestCase.log_out_step cfg s)))
      as [[_ E] | [_ [[E _] | [_ L]]]]; [| | exact L];
      rewrite E in H; discriminate.
  - apply VideoRecorder_stop_issues.
Qed.

End TearDownFailures.

Lemma tearDown_stops_at_a_recorder_failure_witness :
  let s := Runs.after_setUp Failures.ffmpeg_hangs in
  let e := MkExc OSError "No child processes" in
  let after_step := snd (TestCase.log_out_step Failures.ffmpeg_hangs s) in
  TestCase.tearDown Failures.ffmpeg_hangs s
  = (Raise e, snd (VideoRecorder_stop Failures.ffmpeg_hangs after_step))
  /\ is_launched (snd (TestCase.tearDown Failures.ffmpeg_hangs s)) = true
  /\ exists l,
       calls (snd (TestCase.tearDown Failures.ffmpeg_hangs s))
       = calls after_step ++ l
       /\ Forall (fun c => c = send_signal_SIGINT \/ c = communicate) l.
Proof.
  exact (tearDown_stops_at_a_recorder_failure Failures.ffmpeg_hangs
           (Runs.after_setUp Failures.ffmpeg_hangs)
           (MkExc OSError "No child processes") eq_refl).
Defined.

(** The calls of such a tear-down: the session is logged out, ffmpeg is
    signalled, the wait for it raises, and that is all. *)
Example tearDown_when_ffmpeg_hangs :
  let s := Runs.after_setUp Failures.ffmpeg_hangs in
  let r := TestCase.tearDown Failures.ffmpeg_hangs s in
  fst r = Raise (MkExc OSError "No child processes")
  /\ calls (snd r)
     = calls s ++ [is_logged_in; go_to_home_page; log_out;
                   send_signal_SIGINT; communicate].
Proof. vm_compute. repeat split. Qed.

(** ** The video hook and the tear-down *)

Section VideoThenTearDown.
Variable cfg : Setting.
Variable exc_info : ExcInfo.
Hypothesis not_skipped : cls_name (exc_info_0 exc_info) <> "SkipTest".

Lemma tearDown_issues_no_stop (s : State) :
  is_launched s = false ->
  exists l,
    calls (snd (BaseTestCase.tearDown cfg s)) = calls s ++ l
    /\ Forall (fun c => c <> send_signal_SIGINT /\ c <> communicate) l.
Proof.
  intros L. unfold BaseTestCase.tearDown. unfold bind at 1.
  destruct (VideoRecorder_stop_cases cfg s) as [[_ E] | [L' _]];
    [| congruence].
  rewrite E.
  match goal with |- context [snd (?m s)] =>
    assert (I : issues (fun c => c <> send_signal_SIGINT /\ c <> communicate) m)
  end.
  { issues_tac; split; discriminate. }
  apply I.
Qed.

(** X13: the recorder is stopped once.  When [_attach_video] ran for a
    failure that is no skip, returned, and attached no detail 'Attach
    video' (nothing went wrong in it), then it has stopped the recorder
    and its last call copied the video file into the report directory;
    the [tearDown] that follows finds the recorder stopped and neither
    signals ffmpeg nor waits for it again. *)
Theorem attach_video_stops_the_recorder_once (s : State) :
  let r := BaseTestCase._attach_video cfg exc_info s in
  fst r = Return tt ->
  details (snd r) !! "Attach video" = None ->
  is_launched (snd r) = false
  /\ (exists before,
        calls (snd r)
        = before ++ [copyfile (file_path cfg)
                       (path_join (BaseTestCase.report_dir cfg) "video.mp4")])
  /\ exists l,
       calls (snd (BaseTestCase.tearDown cfg (snd r))) = calls (snd r) ++ l
       /\ Forall (fun c => c <> send_signal_SIGINT /\ c <> communicate) l.
Proof.
  cbv zeta. unfold BaseTestCase._attach_video.
  rewrite ignore_skip_runs_body by exact not_skipped.
  unfold BaseTestCase.attach_video_body, BaseTestCase.log_exception,
    try_except_Exception.
  match goal with |- context [match ?b s with _ => _ end] =>
    set (body := b) end.
  assert (B : forall s1, body s = (Return tt, s1) ->
            is_launched s1 = false
            /\ exists before,
                 calls s1
                 = before ++ [copyfile (file_path cfg)
                                (path_join (BaseTestCase.report_dir cfg)
                                   "video.mp4")]).
  { subst body. intros s1 H. apply bind_Return_inv in H.
    destruct H as ([] & s2 & Hstop & H).
    apply bind_Return_inv in H. destruct H as (dir & s3 & Hdir & H).
    assert (L2 : is_launched s2 = false).
    { destruct (VideoRecorder_stop_cases cfg s) as [[L E] | [_ [[_ L] | [[e E] _]]]].
      - rewrite E in Hstop. injection Hstop as <-. exact L.
      - now rewrite Hstop in L.
      - rewrite Hstop in E. discriminate. }
    assert (L3 : is_launched s3 = false).
    { assert (K : keeps is_launched (BaseTestCase._test_report_dir cfg)).
      { unfold BaseTestCase._test_report_dir. keeps_tac. }
      specialize (K s2). rewrite Hdir in K. simpl in K. congruence. }
    assert (D : dir = BaseTestCase.report_dir cfg).
    { unfold BaseTestCase._test_report_dir in Hdir.
      apply bind_Return_inv in Hdir. destruct Hdir as (p & s4 & _ & Hdir).
      apply bind_Return_inv in Hdir. destruct Hdir as (u & s5 & _ & Hdir).
      simpl in Hdir. now injection Hdir as <- _. }
    subst dir. unfold call in H.
    destruct (fails cfg _ _); [discriminate |].
    injection H as <-. simpl. split; [exact L3 | eexists; reflexivity]. }
  destruct (body s) as [[[] | e] s1] eqn:E.
  - intros _ _. destruct (B s1 eq_refl) as [L C]. simpl.
    split; [exact L |]. split; [exact C |].
    now apply tearDown_issues_no_stop.
  - destruct (derives_Exception (exc_type e)).
    + unfold BaseTestCase.addDetail, modify. simpl. intros _ H.
      rewrite lookup_insert_eq in H. discriminate.
    + simpl. discriminate.
Qed.

End VideoThenTearDown.

Lemma attach_video_stops_the_recorder_once_witness :
  let r := BaseTestCase._attach_video Runs.plain Runs.failed
             (Runs.after_setUp Runs.plain) in
  is_launched (snd r) = false
  /\ (exists before,
        calls (snd r)
        = before ++ [copyfile (file_path Runs.plain)
                       (path_join (BaseTestCase.report_dir Runs.plain)
                          "video.mp4")])
  /\ exists l,
       calls (snd (BaseTestCase.tearDown Runs.plain (snd r)))
       = calls (snd r) ++ l
       /\ Forall (fun c => c <> send_signal_SIGINT /\ c <> communicate) l.
Proof.
  exact (attach_video_stops_the_recorder_once Runs.plain Runs.failed
           ltac:(simpl; discriminate) (Runs.after_setUp Runs.plain)
           eq_refl eq_refl).
Defined.

(** ** The demo user is provisioned at most once *)

Section InProcess.
Variable cfg : Setting.
Variable P : Call -> Prop.

Lemma issues_in_process_lift {A} (m : M State A) :
  issues P m -> issues_in_process P (TestCase.in_process m).
Proof.
  intros H [c s]. unfold TestCase.in_process. simpl.
  destruct (H s) as (l & E & F). destruct (m s) as [o s1]. simpl in *.
  eauto.
Qed.

Lemma issues_in_process_bind {A B} (m : M (list string * State) A)
    (k : A -> M (list string * State) B) :
  issues_in_process P m -> (forall a, issues_in_process P (k a)) ->
  issues_in_process P (bind m k).
Proof.
  intros Hm Hk cw. unfold bind.
  destruct (Hm cw) as (l1 & E1 & F1).
  destruct (m cw) as [[a | e] cw1]; simpl in *.
  - destruct (Hk a cw1) as (l2 & E2 & F2).
    exists (l1 ++ l2). rewrite E2, E1, app_assoc. split; [reflexivity |].
    apply Forall_app; auto.
  - exists l1. auto.
Qed.

Lemma keeps_called_funcs_lift {A} (m : M State A) :
  keeps_called_funcs (TestCase.in_process m).
Proof.
  intros [c s]. unfold TestCase.in_process. simpl.
  now destruct (m s) as [o s1].
Qed.

Lemma keeps_called_funcs_bind {A B} (m : M (list string * State) A)
    (k : A -> M (list string * State) B) :
  keeps_called_funcs m -> (forall a, keeps_called_funcs (k a)) ->
  keeps_called_funcs (bind m k).
Proof.
  intros Hm Hk cw. unfold bind. specialize (Hm cw).
  destruct (m cw) as [[a | e] cw1]; simpl in *.
  - now rewrite Hk.
  - exact Hm.
Qed.

End InProcess.

Section DemoUser.
Variable cfg : Setting.

Lemma BaseTestCase_setUp_provisions_nothing :
  issues (fun c => ~ provisioning c) (BaseTestCase.setUp cfg).
Proof.
  unfold BaseTestCase.setUp, BaseTestCase._configure_log,
    BaseTestCase.addOnException, VideoRecorder_init, VideoRecorder_start.
  issues_tac; simpl; tauto.
Qed.

Lemma create_demo_user_issues :
  issues (fun _ => True) (TestCase.create_demo_user_body cfg tt).
Proof. unfold TestCase.create_demo_user_body. issues_tac; exact I. Qed.

(** What the wrapper does to the list and to the call log. *)
Lemma create_demo_user_cases (cw : list string * State) :
  let r := TestCase.create_demo_user cfg tt cw in
  (In "create_demo_user" (fst cw) /\ r = (Return None, cw))
  \/ (~ In "create_demo_user" (fst cw)
      /\ fst (snd r) = fst cw ++ ["create_demo_user"]
      /\ exists l, calls (snd (snd r)) = calls (snd cw) ++ l).
Proof.
  cbv zeta. unfold TestCase.create_demo_user.
  destruct (existsb (String.eqb "create_demo_user") (fst cw)) eqn:G.
  - left. apply existsb_eqb_In in G. split; [exact G |].
    destruct cw as [c s]. now apply once_only_guarded.
  - right. split.
    + intros Hin. apply (existsb_eqb_In "create_demo_user") in Hin. congruence.
    + unfold once_only. rewrite G. simpl.
      destruct (create_demo_user_issues (snd cw)) as (l & E & _).
      destruct (TestCase.create_demo_user_body cfg tt (snd cw))
        as [[[] | e] s1]; simpl in *; eauto.
Qed.

(** X14: of the [setUp]s of the tests of one process at most one
    provisions the demo user, whatever comes of it.  A [setUp] that finds
    'create_demo_user' in the list of the decoration leaves the list alone
    and issues no call that looks at or changes projects or users.  A
    [setUp] that does not find it either raises before it reaches the
    wrapper, with the list untouched and no such call issued, or appends
    the name: the name is recorded before the body runs, so a body that
    raised half way is not run again by any later [setUp]. *)
Theorem demo_user_is_provisioned_at_most_once (cw : list string * State) :
  let r := TestCase.setUp cfg cw in
  exists l,
    calls (snd (snd r)) = calls (snd cw) ++ l
    /\ (In "create_demo_user" (fst cw) ->
        fst (snd r) = fst cw /\ Forall (fun c => ~ provisioning c) l)
    /\ (~ In "create_demo_user" (fst cw) ->
        (exists e, fst r = Raise e)
        /\ fst (snd r) = fst cw
        /\ Forall (fun c => ~ provisioning c) l
        \/ fst (snd r) = fst cw ++ ["create_demo_user"]).
Proof.
  cbv zeta. unfold TestCase.setUp.
  set (np := fun c => ~ provisioning c).
  match goal with |- context [bind (TestCase.create_demo_user cfg tt) ?k] =>
    set (rest := k) end.
  assert (RI : forall u, issues_in_process np (rest u)).
  { intros u. subst rest. cbv beta.
    repeat first
      [ apply issues_in_process_bind; [| intros ?]
      | apply issues_in_process_lift ];
      unfold TestCase.assertTrue, TestCase.assertFalse;
      issues_tac; subst np; simpl; tauto. }
  assert (RK : forall u, keeps_called_funcs (rest u)).
  { intros u. subst rest. cbv beta.
    repeat first
      [ apply keeps_called_funcs_bind; [| intros ?]
      | apply keeps_called_funcs_lift ]. }
  clearbody rest. destruct cw as [c s].
  match goal with
  | |- context [bind (TestCase.in_process (BaseTestCase.setUp cfg)) ?k ?w] =>
      set (r := bind (TestCase.in_process (BaseTestCase.setUp cfg)) k w)
  end.
  assert (R : r = bind (TestCase.in_process (BaseTestCase.setUp cfg))
                    (fun _ =>
                       bind (TestCase.in_process (call cfg go_to_login_page))
                         (fun _ =>
                            bind (TestCase.create_demo_user cfg tt) rest))
                    (c, s)) by reflexivity.
  clearbody r. unfold bind at 1 in R.
  pose proof (issues_in_process_lift np (BaseTestCase.setUp cfg)
                BaseTestCase_setUp_provisions_nothing (c, s)) as H1.
  pose proof (keeps_called_funcs_lift (BaseTestCase.setUp cfg) (c, s)) as K1.
  destruct (TestCase.in_process (BaseTestCase.setUp cfg) (c, s))
    as [[[] | e1] [c1 s1]]; simpl in H1, K1; subst c1;
    destruct H1 as (l1 & E1 & F1).
  2:{ subst r. exists l1. simpl. split; [exact E1 |].
      split; [intros _; split; [reflexivity | exact F1] |].
      intros _. left. eauto. }
  unfold bind at 1 in R.
  pose proof (issues_in_process_lift np (call cfg go_to_login_page)
                ltac:(apply issues_call; subst np; simpl; tauto) (c, s1))
    as H2.
  pose proof (keeps_called_funcs_lift (call cfg go_to_login_page) (c, s1))
    as K2.
  destruct (TestCase.in_process (call cfg go_to_login_page) (c, s1))
    as [[[] | e2] [c2 s2]]; simpl in H2, K2; subst c2;
    destruct H2 as (l2 & E2 & F2).
  2:{ subst r. exists (l1 ++ l2). simpl. rewrite E2, E1, app_assoc.
      split; [reflexivity |].
      assert (Forall np (l1 ++ l2)) by (apply Forall_app; auto).
      split; [intros _; split; [reflexivity | assumption] |].
      intros _. left. eauto. }
  unfold bind at 1 in R.
  destruct (create_demo_user_cases (c, s2)) as [[G E] | (G & L & l3 & E3)].
  - rewrite E in R. simpl in G.
    destruct (RI None (c, s2)) as (l4 & E4 & F4).
    pose proof (RK None (c, s2)) as K4. subst r. simpl in *.
    exists (l1 ++ l2 ++ l4). rewrite E4, E2, E1, <- !app_assoc.
    split; [reflexivity |]. split.
    + intros _. split; [exact K4 |].
      apply Forall_app; split; [exact F1 |]. apply Forall_app; auto.
    + intros Hn. contradiction.
  - simpl in G, L, E3.
    destruct (TestCase.create_demo_user cfg tt (c, s2))
      as [[a | e3] [c3 s3]]; simpl in L, E3; subst c3.
    + destruct (RI a (c ++ ["create_demo_user"], s3)) as (l4 & E4 & _).
      pose proof (RK a (c ++ ["create_demo_user"], s3)) as K4.
      subst r. simpl in *.
      exists (l1 ++ l2 ++ l3 ++ l4). rewrite E4, E3, E2, E1, <- !app_assoc.
      split; [reflexivity |]. split; [intros Hin; contradiction |].
      intros _. right. exact K4.
    + subst r. simpl. exists (l1 ++ l2 ++ l3).
      rewrite E3, E2, E1, <- !app_assoc.
      split; [reflexivity |]. split; [intros Hin; contradiction |].
      intros _. right. reflexivity.
Qed.

End DemoUser.

(** Creating the demo user fails in the first test of a process: the name
    is recorded all the same, and the [setUp] of the second test, a new
    instance in the same process, goes on to log in as the demo user
    without having it made. *)
Example demo_user_is_not_made_again :
  let first := TestCase.setUp Failures.no_demo_user (decorated initial) in
  let second :=
    TestCase.setUp Failures.no_demo_user (fst (snd first), initial) in
  fst first = Raise (MkExc TimeoutException "create user")
  /\ fst (snd first) = ["create_demo_user"]
  /\ fst second = Return tt
  /\ calls (snd (snd second))
     = [WebDriverWrapper; maximize_window; implicitly_wait;
        set_page_load_timeout; xdpyinfo; open_w "/dev/null"; Popen_ffmpeg;
        super_setUp; go_to_login_page;
        login "demo" "secret"; change_project "demo";
        find_message_and_dismiss "SUCCESS"; find_message_and_dismiss "ERROR"].
Proof. vm_compute. repeat split. Qed.

(** ** Which file the credentials are read from *)

Section DownloadedFile.
Variable CONFIG : Conf.
Variables directory template : string.

Lemma file_is_there_eq (w : Browser) :
  file_is_there directory template w
  = (Return (0 <? length (matching w directory template (clock w)))%nat, w).
Proof.
  unfold file_is_there, ApiaccessPage.list_of_files, bind, gets, ret,
    matching.
  now rewrite length_map.
Qed.

Lemma later_0 (w : Browser) : later 0 w = w.
Proof.
  destruct w. unfold later, set_clock. simpl. f_equal. lia.
Qed.

Lemma later_S (k : nat) (w : Browser) :
  later k (set_clock S w) = later (S k) w.
Proof. destruct w. unfold later, set_clock. simpl. f_equal. lia. Qed.

(** The polling ends at the first tick at which a file matches. *)
Lemma wait_for_the_file (timeout k : nat) (w : Browser) (e : DirEntry)
    (es : list DirEntry) :
  k <= timeout ->
  (forall j, j < k -> matching w directory template (clock w + j) = []) ->
  matching w directory template (clock w + k) = e :: es ->
  _wait_until (fun found : bool => found)
    (file_is_there directory template) timeout w
  = (Return true, later k w).
Proof.
  revert timeout w. induction k as [| k IH]; intros timeout w Hk Hnone Hsome;
    rewrite wait_until_unfold, file_is_there_eq.
  - rewrite Nat.add_0_r in Hsome. rewrite Hsome. simpl.
    now rewrite later_0.
  - pose proof (Hnone 0 ltac:(lia)) as H0. rewrite Nat.add_0_r in H0.
    rewrite H0. simpl. destruct timeout as [| remaining]; [lia |].
    rewrite <- later_S. apply IH.
    + lia.
    + intros j Hj. simpl.
      replace (S (clock w + j)) with (clock w + S j) by lia.
      apply (Hnone (S j)). lia.
    + simpl. replace (S (clock w + k)) with (clock w + S k) by lia.
      exact Hsome.
Qed.

Lemma find_first_of_filter {X} (p q : X -> bool) (l : list X) (e : X)
    (es : list X) :
  List.filter p l = e :: es ->
  (forall x, q x = true -> p x = true) ->
  q e = true ->
  List.find q l = Some e.
Proof.
  intros Hf Hqp Hq. induction l as [| x l IH]; simpl in *; [discriminate |].
  destruct (p x) eqn:P.
  - injection Hf as -> _. now rewrite Hq.
  - destruct (q x) eqn:Q; [| auto].
    apply Hqp in Q. congruence.
Qed.

(** X15: [get_credentials_from_file] reads the first matching file of
    the first listing that has one.  When the directory has no regular file
    whose name ends with the template at the first [k] polls, and has one
    at the next, with [k] within the timeout, the credentials are taken
    from the content of the first such file in the order of the listing,
    the world being [k] polling intervals later and otherwise as it was;
    nothing relates the file to the download that was started.  For
    [k = 0], a file that is there already, left by an earlier download,
    is read at once. *)
Theorem get_credentials_reads_the_first_match (self : Page) (version : Z)
    (k : nat) (w : Browser) (e : DirEntry) (es : list DirEntry) :
  k <= polls CONFIG ->
  (forall j, j < k -> matching w directory template (clock w + j) = []) ->
  matching w directory template (clock w + k) = e :: es ->
  ApiaccessPage.get_credentials_from_file CONFIG self version directory
    template w
  = credentials_of version (entry_data e) (later k w).
Proof.
  intros Hk Hnone Hsome. rewrite get_credentials_after_fetch.
  assert (F : fetch CONFIG directory template w
              = (Return (entry_data e), later k w)).
  { unfold fetch. unfold bind at 1.
    rewrite (wait_for_the_file (polls CONFIG) k w e es Hk Hnone Hsome).
    assert (Hm : matching (later k w) directory template (clock (later k w))
                 = e :: es) by exact Hsome.
    unfold bind, ApiaccessPage.list_of_files, gets.
    unfold matching in Hm. rewrite Hm. simpl.
    unfold ApiaccessPage.read_file, bind, gets.
    rewrite (find_first_of_filter _ _ _ e es Hm).
    - reflexivity.
    - intros x Hx. apply andb_true_iff in Hx. destruct Hx as [Hn Hi].
      apply String.eqb_eq in Hn.
      assert (He : In e (List.filter
                (fun f => entry_isfile f
                          && ApiaccessPage.endswith (entry_name f) template)
                (listdir (later k w) (clock (later k w)) directory))).
      { rewrite Hm. now left. }
      apply filter_In in He. destruct He as [_ He].
      apply andb_true_iff in He. rewrite Hn, Hi. simpl. tauto.
    - rewrite String.eqb_refl. simpl.
      assert (He : In e (List.filter
                (fun f => entry_isfile f
                          && ApiaccessPage.endswith (entry_name f) template)
                (listdir (later k w) (clock (later k w)) directory))).
      { rewrite Hm. now left. }
      apply filter_In in He. destruct He as [_ He].
      apply andb_true_iff in He. tauto. }
  rewrite F. reflexivity.
Qed.

End DownloadedFile.

Lemma get_credentials_reads_the_first_match_witness :
  ApiaccessPage.get_credentials_from_file Runs.conf Runs.page 2
    "downloads" "demo-openrc.sh" Pages.browser
  = credentials_of 2 Runs.openrc_v2 (later 2 Pages.browser).
Proof.
  apply (get_credentials_reads_the_first_match Runs.conf
           "downloads" "demo-openrc.sh" Runs.page 2 2 Pages.browser
           (MkDirEntry "demo-openrc.sh" true Runs.openrc_v2) []).
  - simpl. lia.
  - intros [| [| j]] Hj; [reflexivity | reflexivity | lia].
  - reflexivity.
Defined.

(** With the template 'openrc.sh' the file of the earlier download is
    there at the start: it is the one that is read, at once, and the
    pattern of the user name does not match its content. *)
Example get_credentials_from_an_old_file :
  let r := ApiaccessPage.get_credentials_from_file Runs.conf Runs.page 2
             "downloads" "openrc.sh" Pages.browser in
  fst r = Raise (MkExc AttributeError
                   "'NoneType' object has no attribute 'group'")
  /\ clock (snd r) = 0.
Proof. split; vm_compute; reflexivity. Qed.

(** Rows of the volumes table: the second name has no row, so the third
    is not looked up and nothing is clicked. *)
Example delete_volumes_with_a_missing_name :
  let r := TablePages.delete_volumes Runs.page ["vol"; "gone"; "half"]
             ([], Pages.browser) in
  let all := TablePages.delete_volumes Runs.page ["vol"; "half"]
               ([], Pages.browser) in
  fst r = Raise no_mark
  /\ fst (snd r) = [TablePages.mark (Pages.volume "vol" "1GiB")]
  /\ actions (snd (snd r)) = []
  /\ fst all = Return tt
  /\ fst (snd all) = [TablePages.mark (Pages.volume "vol" "1GiB");
                      TablePages.mark (Pages.volume "half" "1.5GiB")]
  /\ actions (snd (snd all)) = [click "delete"; submit].
Proof.
  pose proof (delete_volumes_marks_rows Runs.page ["vol"; "gone"; "half"]
                [] Pages.browser) as (M1 & [(R1 & _) | (R1 & A1)] & _);
    [discriminate R1 |].
  pose proof (delete_volumes_marks_rows Runs.page ["vol"; "half"]
                [] Pages.browser) as (M2 & [(R2 & A2 & _) | (R2 & _)] & _);
    [| discriminate R2].
  cbv zeta. rewrite R1, M1, A1, R2, M2, A2. repeat split.
Qed.

(** Sizes of the volumes table. *)
Example get_size_of_volumes :
  fst (TablePages.get_size Runs.page "vol" Pages.browser) = Return 1%N
  /\ fst (TablePages.get_size Runs.page "half" Pages.browser) = Return 15%N
  /\ fst (TablePages.get_size Runs.page "odd" Pages.browser)
     = Raise (MkExc TablePages.ValueError
                "invalid literal for int() with base 10: ''")
  /\ fst (TablePages.get_size Runs.page "gone" Pages.browser)
     = Raise (MkExc AttributeError
                "'NoneType' object has no attribute 'cells'")
  /\ fst (TablePages.get_size Runs.page "wide" Pages.browser)
     = Raise (MkExc TablePages.UnicodeEncodeError
                "ordinal not in range(128)").
Proof. repeat split. Qed.

(** ** The browser log *)

Lemma BrowserLog_nested_ind (P : BrowserLog -> Prop) :
  (forall message, P (LogDict message)) ->
  (forall items, Forall P items -> P (LogList items)) ->
  (forall text, P (LogText text)) ->
  forall log, P log.
Proof.
  intros Hd Hl Ht. fix IH 1. intros [message | items | text].
  - apply Hd.
  - apply Hl. induction items as [| x xs IHxs]; constructor.
    + apply IH.
    + exact IHxs.
  - apply Ht.
Qed.

Lemma join_app (sep : string) (l1 l2 : list string) :
  l1 <> [] -> l2 <> [] ->
  String.concat sep (l1 ++ l2)
  = String.concat sep l1 +:+ sep +:+ String.concat sep l2.
Proof.
  intros H1 H2. induction l1 as [| x l1 IH]; [contradiction |].
  destruct l1 as [| y l1].
  - destruct l2 as [| z l2]; [contradiction | reflexivity].
  - change (String.concat sep ((x :: y :: l1) ++ l2))
      with (x +:+ sep +:+ String.concat sep ((y :: l1) ++ l2)).
    rewrite IH by discriminate.
    change (String.concat sep (x :: y :: l1))
      with (x +:+ sep +:+ String.concat sep (y :: l1)).
    now rewrite !app_string_assoc.
Qed.

Lemma lines_not_empty (log : BrowserLog) : lines log <> [].
Proof.
  induction log as [message | items IH | text] using BrowserLog_nested_ind;
    simpl; try discriminate.
  destruct items as [| x xs]; [discriminate |].
  simpl. inversion IH as [| ? ? Hx _]. subst.
  destruct (lines x); [contradiction | discriminate].
Qed.

Lemma join_concat (sep : string) (ls : list (list string)) :
  ls <> [] -> Forall (fun l => l <> []) ls ->
  String.concat sep (concat ls)
  = String.concat sep (map (String.concat sep) ls).
Proof.
  intros Hne H. induction H as [| l ls Hl Hls IH]; [contradiction |].
  destruct ls as [| l' ls].
  - simpl. now rewrite app_nil_r.
  - change (concat (l :: l' :: ls)) with (l ++ concat (l' :: ls)).
    rewrite join_app.
    + rewrite IH by discriminate. reflexivity.
    + exact Hl.
    + inversion Hls as [| ? ? Hl' _]. subst. simpl.
      destruct l'; [contradiction | discriminate].
Qed.

(** X16: [_unwrap_browser_log] writes one line for each entry of the log,
    however the lists are nested: its result is the lines of the log
    joined by newlines, where a dict gives its message, a text gives
    itself, a list gives the lines of its items in order, and a list
    without items gives one empty line.  There is always at least one
    line. *)
Theorem unwrap_browser_log_joins_lines (log : BrowserLog) :
  BaseTestCase._unwrap_browser_log log
  = String.concat (String "010" EmptyString) (lines log)
  /\ lines log <> [].
Proof.
  split; [| apply lines_not_empty].
  unfold BaseTestCase._unwrap_browser_log.
  induction log as [message | items IH | text] using BrowserLog_nested_ind;
    try reflexivity.
  destruct items as [| x xs]; [reflexivity |].
  change (lines (LogList (x :: xs))) with (concat (map lines (x :: xs))).
  rewrite join_concat.
  - change (BaseTestCase.rec (LogList (x :: xs)))
      with (String.concat (String "010" EmptyString)
              (map BaseTestCase.rec (x :: xs))).
    rewrite map_map. f_equal.
    apply map_ext_Forall. exact IH.
  - discriminate.
  - apply List.Forall_forall. intros l Hl. apply in_map_iff in Hl.
    destruct Hl as (item & <- & _). apply lines_not_empty.
Qed.

(** A log with nested lists, and one with an empty list in it. *)
Example unwrap_nested_browser_log :
  let nl := String "010" EmptyString in
  BaseTestCase._unwrap_browser_log
    (LogList [LogDict "a"; LogList [LogText "b"; LogDict "c"]; LogText "d"])
  = "a" +:+ nl +:+ "b" +:+ nl +:+ "c" +:+ nl +:+ "d"
  /\ BaseTestCase._unwrap_browser_log (LogList [LogList []; LogText "d"])
     = nl +:+ "d".
Proof. split; reflexivity. Qed.
